(** * G-Mai SEO auditor ([audit.py]): link resolution, link graph and scoring

    A shallow embedding of the [Config] and [Auditor] classes of
    [audit.py].  Python [str] values are modelled as [string] (one [ascii]
    per code point below 256), Python [int] as [Z], the [defaultdict(list)]
    link graph as a [gmap] from target path to the list of its sources, the
    sets of the auditor as [gset].  The file system and the network are
    oracles: [isfile] answers [os.path.isfile], [Network] answers
    [requests.head] and [requests.get].  [os.path] is [posixpath]. *)

From Stdlib Require Import ZArith Lia Bool List Ascii String.
From Stdlib Require DecimalString.
From stdpp Require Import gmap strings list fin_maps.

Local Open Scope string_scope.
Local Open Scope list_scope.

(** ** Python [str] methods used by the auditor *)

Module Py.

Definition startswith (s p : string) : bool := String.prefix p s.

(** [s.endswith(p)]: [p] is [s] or a suffix of the tail of [s]. *)
Fixpoint endswith (s p : string) : bool :=
  String.eqb s p ||
  match s with
  | EmptyString => false
  | String _ s' => endswith s' p
  end.

(** [p in s] on strings: [p] is a prefix of some suffix of [s]. *)
Fixpoint contains (p s : string) : bool :=
  String.prefix p s ||
  match s with
  | EmptyString => false
  | String _ s' => contains p s'
  end.

(** [s.split(sep)] for a one-character separator. *)
Fixpoint split (sep : ascii) (s : string) : list string :=
  match s with
  | EmptyString => [EmptyString]
  | String c s' =>
      if Ascii.eqb c sep then EmptyString :: split sep s'
      else match split sep s' with
           | [] => [String c EmptyString]
           | h :: t => String c h :: t
           end
  end.

(** [s.split(sep)[0]]: the text before the first [sep]. *)
Definition split0 (sep : ascii) (s : string) : string :=
  match split sep s with
  | [] => EmptyString
  | h :: _ => h
  end.

(** [sep.join(l)]. *)
Fixpoint join (sep : string) (l : list string) : string :=
  match l with
  | [] => EmptyString
  | [x] => x
  | x :: rest => x +:+ sep +:+ join sep rest
  end.

(** [s.lstrip(c)] and [s.rstrip(c)] for a one-character set. *)
Fixpoint lstrip (c : ascii) (s : string) : string :=
  match s with
  | EmptyString => EmptyString
  | String d s' => if Ascii.eqb d c then lstrip c s' else s
  end.

Fixpoint rstrip (c : ascii) (s : string) : string :=
  match s with
  | EmptyString => EmptyString
  | String d s' =>
      match rstrip c s' with
      | EmptyString => if Ascii.eqb d c then EmptyString else String d EmptyString
      | r => String d r
      end
  end.

(** The code points below 256 that [str.isspace] accepts. *)
Definition isspace (c : ascii) : bool :=
  let n := nat_of_ascii c in
  ((9 <=? n)%nat && (n <=? 13)%nat) || ((28 <=? n)%nat && (n <=? 32)%nat)
  || (n =? 133)%nat || (n =? 160)%nat.

Fixpoint lstrip_ws (s : string) : string :=
  match s with
  | EmptyString => EmptyString
  | String d s' => if isspace d then lstrip_ws s' else s
  end.

Fixpoint rstrip_ws (s : string) : string :=
  match s with
  | EmptyString => EmptyString
  | String d s' =>
      match rstrip_ws s' with
      | EmptyString => if isspace d then EmptyString else String d EmptyString
      | r => String d r
      end
  end.

(** [s.strip()]. *)
Definition strip (s : string) : string := rstrip_ws (lstrip_ws s).

(** Truth value of a [str]: the empty string is falsy. *)
Definition truthy (s : string) : bool := negb (String.eqb s EmptyString).

End Py.

(** ** [posixpath] *)

Module posixpath.

Definition sep : ascii := "/"%char.

Definition isabs (p : string) : bool := Py.startswith p "/".

(** One step of [join]: [path] extended by the component [b]. *)
Definition join2 (path b : string) : string :=
  if Py.startswith b "/" then b
  else if String.eqb path EmptyString || Py.endswith path "/" then path +:+ b
  else path +:+ "/" +:+ b.

(** [os.path.join(a, *p)]. *)
Definition join (a : string) (p : list string) : string :=
  fold_left join2 p a.

(** The loop of [normpath] over the components, [new_comps] kept in
    reverse so that its last element is the head. *)
Fixpoint norm_comps (initial_slashes : bool) (comps rev_new : list string)
  : list string :=
  match comps with
  | [] => rev rev_new
  | comp :: rest =>
      if String.eqb comp "" || String.eqb comp "." then
        norm_comps initial_slashes rest rev_new
      else if negb (String.eqb comp "..")
              || (negb initial_slashes && match rev_new with [] => true | _ => false end)
              || match rev_new with last :: _ => String.eqb last ".." | [] => false end
      then norm_comps initial_slashes rest (comp :: rev_new)
      else match rev_new with
           | _ :: popped => norm_comps initial_slashes rest popped
           | [] => norm_comps initial_slashes rest rev_new
           end
  end.

(** [os.path.normpath(path)]. *)
Definition normpath (path : string) : string :=
  if String.eqb path "" then "."
  else
    let slashes : nat :=
      if Py.startswith path "/" then
        if Py.startswith path "//" && negb (Py.startswith path "///") then 2 else 1
      else 0 in
    let comps := norm_comps (negb (slashes =? 0)%nat) (Py.split sep path) [] in
    let body := Py.join "/" comps in
    let res := match slashes with
               | 0 => body
               | 1 => "/" +:+ body
               | _ => "//" +:+ body
               end in
    if String.eqb res "" then "." else res.

(** [p[:p.rfind('/') + 1]]: the prefix of [p] up to its last slash. *)
Fixpoint head_to_last_sep (p : string) : string :=
  match p with
  | EmptyString => EmptyString
  | String c p' =>
      if Ascii.eqb c sep || Py.contains "/" p' then String c (head_to_last_sep p')
      else EmptyString
  end.

Fixpoint all_sep (p : string) : bool :=
  match p with
  | EmptyString => true
  | String c p' => Ascii.eqb c sep && all_sep p'
  end.

(** [os.path.dirname(p)]. *)
Definition dirname (p : string) : string :=
  let head := head_to_last_sep p in
  if Py.truthy head && negb (all_sep head) then Py.rstrip sep head else head.

(** [os.path.abspath(path)] in the working directory [cwd]. *)
Definition abspath (cwd path : string) : string :=
  normpath (if isabs path then path else join cwd [path]).

Fixpoint drop_common (a b : list string) : list string * list string :=
  match a, b with
  | x :: a', y :: b' => if String.eqb x y then drop_common a' b' else (a, b)
  | _, _ => (a, b)
  end.

Definition nonempty_comps (p : string) : list string :=
  filter (fun x => Py.truthy x = true) (Py.split sep p).

(** [os.path.relpath(path, start)]; [None] stands for the [ValueError]
    raised on an empty [path]. *)
Definition relpath (cwd path start : string) : option string :=
  if negb (Py.truthy path) then None
  else
    let start_list := nonempty_comps (abspath cwd start) in
    let path_list := nonempty_comps (abspath cwd path) in
    let '(start_rest, path_rest) := drop_common start_list path_list in
    let rel_list := repeat ".." (length start_rest) ++ path_rest in
    match rel_list with
    | [] => Some "."
    | x :: rest => Some (join x rest)
    end.

End posixpath.

(** ** Configuration ([class Config]) *)

Record Config := {
  base_url : string;
  ignore_urls_prefixes : list string;
  ignore_urls_domains : list string;
  ignore_files : list string;
  root_dir : string;
  redirects : gmap string string
}.

(** [Config.__init__], with [base_url] as [load_from_index] leaves it. *)
Definition Config_init (base root : string) (table : gmap string string) : Config :=
  {| base_url := base;
     ignore_urls_prefixes := ["javascript:"; "mailto:"; "#"; "tel:"];
     ignore_urls_domains := ["cdn-cgi"; "google"];
     ignore_files := ["404.html"];
     root_dir := root;
     redirects := table |}.

(** The base URL chosen by [Config.load_from_index]: the [href] of the
    canonical link, else the [content] of the [og:url] meta tag, else the
    empty string.  [None] is a missing tag or attribute. *)
Definition load_base_url (canonical_href og_url_content : option string) : string :=
  match canonical_href with
  | Some h => if Py.truthy h then h
              else match og_url_content with
                   | Some c => if Py.truthy c then c else ""
                   | None => ""
                   end
  | None => match og_url_content with
            | Some c => if Py.truthy c then c else ""
            | None => ""
            end
  end.

Definition is_hex_lower (c : ascii) : bool :=
  let n := nat_of_ascii c in
  ((48 <=? n)%nat && (n <=? 57)%nat) || ((97 <=? n)%nat && (n <=? 102)%nat).

Fixpoint skip_hex (s : string) : string :=
  match s with
  | EmptyString => EmptyString
  | String c s' => if is_hex_lower c then skip_hex s' else s
  end.

Fixpoint drop_chars (n : nat) (s : string) : string :=
  match n, s with
  | O, _ => s
  | S n', String _ s' => drop_chars n' s'
  | S _, EmptyString => EmptyString
  end.

(** [re.match(r'google[a-f0-9]+\.html', filename)]. *)
Definition match_google_verification (filename : string) : bool :=
  Py.startswith filename "google" &&
  match drop_chars 6 filename with
  | EmptyString => false
  | String c _ as rest => is_hex_lower c && Py.startswith (skip_hex rest) ".html"
  end.

Definition should_ignore_file (cfg : Config) (filename : string) : bool :=
  if Py.contains "google" filename && Py.endswith filename ".html"
     && match_google_verification filename
  then true
  else existsb (fun ignore => Py.contains ignore filename) (ignore_files cfg).

Definition should_ignore_url (cfg : Config) (url : string) : bool :=
  if negb (Py.truthy url) then true
  else if existsb (fun prefix => Py.startswith url prefix) (ignore_urls_prefixes cfg)
  then true
  else if Py.contains "://" url
  then existsb (fun domain => Py.contains domain url) (ignore_urls_domains cfg)
  else false.

(** ** The auditor state ([class Auditor]) *)

Inductive Level := ERROR | WARN | INFO | SUCCESS.

Record Issue := { level : Level; message : string; penalty : Z }.

Record Auditor := {
  score : Z;
  issues : list Issue;
  internal_links_map : gmap string (list string);
  external_links : gset string;
  soft_route_sources : gmap string (gset string);
  external_link_sources : gmap string (gset string);
  pages_audited : nat;
  processed_files : gset string
}.

Definition Auditor_init : Auditor :=
  {| score := 100;
     issues := [];
     internal_links_map := ∅;
     external_links := ∅;
     soft_route_sources := ∅;
     external_link_sources := ∅;
     pages_audited := 0;
     processed_files := ∅ |}.

Definition log_issue (lvl : Level) (msg : string) (pen : Z) (a : Auditor) : Auditor :=
  {| score := Z.max 0 (score a - pen);
     issues := issues a ++ [{| level := lvl; message := msg; penalty := pen |}];
     internal_links_map := internal_links_map a;
     external_links := external_links a;
     soft_route_sources := soft_route_sources a;
     external_link_sources := external_link_sources a;
     pages_audited := pages_audited a;
     processed_files := processed_files a |}.

(** [self.internal_links_map[target].append(source)] on the [defaultdict]. *)
Definition record_link (target source : string) (a : Auditor) : Auditor :=
  {| score := score a;
     issues := issues a;
     internal_links_map :=
       <[target := default [] (internal_links_map a !! target) ++ [source]]>
         (internal_links_map a);
     external_links := external_links a;
     soft_route_sources := soft_route_sources a;
     external_link_sources := external_link_sources a;
     pages_audited := pages_audited a;
     processed_files := processed_files a |}.

(** [self.soft_route_sources[href].add(source)]. *)
Definition record_soft_route (href source : string) (a : Auditor) : Auditor :=
  {| score := score a;
     issues := issues a;
     internal_links_map := internal_links_map a;
     external_links := external_links a;
     soft_route_sources :=
       <[href := {[source]} ∪ default ∅ (soft_route_sources a !! href)]>
         (soft_route_sources a);
     external_link_sources := external_link_sources a;
     pages_audited := pages_audited a;
     processed_files := processed_files a |}.

(** [self.external_links.add(href)] and
    [self.external_link_sources[href].add(source)]. *)
Definition record_external (href source : string) (a : Auditor) : Auditor :=
  {| score := score a;
     issues := issues a;
     internal_links_map := internal_links_map a;
     external_links := {[href]} ∪ external_links a;
     soft_route_sources := soft_route_sources a;
     external_link_sources :=
       <[href := {[source]} ∪ default ∅ (external_link_sources a !! href)]>
         (external_link_sources a);
     pages_audited := pages_audited a;
     processed_files := processed_files a |}.

(** A step of the auditor either completes or raises with the state as
    the raise leaves it (the handler of [audit_file] sees that state). *)
Inductive Exn := ValueError (msg : string).

Inductive Outcome :=
| Done (a : Auditor)
| Raised (e : Exn) (a : Auditor).

Definition and_then (o : Outcome) (k : Auditor -> Outcome) : Outcome :=
  match o with
  | Done a => k a
  | Raised e a => Raised e a
  end.

Notation "o >>> k" := (and_then o k) (at level 50, left associativity).

(** ** Local link resolution ([Auditor.verify_local_link]) *)

(** [href.split('?')[0].split('#')[0]]. *)
Definition clean_href (href : string) : string :=
  Py.split0 "#" (Py.split0 "?" href).

(** The list [potential_targets], after the conditional [insert(0, ...)]. *)
Definition potential_targets (cfg : Config) (href current_file_rel_path : string)
  : list string :=
  let clean := clean_href href in
  if Py.startswith clean "/" then
    let path_part := Py.lstrip "/" clean in
    let targets :=
      [ posixpath.join (root_dir cfg) [path_part +:+ ".html"];
        posixpath.join (root_dir cfg) [path_part; "index.html"];
        posixpath.join (root_dir cfg) [path_part] ] in
    if Py.endswith path_part ".html"
    then posixpath.join (root_dir cfg) [path_part] :: targets
    else targets
  else
    let current_dir :=
      posixpath.dirname (posixpath.join (root_dir cfg) [current_file_rel_path]) in
    let target_abs_path := posixpath.normpath (posixpath.join current_dir [clean]) in
    let targets :=
      [ target_abs_path +:+ ".html";
        posixpath.join target_abs_path ["index.html"];
        target_abs_path ] in
    if Py.endswith clean ".html" then target_abs_path :: targets else targets.

(** The path the candidates are built from: [os.path.join(root_dir,
    path_part)] for a root-relative reference, [target_abs_path] for a
    reference relative to the current file. *)
Definition target_path (cfg : Config) (clean current_file_rel_path : string) : string :=
  if Py.startswith clean "/" then posixpath.join (root_dir cfg) [Py.lstrip "/" clean]
  else posixpath.normpath
         (posixpath.join
            (posixpath.dirname (posixpath.join (root_dir cfg) [current_file_rel_path]))
            [clean]).

Definition dead_link_message (current_file_rel_path href : string) : string :=
  "In " +:+ current_file_rel_path +:+ ": Dead Link '" +:+ href +:+ "'".

(** The [for p in potential_targets] loop with its [break]: the first
    candidate that is a regular file, as a path relative to the root.
    The process never changes directory, so the working directory of
    [relpath] is [root_dir] (set from [os.getcwd()]). *)
Definition resolve (cfg : Config) (isfile : string -> bool)
    (href current_file_rel_path : string) : option (option string) :=
  match find isfile (potential_targets cfg href current_file_rel_path) with
  | Some p => Some (posixpath.relpath (root_dir cfg) p (root_dir cfg))
  | None => None
  end.

Definition verify_local_link (cfg : Config) (isfile : string -> bool)
    (href current_file_rel_path : string) (is_absolute_url : bool)
    (a : Auditor) : Outcome :=
  match resolve cfg isfile href current_file_rel_path with
  | Some (Some resolved_rel_path) =>
      Done (record_link resolved_rel_path current_file_rel_path a)
  | Some None => Raised (ValueError "no path specified") a
  | None => Done (log_issue ERROR (dead_link_message current_file_rel_path href) 10 a)
  end.

(** ** Link checking ([Auditor.check_links]) *)

(** An [<a href=...>] tag: its [href] and the tokens of its [rel]. *)
Record Anchor := { a_href : string; a_rel : list string }.

(** The branch of the loop body of [check_links] that a stripped [href]
    takes. *)
Inductive Category :=
| Ignored
| SoftRoute
| InternalAbsolute (local_part : string)
| External
| Internal.

Definition local_part_of (cfg : Config) (href : string) : string :=
  let local_part := drop_chars (String.length (base_url cfg)) href in
  if negb (Py.startswith local_part "/") then "/" +:+ local_part else local_part.

Definition classify (cfg : Config) (href : string) : Category :=
  if should_ignore_url cfg href then Ignored
  else if Py.startswith href "/go/" then SoftRoute
  else if Py.startswith href "http://" || Py.startswith href "https://" then
    if Py.truthy (base_url cfg) && Py.startswith href (base_url cfg)
    then InternalAbsolute (local_part_of cfg href)
    else External
  else Internal.

Definition soft_route_message (cur href : string) : string :=
  "In " +:+ cur +:+ ": Soft route '" +:+ href +:+ "' not found in _redirects.".

Definition absolute_internal_message (cur href : string) : string :=
  "In " +:+ cur +:+ ": Absolute internal link found '" +:+ href
  +:+ "'. Should be relative/root-relative.".

Definition missing_rel_message (cur href : string) (missing : list string) : string :=
  "In " +:+ cur +:+ ": External link '" +:+ href +:+ "' missing rel attributes: "
  +:+ Py.join ", " missing.

Definition relative_link_message (cur href : string) : string :=
  "In " +:+ cur +:+ ": Relative link '" +:+ href +:+ "' found. Recommended: '/"
  +:+ href +:+ "'".

Definition html_suffix_message (cur href : string) : string :=
  "In " +:+ cur +:+ ": Link with .html suffix '" +:+ href
  +:+ "'. Recommended: Clean URL.".

Definition missing_rels (rel : list string) : list string :=
  filter (fun req => negb (existsb (String.eqb req) rel) = true)
         ["nofollow"; "noopener"; "noreferrer"].

(** The body of the loop of [check_links] for one anchor. *)
Definition check_link (cfg : Config) (isfile : string -> bool)
    (current_file_rel_path : string) (anchor : Anchor) (a : Auditor) : Outcome :=
  let href := Py.strip (a_href anchor) in
  if should_ignore_url cfg href then Done a
  else if Py.startswith href "/go/" then
    let a1 := record_soft_route href current_file_rel_path a in
    if negb (bool_decide (redirects cfg = ∅))
       && negb (bool_decide (is_Some (redirects cfg !! href)))
    then Done (log_issue WARN (soft_route_message current_file_rel_path href) 5 a1)
    else Done a1
  else if Py.startswith href "http://" || Py.startswith href "https://" then
    if Py.truthy (base_url cfg) && Py.startswith href (base_url cfg) then
      let a1 := log_issue WARN (absolute_internal_message current_file_rel_path href) 2 a in
      verify_local_link cfg isfile (local_part_of cfg href) current_file_rel_path true a1
    else
      let a1 := record_external href current_file_rel_path a in
      match missing_rels (a_rel anchor) with
      | [] => Done a1
      | missing =>
          Done (log_issue WARN (missing_rel_message current_file_rel_path href missing) 2 a1)
      end
  else
    let a1 := if negb (Py.startswith href "/")
              then log_issue WARN (relative_link_message current_file_rel_path href) 2 a
              else a in
    let a2 := if Py.endswith href ".html"
              then log_issue WARN (html_suffix_message current_file_rel_path href) 2 a1
              else a1 in
    verify_local_link cfg isfile href current_file_rel_path false a2.

Fixpoint check_links (cfg : Config) (isfile : string -> bool)
    (current_file_rel_path : string) (anchors : list Anchor) (a : Auditor) : Outcome :=
  match anchors with
  | [] => Done a
  | anchor :: rest =>
      check_link cfg isfile current_file_rel_path anchor a
      >>> check_links cfg isfile current_file_rel_path rest
  end.

(** ** Link equity ([Auditor.analyze_link_equity]) *)

(** [len(self.internal_links_map.get(file, []))]. *)
Definition inbound_count (a : Auditor) (file : string) : nat :=
  length (default [] (internal_links_map a !! file)).

Definition orphan_message (file : string) : string :=
  "Orphan Page: " +:+ file +:+ " has 0 inbound links.".

Definition orphan_issue (file : string) : Issue :=
  {| level := WARN; message := orphan_message file; penalty := 5 |}.

(** One iteration of the loop over [processed_files]. *)
Definition equity_step (cfg : Config) (a : Auditor) (file : string) : Auditor :=
  if should_ignore_file cfg file then a
  else if (inbound_count a file =? 0)%nat
  then log_issue WARN (orphan_message file) 5 a
  else a.

(** The order in which a Python [set] of strings is walked: every member
    once, in an order the language leaves open. *)
Definition SetOrder : Type := gset string -> list string.

Definition walks_each_once (order : SetOrder) : Prop :=
  forall s : gset string, order s ≡ₚ elements s.

Definition equity_loop (cfg : Config) (files : list string) (a : Auditor) : Auditor :=
  fold_left (equity_step cfg) files a.

(** [analyze_link_equity]: the loop over the set [processed_files],
    walked in the order [order]. *)
Definition analyze_link_equity (cfg : Config) (order : SetOrder) (a : Auditor)
  : Auditor :=
  equity_loop cfg (order (processed_files a)) a.

(** The list [inbound_counts] before it is sorted for printing. *)
Definition inbound_counts (cfg : Config) (order : SetOrder) (a : Auditor)
  : list (string * nat) :=
  map (fun file => (file, inbound_count a file))
      (filter (fun file => should_ignore_file cfg file = false)
              (order (processed_files a))).

(** ** External verification ([verify_url], [check_external_links]) *)

(** What a call of [requests.head] or [requests.get] does: it returns a
    response with a status code, raises a [requests.RequestException]
    (connection, timeout, protocol and URL failures), or raises some other
    exception. *)
Inductive Reply :=
| Status (status_code : Z)
| RequestException (text : string)
| OtherException (text : string).

Record Network := { net_head : string -> Reply; net_get : string -> Reply }.

Inductive Method := HEAD | GET.

Definition Request : Type := Method * string.

(** The value of the future of one URL: the pair [(code, error)] that
    [verify_url] returns, or the exception it lets through. *)
Inductive Verdict :=
| Returned (code : option Z) (error : option string)
| Thrown (text : string).

(** [verify_url], together with the requests it sends, in order. *)
Definition verify_url (net : Network) (url : string) : Verdict * list Request :=
  match net_head net url with
  | Status c => (Returned (Some c) None, [(HEAD, url)])
  | RequestException _ =>
      match net_get net url with
      | Status c => (Returned (Some c) None, [(HEAD, url); (GET, url)])
      | RequestException e2 => (Returned None (Some e2), [(HEAD, url); (GET, url)])
      | OtherException e => (Thrown e, [(HEAD, url); (GET, url)])
      end
  | OtherException e => (Thrown e, [(HEAD, url)])
  end.

Definition Z_to_string (z : Z) : string :=
  DecimalString.NilEmpty.string_of_int (Z.to_int z).

Definition external_dead_message (url : string) (code : Z) : string :=
  "External Dead Link '" +:+ url +:+ "' (Status: " +:+ Z_to_string code +:+ ")".

Definition external_error_message (url error : string) : string :=
  "External Link Error '" +:+ url +:+ "': " +:+ error.

Definition external_exception_message (url e : string) : string :=
  "External Link Exception '" +:+ url +:+ "': " +:+ e.

(** Truth value of [code and code >= 400]. *)
Definition is_http_error (code : option Z) : option Z :=
  match code with
  | Some c => if negb (c =? 0)%Z && (400 <=? c)%Z then Some c else None
  | None => None
  end.

(** The body of the [as_completed] loop for the future of [url]. *)
Definition fold_result (url : string) (v : Verdict) (a : Auditor) : Auditor :=
  match v with
  | Returned code error =>
      match is_http_error code with
      | Some c => log_issue ERROR (external_dead_message url c) 5 a
      | None =>
          match error with
          | Some e =>
              if Py.truthy e then log_issue ERROR (external_error_message url e) 5 a
              else a
          | None => a
          end
      end
  | Thrown e => log_issue ERROR (external_exception_message url e) 5 a
  end.

(** [check_external_links]: one [verify_url] per member of the set
    [external_links]; [completion] gives the order in which the futures
    complete.  The result carries every request sent. *)
Fixpoint drain (net : Network) (completed : list string) (a : Auditor)
  : Auditor * list Request :=
  match completed with
  | [] => (a, [])
  | url :: rest =>
      let '(v, sent) := verify_url net url in
      let '(a', sent') := drain net rest (fold_result url v a) in
      (a', sent ++ sent')
  end.

Definition check_external_links (net : Network) (completion : SetOrder)
    (a : Auditor) : Auditor * list Request :=
  if bool_decide (external_links a = ∅) then (a, [])
  else drain net (completion (external_links a)) a.

(** ** Semantics and the page loop ([check_semantics], [audit_file],
    [traverse]) *)

(** What the auditor reads off a parsed page: its anchors with an [href],
    the number of [h1] tags and of JSON-LD script blocks. *)
Record Page := { anchors : list Anchor; h1s : nat; schemas : nat }.

Definition nat_to_string (n : nat) : string := Z_to_string (Z.of_nat n).

Definition check_semantics (file_path : string) (page : Page) (a : Auditor) : Auditor :=
  let a1 :=
    match h1s page with
    | 0%nat => log_issue ERROR ("In " +:+ file_path +:+ ": Missing H1 tag.") 5 a
    | 1%nat => a
    | n => log_issue ERROR ("In " +:+ file_path +:+ ": Multiple H1 tags found ("
                            +:+ nat_to_string n +:+ ").") 5 a
    end in
  if (schemas page =? 0)%nat
  then log_issue WARN ("In " +:+ file_path +:+ ": No Schema.org JSON-LD found.") 2 a1
  else a1.

Definition count_page (a : Auditor) : Auditor :=
  {| score := score a;
     issues := issues a;
     internal_links_map := internal_links_map a;
     external_links := external_links a;
     soft_route_sources := soft_route_sources a;
     external_link_sources := external_link_sources a;
     pages_audited := S (pages_audited a);
     processed_files := processed_files a |}.

Definition add_processed (rel_path : string) (a : Auditor) : Auditor :=
  {| score := score a;
     issues := issues a;
     internal_links_map := internal_links_map a;
     external_links := external_links a;
     soft_route_sources := soft_route_sources a;
     external_link_sources := external_link_sources a;
     pages_audited := pages_audited a;
     processed_files := {[rel_path]} ∪ processed_files a |}.

Definition read_failure_message (rel_path e : string) : string :=
  "Failed to read file " +:+ rel_path +:+ ": " +:+ e.

(** [audit_file]; [content] is the parsed page, or the text of the
    exception raised while opening, reading or parsing the file.  Every
    exception of the body is caught and logged with penalty 0. *)
Definition audit_file (cfg : Config) (isfile : string -> bool)
    (content : string + Page) (rel_path : string) (a : Auditor) : Auditor :=
  let a1 := count_page a in
  match content with
  | inl e => log_issue ERROR (read_failure_message rel_path e) 0 a1
  | inr page =>
      match check_links cfg isfile rel_path (anchors page) a1 with
      | Done a2 => check_semantics rel_path page a2
      | Raised (ValueError e) a2 => log_issue ERROR (read_failure_message rel_path e) 0 a2
      end
  end.

(** A file met by [os.walk] below the root, after the pruning of ignored
    directories: the directory, the file name and what reading it gives. *)
Record WalkEntry := { w_root : string; w_file : string; w_content : string + Page }.

Fixpoint traverse (cfg : Config) (isfile : string -> bool)
    (walk : list WalkEntry) (a : Auditor) : Outcome :=
  match walk with
  | [] => Done a
  | w :: rest =>
      if negb (Py.endswith (w_file w) ".html") then traverse cfg isfile rest a
      else if should_ignore_file cfg (w_file w) then traverse cfg isfile rest a
      else
        let file_path := posixpath.join (w_root w) [w_file w] in
        match posixpath.relpath (root_dir cfg) file_path (root_dir cfg) with
        | None => Raised (ValueError "no path specified") a
        | Some rel_path =>
            traverse cfg isfile rest
              (audit_file cfg isfile (w_content w) rel_path (add_processed rel_path a))
        end
  end.

(** ** The ledger *)

(** A sequence of [log_issue] calls. *)
Definition log_all (l : list Issue) (a : Auditor) : Auditor :=
  fold_left (fun acc i => log_issue (level i) (message i) (penalty i) acc) l a.

Definition total_penalty (l : list Issue) : Z :=
  fold_right (fun i acc => (penalty i + acc)%Z) 0%Z l.

(** The ledger invariant: penalties are not negative and the score is the
    clamped remainder of 100. *)
Definition ledger_ok (a : Auditor) : Prop :=
  Forall (fun i => (0 <= penalty i)%Z) (issues a)
  /\ score a = Z.max 0 (100 - total_penalty (issues a)).

(** The reference handed to [verify_local_link] when the stripped [href]
    is internal. *)
Definition local_href (cfg : Config) (href : string) : option string :=
  match classify cfg href with
  | Internal => Some href
  | InternalAbsolute local_part => Some local_part
  | _ => None
  end.

(** ** Example sites *)

(** A site on disk with both [post.html] and [post/index.html]. *)
Definition two_forms_cfg : Config := Config_init "https://example.com/" "/srv/site" ∅.

Definition two_forms_disk (p : string) : bool :=
  existsb (String.eqb p) ["/srv/site/index.html"; "/srv/site/post.html";
                          "/srv/site/post/index.html"].

(** ** The run ([Auditor.run]) *)

Definition outcome_state (o : Outcome) : Auditor :=
  match o with
  | Done a => a
  | Raised _ a => a
  end.

(** [run] without its report.  [file_order] and [completion] give the
    order in which the sets [processed_files] and [external_links] are
    walked and the futures complete. *)
Definition run (cfg : Config) (isfile : string -> bool) (net : Network)
    (walk : list WalkEntry) (file_order completion : SetOrder)
  : Outcome * list Request :=
  match traverse cfg isfile walk Auditor_init with
  | Done a1 =>
      let a2 := analyze_link_equity cfg file_order a1 in
      let '(a3, sent) := check_external_links net completion a2 in
      (Done a3, sent)
  | Raised e a1 => (Raised e a1, [])
  end.

(** The number of requests sent to [url]. *)
Definition requests_to (url : string) (sent : list Request) : nat :=
  length (filter (fun r : Request => snd r = url) sent).

(** A network on which [HEAD] is answered with a 404. *)
Definition head_404 : Network :=
  {| net_head := fun _ => Status 404; net_get := fun _ => Status 200 |}.

(** The test of the loop of [analyze_link_equity] that logs an orphan. *)
Definition is_orphan (cfg : Config) (a : Auditor) (file : string) : bool :=
  negb (should_ignore_file cfg file) && (inbound_count a file =? 0)%nat.

(** A network on which both attempts raise a [RequestException] whose
    [str()] is [text]. *)
Definition unreachable (text : string) : Network :=
  {| net_head := fun _ => RequestException "HEAD refused";
     net_get := fun _ => RequestException text |}.

(** A state whose only processed page is the home page. *)
Definition home_only : Auditor := add_processed "index.html" Auditor_init.

(** ** The specification's wording of three checks *)

(** The soft-route check as the specification words it: every soft-route
    reference whose token the redirect table lacks is warned about, an
    empty table included. *)
Definition spec_soft_route_always_warned : Prop :=
  forall (cfg : Config) (isfile : string -> bool) (cur : string)
         (anchor : Anchor) (a : Auditor),
    let href := Py.strip (a_href anchor) in
    classify cfg href = SoftRoute ->
    redirects cfg !! href = None ->
    exists a' i,
      check_link cfg isfile cur anchor a = Done a'
      /\ issues a' = issues a ++ [i]
      /\ level i = WARN /\ penalty i = 5%Z.

(** The text of an absolute URL after its ["://"]. *)
Fixpoint after_scheme (url : string) : string :=
  if Py.startswith url "://" then drop_chars 3 url
  else match url with
       | EmptyString => EmptyString
       | String _ rest => after_scheme rest
       end.

(** The host of an absolute URL: what follows ["://"] up to the path, the
    query string or the fragment. *)
Definition url_host (url : string) : string :=
  Py.split0 "#" (Py.split0 "?" (Py.split0 "/" (after_scheme url))).

Definition is_http (href : string) : bool :=
  Py.startswith href "http://" || Py.startswith href "https://".

(** The classification of absolute URLs as the specification words it:
    the site origin is tested first, ... *)
Definition spec_origin_tested_first : Prop :=
  forall (cfg : Config) (href : string),
    is_http href = true ->
    Py.truthy (base_url cfg) = true ->
    Py.startswith href (base_url cfg) = true ->
    classify cfg href = InternalAbsolute (local_part_of cfg href).

(** ... and a URL off the origin is ignored exactly when its host holds a
    denylisted fragment. *)
Definition spec_denylist_on_host : Prop :=
  forall (cfg : Config) (href : string),
    is_http href = true ->
    Py.truthy (base_url cfg) && Py.startswith href (base_url cfg) = false ->
    (classify cfg href = Ignored
     <-> exists d, d ∈ ignore_urls_domains cfg /\ Py.contains d (url_host href) = true).

(** The orphan exemption as the specification words it: the link-equity
    analysis logs no orphan issue for the home page, whatever its inbound
    count. *)
Definition spec_home_page_exempt : Prop :=
  forall (cfg : Config) (order : SetOrder) (a : Auditor),
    walks_each_once order ->
    orphan_issue "index.html" ∉ issues a ->
    orphan_issue "index.html" ∉ issues (analyze_link_equity cfg order a).

(** A site without redirect manifest, and a link to a soft route. *)
Definition offer_link : Anchor := {| a_href := "/go/offer"; a_rel := [] |}.

(** ** Directory pruning ([Config.should_ignore_path]) *)

(** [Config.ignore_paths] as [Config.__init__] sets it. *)
Definition default_ignore_paths : list string :=
  [".git"; "node_modules"; "__pycache__"; ".idea"; ".vscode"; "MasterTool"].

(** [should_ignore_path], with the list [self.ignore_paths] as argument. *)
Definition should_ignore_path (ignore_paths : list string) (path : string) : bool :=
  existsb (fun ignore => Py.contains ignore path) ignore_paths.

(** The test of [traverse] on the directory [d] met below [root]:
    [should_ignore_path(os.path.join(root, d))]. *)
Definition pruned (ignore_paths : list string) (root d : string) : bool :=
  should_ignore_path ignore_paths (posixpath.join root [d]).

(** ** The redirect manifest ([Config.load_redirects]) *)

(** [s.split()]: the maximal runs of characters that are not white space.
    [cur] is the run being read. *)
Fixpoint split_ws_go (cur : option string) (s : string) : list string :=
  match s with
  | EmptyString => match cur with Some w => [w] | None => [] end
  | String c s' =>
      if Py.isspace c then
        match cur with
        | Some w => w :: split_ws_go None s'
        | None => split_ws_go None s'
        end
      else
        split_ws_go (Some (match cur with
                           | Some w => w +:+ String c EmptyString
                           | None => String c EmptyString
                           end)) s'
  end.

Definition split_ws (s : string) : list string := split_ws_go None s.

(** The body of the loop over the lines of [_redirects]: the entry a line
    adds, if any. *)
Definition parse_redirect_line (line : string) : option (string * string) :=
  let line := Py.strip line in
  if negb (Py.truthy line) || Py.startswith line "#" then None
  else match split_ws line with
       | token :: destination :: _ => Some (token, destination)
       | _ => None
       end.

Definition add_redirect (table : gmap string string) (line : string)
  : gmap string string :=
  match parse_redirect_line line with
  | Some (token, destination) => <[token := destination]> table
  | None => table
  end.

(** [load_redirects] on the dictionary [table].  [manifest] is [None] when
    [_redirects] does not exist, else the lines read from it, up to the
    end of the file or to the exception that ends the reading (the
    entries added before it stay). *)
Definition load_redirects (manifest : option (list string))
    (table : gmap string string) : gmap string string :=
  match manifest with
  | None => table
  | Some lines => fold_left add_redirect lines table
  end.

(** ** The report ([Auditor.report]) *)

Definition is_error (l : Level) : bool :=
  match l with
  | ERROR => true
  | _ => false
  end.

(** [any(i['level'] == 'ERROR' and text in i['message'] for i in self.issues)]. *)
Definition any_error_with (text : string) (a : Auditor) : bool :=
  existsb (fun i => is_error (level i) && Py.contains text (message i)) (issues a).

(** What the head of the report prints after the score: [None] for the
    line "Great Job! Site is healthy.", else whether the advice on broken
    internal links and the advice on missing H1 tags are printed. *)
Definition report_advice (a : Auditor) : option (bool * bool) :=
  if (score a <? 100)%Z
  then Some (any_error_with "Dead Link" a, any_error_with "Missing H1" a)
  else None.

(** The flag [is_safe] of an external link in the report. *)
Definition is_safe (a : Auditor) (link : string) : bool :=
  negb (existsb (fun i => Py.contains link (message i)
                          && Py.contains "missing rel" (message i)) (issues a)).

(** ** The files [traverse] audits *)


(** Characters of the class [[a-f0-9]], all of them. *)
Fixpoint all_hex (s : string) : bool :=
  match s with
  | EmptyString => true
  | String c s' => is_hex_lower c && all_hex s'
  end.

Fixpoint all_space (s : string) : bool :=
  match s with
  | EmptyString => true
  | String c s' => Py.isspace c && all_space s'
  end.

(** ** Invariants of the auditor state *)

(** Every key of the link graph has at least one source, and every source
    is a processed page. *)
Definition graph_ok (a : Auditor) : Prop :=
  forall target sources,
    internal_links_map a !! target = Some sources ->
    sources <> [] /\ forall s, s ∈ sources -> s ∈ processed_files a.

(** The URLs to verify are the keys of [external_link_sources]; each is an
    absolute http(s) URL that the ignore rules let through and that is not
    on the site origin. *)
Definition external_ok (cfg : Config) (a : Auditor) : Prop :=
  forall url,
    (url ∈ external_links a <-> is_Some (external_link_sources a !! url))
    /\ (url ∈ external_links a ->
        is_http url = true
        /\ should_ignore_url cfg url = false
        /\ Py.truthy (base_url cfg) && Py.startswith url (base_url cfg) = false).

(** The score after [n] penalties of 5 points. *)
Definition after_penalties (n : nat) (s : Z) : Z :=
  Nat.iter n (fun s => Z.max 0 (s - 5)) s.

(** What link checking and the semantic checks leave alone: the set of
    processed files and the page counter stay, the issue list is only
    extended. *)
Definition frame (a a' : Auditor) : Prop :=
  processed_files a' = processed_files a
  /\ pages_audited a' = pages_audited a
  /\ issues a `prefix_of` issues a'.

(** What the analysis of link equity and the external verification change:
    the ledger only. *)
Definition only_logs (a a' : Auditor) : Prop :=
  internal_links_map a' = internal_links_map a
  /\ external_links a' = external_links a
  /\ soft_route_sources a' = soft_route_sources a
  /\ external_link_sources a' = external_link_sources a
  /\ pages_audited a' = pages_audited a
  /\ processed_files a' = processed_files a.

(** No character of [s] is white space. *)
Fixpoint no_space (s : string) : bool :=
  match s with
  | EmptyString => true
  | String c s' => negb (Py.isspace c) && no_space s'
  end.

(** The issues that the loop of [check_external_links] logs for the
    verdict of [url]: what [fold_result] appends to an empty list. *)
Definition verdict_issues (url : string) (v : Verdict) : list Issue :=
  issues (fold_result url v Auditor_init).

(** A site kept below a directory whose name holds an ignored fragment. *)
Definition tool_root : string := "/srv/MasterTool/site".

(** Every [RequestException] that the network raises carries a text:
    [requests] raises its exceptions with the underlying error or a
    message as argument, so [str(e)] is never empty. *)
Definition carries_text (net : Network) : Prop :=
  forall url e,
    net_head net url = RequestException e \/ net_get net url = RequestException e ->
    e <> "".

(** * Properties *)

Example split_query : Py.split0 "#" (Py.split0 "?" "/a/b.html?x=1#top") = "/a/b.html".
Proof. reflexivity. Qed.

Example normpath_dots : posixpath.normpath "/srv/site/blog/../a/./b" = "/srv/site/a/b".
Proof. vm_compute. reflexivity. Qed.

Example relpath_under_root :
  posixpath.relpath "/srv/site" "/srv/site/blog/post.html" "/srv/site" = Some "blog/post.html".
Proof. vm_compute. reflexivity. Qed.

Example dirname_nested : posixpath.dirname "/srv/site/blog/post.html" = "/srv/site/blog".
Proof. vm_compute. reflexivity. Qed.

(** ** Strings *)

Section StringFacts.

Lemma prefix_inv (p s : string) :
  String.prefix p s = true -> exists r, s = p +:+ r.
Proof.
  revert s. induction p as [|c p IH]; intros s H.
  - exists s. reflexivity.
  - destruct s as [|d s]; simpl in H; [discriminate|].
    destruct (ascii_dec c d) as [->|]; [|discriminate].
    destruct (IH s H) as [r ->]. exists r. reflexivity.
Qed.

Lemma prefix_cons (c d : ascii) (p s : string) :
  String.prefix (String c p) (String d s) = Ascii.eqb c d && String.prefix p s.
Proof.
  change (String.prefix (String c p) (String d s))
    with (match ascii_dec c d with left _ => String.prefix p s | right _ => false end).
  destruct (ascii_dec c d) as [->|H].
  - now rewrite Ascii.eqb_refl.
  - apply Ascii.eqb_neq in H. now rewrite H.
Qed.

Lemma prefix_nil (s : string) : String.prefix "" s = true.
Proof. destruct s; reflexivity. Qed.

Lemma append_cons (x : ascii) (a b : string) :
  String x a +:+ b = String x (a +:+ b).
Proof. reflexivity. Qed.

Lemma append_nil (b : string) : "" +:+ b = b.
Proof. reflexivity. Qed.

Lemma append_assoc (a b c : string) : (a +:+ b) +:+ c = a +:+ (b +:+ c).
Proof.
  induction a as [|x a IH]; [reflexivity|]. rewrite !append_cons. now rewrite IH.
Qed.

Lemma append_inv_head (a b c : string) : a +:+ b = a +:+ c -> b = c.
Proof.
  induction a as [|x a IH]; [trivial|]. rewrite !append_cons. intros H.
  injection H. exact IH.
Qed.

Lemma length_append (a b : string) :
  String.length (a +:+ b) = (String.length a + String.length b)%nat.
Proof.
  induction a as [|x a IH]; [reflexivity|]. rewrite append_cons. simpl. now rewrite IH.
Qed.

Lemma append_inv_tail (a b c : string) : a +:+ c = b +:+ c -> a = b.
Proof.
  revert b. induction a as [|x a IH]; intros [|y b] H.
  - reflexivity.
  - apply (f_equal String.length) in H. rewrite !length_append in H. simpl in H. lia.
  - apply (f_equal String.length) in H. rewrite !length_append in H. simpl in H. lia.
  - rewrite !append_cons in H. injection H as -> H. f_equal. apply IH, H.
Qed.

(** An absolute http(s) URL contains ["://"] and is not a soft route. *)
Lemma http_contains_scheme_sep (href : string) :
  Py.startswith href "http://" || Py.startswith href "https://" = true ->
  Py.contains "://" href = true.
Proof.
  unfold Py.startswith. intros H. apply orb_true_iff in H.
  destruct H as [H|H]; apply prefix_inv in H; destruct H as [r ->];
    destruct r; reflexivity.
Qed.

Lemma http_not_soft_route (href : string) :
  Py.startswith href "http://" || Py.startswith href "https://" = true ->
  Py.startswith href "/go/" = false.
Proof.
  unfold Py.startswith. intros H. apply orb_true_iff in H.
  destruct H as [H|H]; apply prefix_inv in H; destruct H as [r ->]; reflexivity.
Qed.

Lemma http_not_default_prefix (href : string) :
  Py.startswith href "http://" || Py.startswith href "https://" = true ->
  existsb (fun prefix => Py.startswith href prefix)
          ["javascript:"; "mailto:"; "#"; "tel:"] = false.
Proof.
  unfold Py.startswith. intros H. apply orb_true_iff in H.
  destruct H as [H|H]; apply prefix_inv in H; destruct H as [r ->]; reflexivity.
Qed.

Lemma http_truthy (href : string) :
  Py.startswith href "http://" || Py.startswith href "https://" = true ->
  Py.truthy href = true.
Proof.
  unfold Py.startswith. intros H. apply orb_true_iff in H.
  destruct H as [H|H]; apply prefix_inv in H; destruct H as [r ->]; reflexivity.
Qed.

Lemma truthy_nonempty (s : string) : Py.truthy s = true <-> s <> "".
Proof.
  unfold Py.truthy. destruct (String.eqb_spec s ""); simpl; split; congruence.
Qed.

(** [split0]: the text before the first separator. *)
Lemma split_nonempty (c : ascii) (s : string) : Py.split c s <> [].
Proof.
  destruct s as [|d s]; simpl; [discriminate|].
  destruct (Ascii.eqb d c); [discriminate|]. destruct (Py.split c s); discriminate.
Qed.

Lemma split0_cons (c d : ascii) (s : string) :
  Py.split0 c (String d s) = if Ascii.eqb d c then "" else String d (Py.split0 c s).
Proof.
  unfold Py.split0. simpl. destruct (Ascii.eqb d c); [reflexivity|].
  destruct (Py.split c s) eqn:E; [now apply split_nonempty in E|reflexivity].
Qed.

Lemma split0_decompose (c : ascii) (s : string) :
  exists rest, s = Py.split0 c s +:+ rest
               /\ (rest = "" \/ exists r, rest = String c r).
Proof.
  induction s as [|d s IH].
  - exists "". split; [reflexivity|now left].
  - rewrite split0_cons. destruct (Ascii.eqb_spec d c) as [->|Hne].
    + exists (String c s). split; [reflexivity|right; now exists s].
    + destruct IH as [rest [E Hr]]. exists rest. split; [|exact Hr].
      rewrite append_cons. now rewrite <- E.
Qed.

Lemma contains_char_cons (c d : ascii) (s : string) :
  Py.contains (String c "") (String d s)
  = Ascii.eqb c d || Py.contains (String c "") s.
Proof.
  simpl. destruct (ascii_dec c d) as [->|Hne].
  - rewrite Ascii.eqb_refl. destruct s; reflexivity.
  - apply Ascii.eqb_neq in Hne. rewrite Hne. reflexivity.
Qed.

Lemma split0_no_sep (c : ascii) (s : string) :
  Py.contains (String c "") (Py.split0 c s) = false.
Proof.
  induction s as [|d s IH]; [reflexivity|].
  rewrite split0_cons. destruct (Ascii.eqb_spec d c) as [->|Hne]; [reflexivity|].
  rewrite contains_char_cons, IH, orb_false_r. apply Ascii.eqb_neq. congruence.
Qed.

Lemma split0_keeps_absent (c d : ascii) (s : string) :
  Py.contains (String c "") s = false ->
  Py.contains (String c "") (Py.split0 d s) = false.
Proof.
  induction s as [|e s IH]; intros H; [reflexivity|].
  rewrite contains_char_cons in H. apply orb_false_iff in H. destruct H as [H1 H2].
  rewrite split0_cons. destruct (Ascii.eqb e d); [reflexivity|].
  rewrite contains_char_cons, H1. simpl. now apply IH.
Qed.

Lemma split0_id (c : ascii) (s : string) :
  Py.contains (String c "") s = false -> Py.split0 c s = s.
Proof.
  induction s as [|e s IH]; intros H; [reflexivity|].
  rewrite contains_char_cons in H. apply orb_false_iff in H. destruct H as [H1 H2].
  rewrite split0_cons. rewrite Ascii.eqb_sym, H1. now rewrite IH.
Qed.

(** [endswith] is insensitive to stripped leading slashes. *)
Lemma endswith_html_lstrip (s : string) :
  Py.endswith (Py.lstrip "/" s) ".html" = Py.endswith s ".html".
Proof.
  induction s as [|d s IH]; [reflexivity|].
  cbn [Py.lstrip]. destruct (Ascii.eqb_spec d "/"%char) as [->|Hne]; [|reflexivity].
  rewrite IH. reflexivity.
Qed.

Lemma lstrip_not_slash (s : string) : Py.startswith (Py.lstrip "/" s) "/" = false.
Proof.
  induction s as [|d s IH]; [reflexivity|].
  cbn [Py.lstrip]. destruct (Ascii.eqb_spec d "/"%char) as [->|Hne]; [exact IH|].
  unfold Py.startswith. rewrite prefix_cons. apply andb_false_intro1.
  apply Ascii.eqb_neq. congruence.
Qed.

End StringFacts.

(** ** Local link resolution *)

Section Resolution.

Variable cfg : Config.
Variable isfile : string -> bool.

Lemma clean_href_decompose (href : string) :
  exists rest, href = clean_href href +:+ rest
    /\ (rest = "" \/ Py.startswith rest "?" = true \/ Py.startswith rest "#" = true).
Proof.
  unfold clean_href.
  destruct (split0_decompose "?" href) as [r1 [E1 H1]].
  destruct (split0_decompose "#" (Py.split0 "?" href)) as [r2 [E2 H2]].
  exists (r2 +:+ r1). split.
  - rewrite <- append_assoc, <- E2. exact E1.
  - destruct H2 as [->|[r ->]].
    + rewrite append_nil. destruct H1 as [->|[r ->]]; [now left|right; left].
      unfold Py.startswith. now rewrite prefix_cons, prefix_nil.
    + right; right. unfold Py.startswith.
      now rewrite append_cons, prefix_cons, prefix_nil.
Qed.

Lemma clean_href_no_query (href : string) :
  Py.contains "?" (clean_href href) = false.
Proof. apply split0_keeps_absent, split0_no_sep. Qed.

Lemma clean_href_no_fragment (href : string) :
  Py.contains "#" (clean_href href) = false.
Proof. apply split0_no_sep. Qed.

Lemma clean_href_idempotent (href : string) :
  clean_href (clean_href href) = clean_href href.
Proof.
  unfold clean_href at 1.
  rewrite (split0_id "?" _ (clean_href_no_query href)).
  apply split0_id, clean_href_no_fragment.
Qed.

Lemma startswith_slash_append (s t : string) :
  Py.startswith s "/" = false -> Py.startswith t "/" = false ->
  Py.startswith (s +:+ t) "/" = false.
Proof.
  destruct s as [|c s]; intros Hs Ht; [exact Ht|].
  unfold Py.startswith in *. rewrite append_cons, prefix_cons in *.
  apply andb_false_iff in Hs. destruct Hs as [Hs|Hs].
  - now rewrite Hs.
  - destruct s; discriminate.
Qed.

Lemma join2_append_relative (path b t : string) :
  Py.startswith b "/" = false -> Py.startswith t "/" = false ->
  posixpath.join2 path (b +:+ t) = posixpath.join2 path b +:+ t.
Proof.
  intros Hb Ht. unfold posixpath.join2.
  rewrite (startswith_slash_append _ _ Hb Ht), Hb.
  destruct (String.eqb path "" || Py.endswith path "/");
    now rewrite ?append_assoc.
Qed.

(** The candidate list: the exact path first when the cleaned [href]
    ends in [.html], then path + [.html], path/[index.html], path. *)
Lemma potential_targets_shape (href cur : string) :
  let clean := clean_href href in
  let p := target_path cfg clean cur in
  potential_targets cfg href cur
  = (if Py.endswith clean ".html" then [p] else [])
    ++ [p +:+ ".html"; posixpath.join p ["index.html"]; p].
Proof.
  unfold potential_targets, target_path. cbv zeta.
  destruct (Py.startswith (clean_href href) "/") eqn:Hs.
  - rewrite endswith_html_lstrip.
    assert (E : posixpath.join (root_dir cfg) [Py.lstrip "/" (clean_href href) +:+ ".html"]
                = posixpath.join (root_dir cfg) [Py.lstrip "/" (clean_href href)] +:+ ".html").
    { unfold posixpath.join. cbn [fold_left].
      apply join2_append_relative; [apply lstrip_not_slash|reflexivity]. }
    rewrite E. destruct (Py.endswith (clean_href href) ".html"); reflexivity.
  - destruct (Py.endswith (clean_href href) ".html"); reflexivity.
Qed.

(** The loop with [break] picks the first candidate that is a file. *)
Lemma find_first_match (l : list string) :
  match find isfile l with
  | Some p => exists before after,
      l = before ++ p :: after
      /\ forallb (fun c => negb (isfile c)) before = true
      /\ isfile p = true
  | None => forallb (fun c => negb (isfile c)) l = true
  end.
Proof.
  induction l as [|x l IH]; [reflexivity|].
  cbn [find]. destruct (isfile x) eqn:Hx.
  - exists [], l. repeat split; assumption.
  - destruct (find isfile l) as [p|].
    + destruct IH as [before [after [-> [Hb Hp]]]].
      exists (x :: before), after. repeat split; [|exact Hp].
      cbn [forallb]. now rewrite Hx, Hb.
    + cbn [forallb]. now rewrite Hx, IH.
Qed.

End Resolution.

(** C1.  Resolution works on the [href] with its query string and fragment
    removed; the candidates are, in this order, the exact path when the
    cleaned [href] ends in [.html], then path + [.html], then
    path/[index.html], then the exact path; the first candidate that is a
    regular file is the one resolved.  With both [post.html] and
    [post/index.html] on disk, [/post] resolves to [post.html]. *)
Theorem resolution_ordered_first_match
    (cfg : Config) (isfile : string -> bool) (href cur : string) :
  let clean := clean_href href in
  let p := target_path cfg clean cur in
  (* the query string and the fragment are stripped first *)
  (exists rest, href = clean +:+ rest
     /\ (rest = "" \/ Py.startswith rest "?" = true \/ Py.startswith rest "#" = true))
  /\ Py.contains "?" clean = false
  /\ Py.contains "#" clean = false
  /\ potential_targets cfg href cur = potential_targets cfg clean cur
  (* the ordered candidate list *)
  /\ potential_targets cfg href cur
     = (if Py.endswith clean ".html" then [p] else [])
       ++ [p +:+ ".html"; posixpath.join p ["index.html"]; p]
  (* first match *)
  /\ match find isfile (potential_targets cfg href cur) with
     | Some hit =>
         (exists before after,
            potential_targets cfg href cur = before ++ hit :: after
            /\ forallb (fun c => negb (isfile c)) before = true
            /\ isfile hit = true)
         /\ resolve cfg isfile href cur
            = Some (posixpath.relpath (root_dir cfg) hit (root_dir cfg))
     | None =>
         forallb (fun c => negb (isfile c)) (potential_targets cfg href cur) = true
         /\ resolve cfg isfile href cur = None
     end
  (* both forms on disk: the clean-URL file wins *)
  /\ (isfile (posixpath.join (root_dir cfg) ["post.html"]) = true ->
      isfile (posixpath.join (root_dir cfg) ["post"; "index.html"]) = true ->
      find isfile (potential_targets cfg "/post" cur)
      = Some (posixpath.join (root_dir cfg) ["post.html"]))
  /\ resolve two_forms_cfg two_forms_disk "/post" cur = Some (Some "post.html").
Proof.
  cbv zeta. split; [apply clean_href_decompose|].
  split; [apply clean_href_no_query|].
  split; [apply clean_href_no_fragment|].
  split.
  { unfold potential_targets. now rewrite clean_href_idempotent. }
  split; [apply potential_targets_shape|].
  split.
  { unfold resolve.
    pose proof (find_first_match isfile (potential_targets cfg href cur)) as H.
    destruct (find isfile (potential_targets cfg href cur)); split; auto. }
  split.
  - intros H1 _. rewrite potential_targets_shape.
    change (clean_href "/post") with "/post".
    change (Py.endswith "/post" ".html") with false.
    change (target_path cfg "/post" cur) with (posixpath.join (root_dir cfg) ["post"]).
    cbn [app find].
    replace (posixpath.join (root_dir cfg) ["post"] +:+ ".html")
      with (posixpath.join (root_dir cfg) ["post.html"]).
    + now rewrite H1.
    + unfold posixpath.join. cbn [fold_left].
      now rewrite <- join2_append_relative.
  - reflexivity.
Qed.

Lemma resolution_ordered_first_match_witness :
  two_forms_disk (posixpath.join (root_dir two_forms_cfg) ["post.html"]) = true
  /\ two_forms_disk (posixpath.join (root_dir two_forms_cfg) ["post"; "index.html"]) = true
  /\ find two_forms_disk (potential_targets two_forms_cfg "/post" "index.html")
     = Some "/srv/site/post.html".
Proof.
  split; [reflexivity|]. split; [reflexivity|].
  apply (resolution_ordered_first_match two_forms_cfg two_forms_disk "/post" "index.html");
    reflexivity.
Defined.

(** ** The ledger under [log_issue] *)

Section Ledger.

Lemma log_all_issues (l : list Issue) (a : Auditor) :
  issues (log_all l a) = issues a ++ l.
Proof.
  revert a. induction l as [|i l IH]; intros a.
  - now rewrite app_nil_r.
  - cbn [log_all fold_left]. fold (log_all l). rewrite IH. cbn [log_issue issues].
    rewrite <- app_assoc. now destruct i.
Qed.

Lemma log_all_links (l : list Issue) (a : Auditor) :
  internal_links_map (log_all l a) = internal_links_map a.
Proof.
  revert a. induction l as [|i l IH]; intros a; [reflexivity|].
  cbn [log_all fold_left]. fold (log_all l). now rewrite IH.
Qed.

Lemma total_penalty_app (l1 l2 : list Issue) :
  total_penalty (l1 ++ l2) = (total_penalty l1 + total_penalty l2)%Z.
Proof.
  induction l1 as [|i l1 IH]; [reflexivity|].
  cbn [app total_penalty fold_right]. fold (total_penalty (l1 ++ l2)).
  fold (total_penalty l1). lia.
Qed.

Lemma total_penalty_nonneg (l : list Issue) :
  Forall (fun i => (0 <= penalty i)%Z) l -> (0 <= total_penalty l)%Z.
Proof.
  induction 1 as [|i l Hi _ IH]; [reflexivity|].
  cbn [total_penalty fold_right]. fold (total_penalty l). lia.
Qed.

Lemma log_issue_ledger_ok (lvl : Level) (msg : string) (pen : Z) (a : Auditor) :
  (0 <= pen)%Z -> ledger_ok a -> ledger_ok (log_issue lvl msg pen a).
Proof.
  intros Hpen [Hall Hscore]. split; cbn [log_issue issues score].
  - apply Forall_app. split; [exact Hall|]. now repeat constructor.
  - rewrite total_penalty_app, Hscore.
    pose proof (total_penalty_nonneg _ Hall).
    cbn [total_penalty fold_right penalty]. lia.
Qed.

Lemma log_all_ledger_ok (l : list Issue) (a : Auditor) :
  Forall (fun i => (0 <= penalty i)%Z) l -> ledger_ok a -> ledger_ok (log_all l a).
Proof.
  revert a. induction l as [|i l IH]; intros a Hl Ha; [exact Ha|].
  inversion Hl; subst. cbn [log_all fold_left]. fold (log_all l).
  apply IH; [assumption|]. now apply log_issue_ledger_ok.
Qed.

Lemma init_ledger_ok : ledger_ok Auditor_init.
Proof. split; [constructor|reflexivity]. Qed.

End Ledger.

(** ** The branches of [check_links] *)

Section Branches.

Variable cfg : Config.
Variable isfile : string -> bool.

(** The loop body of [check_links], by the category of the stripped [href]. *)
Lemma check_link_by_category (cur : string) (anchor : Anchor) (a : Auditor) :
  let href := Py.strip (a_href anchor) in
  check_link cfg isfile cur anchor a
  = match classify cfg href with
    | Ignored => Done a
    | SoftRoute =>
        let a1 := record_soft_route href cur a in
        if negb (bool_decide (redirects cfg = ∅))
           && negb (bool_decide (is_Some (redirects cfg !! href)))
        then Done (log_issue WARN (soft_route_message cur href) 5 a1)
        else Done a1
    | InternalAbsolute local_part =>
        verify_local_link cfg isfile local_part cur true
          (log_issue WARN (absolute_internal_message cur href) 2 a)
    | External =>
        let a1 := record_external href cur a in
        match missing_rels (a_rel anchor) with
        | [] => Done a1
        | missing => Done (log_issue WARN (missing_rel_message cur href missing) 2 a1)
        end
    | Internal =>
        let a1 := if negb (Py.startswith href "/")
                  then log_issue WARN (relative_link_message cur href) 2 a else a in
        let a2 := if Py.endswith href ".html"
                  then log_issue WARN (html_suffix_message cur href) 2 a1 else a1 in
        verify_local_link cfg isfile href cur false a2
    end.
Proof.
  cbv zeta. unfold check_link, classify.
  destruct (should_ignore_url cfg _); [reflexivity|].
  destruct (Py.startswith _ "/go/"); [reflexivity|].
  destruct (Py.startswith _ "http://" || Py.startswith _ "https://"); [|reflexivity].
  destruct (Py.truthy (base_url cfg) && Py.startswith _ (base_url cfg)); reflexivity.
Qed.

(** An internal reference reaches [verify_local_link] after policy
    warnings only, each a [WARN] of penalty 2. *)
Lemma check_link_local (cur : string) (anchor : Anchor) (a : Auditor) (l : string) :
  local_href cfg (Py.strip (a_href anchor)) = Some l ->
  exists warns flag,
    check_link cfg isfile cur anchor a
    = verify_local_link cfg isfile l cur flag (log_all warns a)
    /\ Forall (fun i => level i = WARN /\ penalty i = 2%Z) warns.
Proof.
  intros H. rewrite check_link_by_category. cbv zeta. unfold local_href in H.
  destruct (classify cfg (Py.strip (a_href anchor))) as [| |lp| |]; try discriminate;
    injection H as <-.
  - exists [{| level := WARN;
               message := absolute_internal_message cur (Py.strip (a_href anchor));
               penalty := 2 |}], true.
    split; [reflexivity|]. now repeat constructor.
  - set (href := Py.strip (a_href anchor)).
    destruct (Py.startswith href "/"), (Py.endswith href ".html"); cbn [negb].
    + exists [{| level := WARN; message := html_suffix_message cur href; penalty := 2 |}],
        false. split; [reflexivity|]. now repeat constructor.
    + exists [], false. split; [reflexivity|]. constructor.
    + exists [{| level := WARN; message := relative_link_message cur href; penalty := 2 |};
              {| level := WARN; message := html_suffix_message cur href; penalty := 2 |}],
        false. split; [reflexivity|]. now repeat constructor.
    + exists [{| level := WARN; message := relative_link_message cur href; penalty := 2 |}],
        false. split; [reflexivity|]. now repeat constructor.
Qed.

Lemma find_none_of_all_absent (l : list string) :
  forallb (fun c => negb (isfile c)) l = true -> find isfile l = None.
Proof.
  induction l as [|x l IH]; [reflexivity|].
  cbn [forallb find]. intros H. apply andb_true_iff in H. destruct H as [Hx Hl].
  destruct (isfile x); [discriminate|]. now apply IH.
Qed.

Lemma resolve_none_of_all_absent (href cur : string) :
  forallb (fun c => negb (isfile c)) (potential_targets cfg href cur) = true ->
  resolve cfg isfile href cur = None.
Proof. intros H. unfold resolve. now rewrite find_none_of_all_absent. Qed.

Lemma verify_local_link_resolved (href cur target : string) (flag : bool) (a : Auditor) :
  resolve cfg isfile href cur = Some (Some target) ->
  verify_local_link cfg isfile href cur flag a = Done (record_link target cur a).
Proof. intros H. unfold verify_local_link. now rewrite H. Qed.

Lemma verify_local_link_dead (href cur : string) (flag : bool) (a : Auditor) :
  resolve cfg isfile href cur = None ->
  verify_local_link cfg isfile href cur flag a
  = Done (log_issue ERROR (dead_link_message cur href) 10 a).
Proof. intros H. unfold verify_local_link. now rewrite H. Qed.

End Branches.

(** C2.  When no candidate of an internal reference is a regular file,
    [verify_local_link] completes (nothing is raised), appends exactly
    one [ERROR] issue of penalty 10 and leaves [internal_links_map] as it
    was; through [check_links] the only other issues of that reference
    are policy warnings. *)
Theorem dead_link_one_error
    (cfg : Config) (isfile : string -> bool) (href cur : string) (flag : bool)
    (a : Auditor) :
  forallb (fun c => negb (isfile c)) (potential_targets cfg href cur) = true ->
  let dead := {| level := ERROR; message := dead_link_message cur href; penalty := 10 |} in
  (exists a',
     verify_local_link cfg isfile href cur flag a = Done a'
     /\ issues a' = issues a ++ [dead]
     /\ internal_links_map a' = internal_links_map a
     /\ score a' = Z.max 0 (score a - 10))
  /\ (forall anchor,
        local_href cfg (Py.strip (a_href anchor)) = Some href ->
        exists a' warns,
          check_link cfg isfile cur anchor a = Done a'
          /\ issues a' = issues a ++ warns ++ [dead]
          /\ Forall (fun i => level i = WARN) warns
          /\ internal_links_map a' = internal_links_map a).
Proof.
  intros Habsent dead. apply resolve_none_of_all_absent in Habsent. split.
  - eexists. split; [now apply verify_local_link_dead|]. repeat split.
  - intros anchor Hl.
    destruct (check_link_local cfg isfile cur anchor a href Hl) as [warns [fl [E Hw]]].
    exists (log_issue ERROR (dead_link_message cur href) 10 (log_all warns a)), warns.
    split; [rewrite E; now apply verify_local_link_dead|].
    split; [cbn [log_issue issues]; now rewrite log_all_issues, <- app_assoc|].
    split; [|cbn [log_issue internal_links_map]; apply log_all_links].
    eapply Forall_impl; [exact Hw|]. now intros i [H _].
Qed.

Lemma dead_link_one_error_witness :
  forallb (fun c => negb (two_forms_disk c))
          (potential_targets two_forms_cfg "/missing" "index.html") = true
  /\ exists a',
       verify_local_link two_forms_cfg two_forms_disk "/missing" "index.html" false
                         Auditor_init = Done a'
       /\ issues a' = issues Auditor_init
                      ++ [{| level := ERROR;
                             message := dead_link_message "index.html" "/missing";
                             penalty := 10 |}]
       /\ internal_links_map a' = internal_links_map Auditor_init
       /\ score a' = Z.max 0 (score Auditor_init - 10).
Proof.
  split; [reflexivity|].
  apply (dead_link_one_error two_forms_cfg two_forms_disk "/missing" "index.html" false
                             Auditor_init).
  reflexivity.
Defined.

(** ** The link graph *)

Section LinkGraph.

Lemma record_link_sources (target source : string) (a : Auditor) :
  default [] (internal_links_map (record_link target source a) !! target)
  = default [] (internal_links_map a !! target) ++ [source].
Proof. cbn [record_link internal_links_map]. now rewrite lookup_insert_eq. Qed.

Lemma inbound_counts_member (cfg : Config) (order : SetOrder) (file : string)
    (a : Auditor) :
  file ∈ order (processed_files a) ->
  should_ignore_file cfg file = false ->
  (file, inbound_count a file) ∈ inbound_counts cfg order a.
Proof.
  intros Hin Hig. unfold inbound_counts.
  apply (list_elem_of_fmap_2 (fun f => (f, inbound_count a f))).
  apply list_elem_of_filter. now split.
Qed.

End LinkGraph.

(** C10.  A successful resolution appends the source page to the source
    list of the target, whatever the list already holds; [k] resolving
    references of one page to one target add [k] entries, and the inbound
    count read by the orphan test and by the ranking is the length of
    that list. *)
Theorem inbound_links_with_multiplicity
    (cfg : Config) (isfile : string -> bool) (cur target : string)
    (anchors : list Anchor) (a : Auditor) :
  Forall (fun an => exists l,
            local_href cfg (Py.strip (a_href an)) = Some l
            /\ resolve cfg isfile l cur = Some (Some target)) anchors ->
  (forall href flag,
     resolve cfg isfile href cur = Some (Some target) ->
     exists a1,
       verify_local_link cfg isfile href cur flag a = Done a1
       /\ internal_links_map a1
          = <[target := default [] (internal_links_map a !! target) ++ [cur]]>
              (internal_links_map a))
  /\ exists a',
       check_links cfg isfile cur anchors a = Done a'
       /\ default [] (internal_links_map a' !! target)
          = default [] (internal_links_map a !! target) ++ repeat cur (length anchors)
       /\ inbound_count a' target = (inbound_count a target + length anchors)%nat
       /\ (forall order,
             target ∈ order (processed_files a') ->
             should_ignore_file cfg target = false ->
             (target, (inbound_count a target + length anchors)%nat)
             ∈ inbound_counts cfg order a')
       /\ (anchors <> [] -> equity_step cfg a' target = a').
Proof.
  intros Hall. split.
  { intros href flag Hr. eexists.
    split; [exact (verify_local_link_resolved _ _ _ _ _ _ _ Hr)|].
    reflexivity. }
  assert (Hmain : exists a',
            check_links cfg isfile cur anchors a = Done a'
            /\ default [] (internal_links_map a' !! target)
               = default [] (internal_links_map a !! target)
                 ++ repeat cur (length anchors)).
  { revert a. induction Hall as [|an rest [l [Hl Hr]] _ IH]; intros a.
    - exists a. split; [reflexivity|]. cbn [length repeat]. now rewrite app_nil_r.
    - destruct (check_link_local cfg isfile cur an a l Hl) as [warns [fl [E _]]].
      cbn [check_links]. rewrite E, (verify_local_link_resolved _ _ _ _ _ _ _ Hr).
      cbn [and_then].
      destruct (IH (record_link target cur (log_all warns a))) as [a' [E' Hs]].
      exists a'. split; [exact E'|]. rewrite Hs, record_link_sources, log_all_links.
      cbn [length repeat]. now rewrite <- app_assoc. }
  destruct Hmain as [a' [E Hs]]. exists a'. split; [exact E|]. split; [exact Hs|].
  assert (Hc : inbound_count a' target = (inbound_count a target + length anchors)%nat).
  { unfold inbound_count. rewrite Hs, length_app, repeat_length. reflexivity. }
  split; [exact Hc|]. split.
  - intros order Hin Hig. rewrite <- Hc. now apply inbound_counts_member.
  - intros Hne. unfold equity_step. rewrite Hc.
    destruct (should_ignore_file cfg target); [reflexivity|].
    destruct anchors as [|an rest]; [congruence|].
    cbn [length]. now rewrite Nat.add_succ_r.
Qed.

Lemma inbound_links_with_multiplicity_witness :
  exists a',
    check_links two_forms_cfg two_forms_disk "index.html"
                [{| a_href := "/post"; a_rel := [] |};
                 {| a_href := "/post"; a_rel := [] |}] Auditor_init = Done a'
    /\ inbound_count a' "post.html" = 2%nat.
Proof.
  destruct (inbound_links_with_multiplicity two_forms_cfg two_forms_disk
              "index.html" "post.html"
              [{| a_href := "/post"; a_rel := [] |};
               {| a_href := "/post"; a_rel := [] |}] Auditor_init)
    as [_ [a' [E [_ [Hc _]]]]].
  - repeat constructor; exists "/post"; split; reflexivity.
  - exists a'. split; [exact E|exact Hc].
Defined.

(** ** The ledger along a run *)

Section LedgerRun.

Variable cfg : Config.
Variable isfile : string -> bool.
Variable net : Network.

Lemma ledger_ok_same (a a' : Auditor) :
  issues a' = issues a -> score a' = score a -> ledger_ok a -> ledger_ok a'.
Proof. unfold ledger_ok. intros -> ->. trivial. Qed.

Lemma verify_local_link_ledger_ok (href cur : string) (flag : bool) (a : Auditor) :
  ledger_ok a -> ledger_ok (outcome_state (verify_local_link cfg isfile href cur flag a)).
Proof.
  intros Ha. unfold verify_local_link.
  destruct (resolve cfg isfile href cur) as [[t|]|]; cbn [outcome_state].
  - now apply (ledger_ok_same a).
  - exact Ha.
  - apply log_issue_ledger_ok; [lia|exact Ha].
Qed.

Lemma check_link_ledger_ok (cur : string) (anchor : Anchor) (a : Auditor) :
  ledger_ok a -> ledger_ok (outcome_state (check_link cfg isfile cur anchor a)).
Proof.
  intros Ha. rewrite check_link_by_category. cbv zeta.
  destruct (classify cfg (Py.strip (a_href anchor))).
  - exact Ha.
  - assert (H1 : ledger_ok (record_soft_route (Py.strip (a_href anchor)) cur a))
      by now apply (ledger_ok_same a).
    destruct (_ && _); cbn [outcome_state]; [|exact H1].
    apply log_issue_ledger_ok; [lia|exact H1].
  - apply verify_local_link_ledger_ok, log_issue_ledger_ok; [lia|exact Ha].
  - assert (H1 : ledger_ok (record_external (Py.strip (a_href anchor)) cur a))
      by now apply (ledger_ok_same a).
    destruct (missing_rels (a_rel anchor)); cbn [outcome_state]; [exact H1|].
    apply log_issue_ledger_ok; [lia|exact H1].
  - apply verify_local_link_ledger_ok.
    destruct (Py.endswith _ ".html"), (negb _);
      repeat (apply log_issue_ledger_ok; [lia|]); exact Ha.
Qed.

Lemma check_links_ledger_ok (cur : string) (anchors : list Anchor) (a : Auditor) :
  ledger_ok a -> ledger_ok (outcome_state (check_links cfg isfile cur anchors a)).
Proof.
  revert a. induction anchors as [|an rest IH]; intros a Ha; [exact Ha|].
  cbn [check_links]. pose proof (check_link_ledger_ok cur an a Ha) as H.
  destruct (check_link cfg isfile cur an a); cbn [and_then outcome_state] in *.
  - now apply IH.
  - exact H.
Qed.

Lemma check_semantics_ledger_ok (file_path : string) (page : Page) (a : Auditor) :
  ledger_ok a -> ledger_ok (check_semantics file_path page a).
Proof.
  intros Ha. unfold check_semantics.
  destruct (schemas page =? 0)%nat; destruct (h1s page) as [|[|n]];
    repeat (apply log_issue_ledger_ok; [lia|]); exact Ha.
Qed.

Lemma audit_file_ledger_ok (content : string + Page) (rel_path : string) (a : Auditor) :
  ledger_ok a -> ledger_ok (audit_file cfg isfile content rel_path a).
Proof.
  intros Ha. assert (H1 : ledger_ok (count_page a)) by now apply (ledger_ok_same a).
  unfold audit_file. destruct content as [e|page].
  - apply log_issue_ledger_ok; [lia|exact H1].
  - pose proof (check_links_ledger_ok rel_path (anchors page) _ H1) as H.
    destruct (check_links cfg isfile rel_path (anchors page) (count_page a)) as [a2|[e] a2];
      cbn [outcome_state] in H.
    + now apply check_semantics_ledger_ok.
    + apply log_issue_ledger_ok; [lia|exact H].
Qed.

Lemma traverse_ledger_ok (walk : list WalkEntry) (a : Auditor) :
  ledger_ok a -> ledger_ok (outcome_state (traverse cfg isfile walk a)).
Proof.
  revert a. induction walk as [|w rest IH]; intros a Ha; [exact Ha|].
  cbn [traverse]. destruct (negb _); [now apply IH|].
  destruct (should_ignore_file cfg (w_file w)); [now apply IH|].
  destruct (posixpath.relpath _ _ _) as [rel|]; [|exact Ha].
  apply IH, audit_file_ledger_ok. now apply (ledger_ok_same a).
Qed.

Lemma equity_loop_ledger_ok (files : list string) (a : Auditor) :
  ledger_ok a -> ledger_ok (equity_loop cfg files a).
Proof.
  revert a. induction files as [|f rest IH]; intros a Ha; [exact Ha|].
  change (equity_loop cfg (f :: rest) a) with (equity_loop cfg rest (equity_step cfg a f)).
  apply IH. unfold equity_step.
  destruct (should_ignore_file cfg f); [exact Ha|].
  destruct (inbound_count a f =? 0)%nat; [|exact Ha].
  apply log_issue_ledger_ok; [lia|exact Ha].
Qed.

Lemma fold_result_ledger_ok (url : string) (v : Verdict) (a : Auditor) :
  ledger_ok a -> ledger_ok (fold_result url v a).
Proof.
  intros Ha. unfold fold_result. destruct v as [code error|e].
  - destruct (is_http_error code); [apply log_issue_ledger_ok; [lia|exact Ha]|].
    destruct error as [e|]; [|exact Ha].
    destruct (Py.truthy e); [|exact Ha].
    apply log_issue_ledger_ok; [lia|exact Ha].
  - apply log_issue_ledger_ok; [lia|exact Ha].
Qed.

Lemma drain_ledger_ok (completed : list string) (a : Auditor) :
  ledger_ok a -> ledger_ok (fst (drain net completed a)).
Proof.
  revert a. induction completed as [|u rest IH]; intros a Ha; [exact Ha|].
  cbn [drain]. destruct (verify_url net u) as [v sent].
  pose proof (IH (fold_result u v a) (fold_result_ledger_ok u v a Ha)) as H.
  destruct (drain net rest (fold_result u v a)) as [a' sent']. exact H.
Qed.

Lemma check_external_links_ledger_ok (completion : SetOrder) (a : Auditor) :
  ledger_ok a -> ledger_ok (fst (check_external_links net completion a)).
Proof.
  intros Ha. unfold check_external_links.
  destruct (bool_decide _); [exact Ha|now apply drain_ledger_ok].
Qed.

Lemma run_ledger_ok (walk : list WalkEntry) (file_order completion : SetOrder) :
  ledger_ok (outcome_state (fst (run cfg isfile net walk file_order completion))).
Proof.
  unfold run. pose proof (traverse_ledger_ok walk _ init_ledger_ok) as H.
  destruct (traverse cfg isfile walk Auditor_init) as [a1|e a1]; cbn [outcome_state] in H.
  - pose proof (check_external_links_ledger_ok completion _
                  (equity_loop_ledger_ok (file_order (processed_files a1)) a1 H)) as H2.
    fold (analyze_link_equity cfg file_order a1) in H2.
    destruct (check_external_links _ _ _) as [a3 sent]. exact H2.
  - exact H.
Qed.

End LedgerRun.

(** C4.  After any sequence of [log_issue] calls from the initial state,
    with the non-negative penalties of the data model, the score is
    [max(0, 100 - sum of the penalties logged)], lies in [0, 100], and one
    more issue never raises it; every state at the end of a run satisfies
    this, all penalties of the auditor being constants that are not
    negative. *)
Theorem score_is_clamped_remainder (l : list Issue) :
  Forall (fun i => (0 <= penalty i)%Z) l ->
  let a := log_all l Auditor_init in
  issues a = l
  /\ score a = Z.max 0 (100 - total_penalty l)
  /\ (0 <= score a <= 100)%Z
  /\ (forall lvl msg pen,
        (0 <= pen)%Z ->
        let a' := log_issue lvl msg pen a in
        (score a' <= score a)%Z
        /\ (0 <= score a')%Z
        /\ score a' = Z.max 0 (100 - total_penalty (issues a')))
  /\ (forall cfg isfile net walk file_order completion,
        let final := outcome_state (fst (run cfg isfile net walk file_order completion)) in
        score final = Z.max 0 (100 - total_penalty (issues final))
        /\ (0 <= score final <= 100)%Z).
Proof.
  intros Hl a.
  assert (Hok : ledger_ok a) by (apply log_all_ledger_ok; [exact Hl|apply init_ledger_ok]).
  assert (Hi : issues a = l) by (subst a; now rewrite log_all_issues).
  destruct Hok as [Hall Hs]. rewrite Hi in Hs, Hall.
  pose proof (total_penalty_nonneg _ Hall) as Hnn.
  split; [exact Hi|]. split; [exact Hs|]. split; [lia|]. split.
  - intros lvl msg pen Hpen a'.
    assert (Hok' : ledger_ok a').
    { apply log_issue_ledger_ok; [exact Hpen|]. split; rewrite Hi; assumption. }
    destruct Hok' as [_ Hs']. subst a'. cbn [log_issue score] in *. lia.
  - intros cfg isfile net walk file_order completion final.
    destruct (run_ledger_ok cfg isfile net walk file_order completion) as [Hall' Hs'].
    fold final in Hall', Hs'. pose proof (total_penalty_nonneg _ Hall').
    split; [exact Hs'|lia].
Qed.

Lemma score_is_clamped_remainder_witness :
  score (log_all [{| level := ERROR; message := "dead"; penalty := 10 |};
                  {| level := WARN; message := "orphan"; penalty := 5 |}] Auditor_init)
  = Z.max 0 (100 - 15).
Proof.
  apply (score_is_clamped_remainder
           [{| level := ERROR; message := "dead"; penalty := 10 |};
            {| level := WARN; message := "orphan"; penalty := 5 |}]).
  repeat constructor; cbn; lia.
Defined.

(** ** External verification *)

Section Verifier.

Variable net : Network.

Lemma requests_to_app (u : string) (l1 l2 : list Request) :
  requests_to u (l1 ++ l2) = (requests_to u l1 + requests_to u l2)%nat.
Proof. unfold requests_to. now rewrite filter_app, length_app. Qed.

Lemma verify_url_sent (url : string) :
  snd (verify_url net url) = [(HEAD, url)]
  \/ snd (verify_url net url) = [(HEAD, url); (GET, url)].
Proof.
  unfold verify_url. destruct (net_head net url); [now left| |now left].
  destruct (net_get net url); now right.
Qed.

Lemma verify_url_requests_to (u url : string) :
  (requests_to u (snd (verify_url net url)) <= 2)%nat
  /\ (u <> url -> requests_to u (snd (verify_url net url)) = 0%nat).
Proof.
  unfold requests_to.
  destruct (verify_url_sent url) as [-> | ->]; split;
    try (intros Hne; rewrite !filter_cons, filter_nil;
         rewrite !decide_False by (cbn; congruence); reflexivity).
  - etransitivity; [apply length_filter|]. cbn. lia.
  - etransitivity; [apply length_filter|]. cbn. lia.
Qed.

Lemma drain_requests_absent (u : string) (completed : list string) (a : Auditor) :
  u ∉ completed -> requests_to u (snd (drain net completed a)) = 0%nat.
Proof.
  revert a. induction completed as [|url rest IH]; intros a Hnot; [reflexivity|].
  cbn [drain]. destruct (verify_url net url) as [v sent] eqn:E.
  specialize (IH (fold_result url v a)).
  destruct (drain net rest (fold_result url v a)) as [a' sent']. cbn [snd] in *.
  rewrite requests_to_app, IH by set_solver.
  destruct (verify_url_requests_to u url) as [_ H0]. rewrite E in H0. cbn [snd] in H0.
  rewrite H0 by set_solver. reflexivity.
Qed.

Lemma drain_requests_bounded (u : string) (completed : list string) (a : Auditor) :
  NoDup completed -> (requests_to u (snd (drain net completed a)) <= 2)%nat.
Proof.
  revert a. induction completed as [|url rest IH]; intros a Hnd; [cbn; lia|].
  apply NoDup_cons in Hnd. destruct Hnd as [Hnot Hnd].
  cbn [drain]. destruct (verify_url net url) as [v sent] eqn:E.
  specialize (IH (fold_result url v a) Hnd).
  pose proof (drain_requests_absent u rest (fold_result url v a)) as Habs.
  destruct (drain net rest (fold_result url v a)) as [a' sent']. cbn [snd] in *.
  rewrite requests_to_app.
  destruct (verify_url_requests_to u url) as [H2 H0]. rewrite E in H2, H0. cbn [snd] in *.
  destruct (decide (u = url)) as [->|Hne].
  - rewrite Habs by exact Hnot. lia.
  - rewrite H0 by exact Hne. lia.
Qed.

End Verifier.

(** C5.  [verify_url] sends [HEAD] first; it sends [GET] exactly when the
    [HEAD] raised a [RequestException]; a [HEAD] answered with any status
    code is final; one URL gets at most two requests, in one call and in
    the whole run, where each member of the set [external_links] is
    verified once. *)
Theorem head_first_get_only_on_transport_failure (net : Network) (url : string) :
  let v := fst (verify_url net url) in
  let sent := snd (verify_url net url) in
  (exists rest, sent = (HEAD, url) :: rest /\ (rest = [] \/ rest = [(GET, url)]))
  /\ ((GET, url) ∈ sent <-> exists e, net_head net url = RequestException e)
  /\ (forall c, net_head net url = Status c ->
        v = Returned (Some c) None /\ sent = [(HEAD, url)])
  /\ (length sent <= 2)%nat
  /\ (forall completed a u,
        NoDup completed -> (requests_to u (snd (drain net completed a)) <= 2)%nat)
  /\ (forall cfg isfile walk file_order completion u,
        walks_each_once completion ->
        (requests_to u (snd (run cfg isfile net walk file_order completion)) <= 2)%nat).
Proof.
  cbv zeta. split.
  { destruct (verify_url_sent net url) as [-> | ->]; eexists; split; eauto. }
  split.
  { unfold verify_url. destruct (net_head net url) as [c|e|e] eqn:Eh.
    - cbn [snd]. split; [|intros [e He]; discriminate].
      intros H. apply list_elem_of_singleton in H. discriminate.
    - split; [intros _; now exists e|intros _].
      destruct (net_get net url); cbn [snd]; set_solver.
    - cbn [snd]. split; [|intros [e' He]; discriminate].
      intros H. apply list_elem_of_singleton in H. discriminate. }
  split.
  { intros c Hc. unfold verify_url. rewrite Hc. now split. }
  split.
  { destruct (verify_url_sent net url) as [-> | ->]; cbn; lia. }
  split.
  { intros completed a u Hnd. now apply drain_requests_bounded. }
  intros cfg isfile walk file_order completion u Hperm. unfold run.
  destruct (traverse cfg isfile walk Auditor_init) as [a1|e a1]; [|cbn; lia].
  set (a2 := analyze_link_equity cfg file_order a1).
  unfold check_external_links. destruct (bool_decide (external_links a2 = ∅)); [cbn; lia|].
  pose proof (drain_requests_bounded net u (completion (external_links a2)) a2) as H.
  destruct (drain net (completion (external_links a2)) a2) as [a3 sent]. apply H.
  rewrite (Hperm (external_links a2)). apply NoDup_elements.
Qed.

Lemma head_first_get_only_on_transport_failure_witness :
  net_head head_404 "https://partner.example.org/" = Status 404
  /\ fst (verify_url head_404 "https://partner.example.org/") = Returned (Some 404%Z) None
  /\ snd (verify_url head_404 "https://partner.example.org/")
     = [(HEAD, "https://partner.example.org/")].
Proof.
  split; [reflexivity|].
  apply (head_first_get_only_on_transport_failure head_404 "https://partner.example.org/").
  reflexivity.
Defined.

(** ** Link equity *)

Section Equity.

Variable cfg : Config.

Lemma is_orphan_same_links (a a' : Auditor) (file : string) :
  internal_links_map a' = internal_links_map a ->
  is_orphan cfg a' file = is_orphan cfg a file.
Proof. intros H. unfold is_orphan, inbound_count. now rewrite H. Qed.

Lemma equity_step_issues (a : Auditor) (file : string) :
  issues (equity_step cfg a file)
  = issues a ++ (if is_orphan cfg a file then [orphan_issue file] else [])
  /\ internal_links_map (equity_step cfg a file) = internal_links_map a.
Proof.
  unfold equity_step, is_orphan.
  destruct (should_ignore_file cfg file); cbn [negb andb].
  - now rewrite app_nil_r.
  - destruct (inbound_count a file =? 0)%nat; [now split|now rewrite app_nil_r].
Qed.

(** The issues appended by the loop: one orphan warning per entry of
    [files] that is not ignored and has no inbound link. *)
Lemma equity_loop_issues (files : list string) (a : Auditor) :
  issues (equity_loop cfg files a)
  = issues a ++ map orphan_issue (filter (fun f => is_orphan cfg a f = true) files).
Proof.
  assert (G : forall a0, internal_links_map a0 = internal_links_map a ->
              issues (equity_loop cfg files a0)
              = issues a0
                ++ map orphan_issue (filter (fun f => is_orphan cfg a f = true) files)).
  { induction files as [|f rest IH]; intros a0 Hm.
    - now rewrite app_nil_r.
    - change (equity_loop cfg (f :: rest) a0)
        with (equity_loop cfg rest (equity_step cfg a0 f)).
      destruct (equity_step_issues a0 f) as [Hi Hl].
      rewrite IH by now rewrite Hl. rewrite Hi, (is_orphan_same_links a a0 f Hm).
      rewrite filter_cons. destruct (is_orphan cfg a f) eqn:E.
      + rewrite decide_True by reflexivity. cbn [map]. now rewrite <- app_assoc.
      + rewrite decide_False by discriminate. now rewrite app_nil_r. }
  now apply G.
Qed.

Lemma orphan_message_inj (f g : string) : orphan_message f = orphan_message g -> f = g.
Proof.
  unfold orphan_message. intros H. apply append_inv_head in H.
  now apply append_inv_tail in H.
Qed.

Lemma orphan_issue_inj (f g : string) : orphan_issue f = orphan_issue g -> f = g.
Proof. intros H. apply orphan_message_inj. exact (f_equal message H). Qed.

(** Each orphan is reported once when [order] walks a set. *)
Lemma orphan_reported_once (files : list string) (a : Auditor) (file : string) :
  NoDup files -> file ∈ files -> is_orphan cfg a file = true ->
  exists before after,
    issues (equity_loop cfg files a)
    = issues a ++ before ++ orphan_issue file :: after
    /\ (orphan_issue file ∉ before) /\ (orphan_issue file ∉ after).
Proof.
  intros Hnd Hin Ho. rewrite equity_loop_issues.
  assert (Hf : file ∈ filter (fun f => is_orphan cfg a f = true) files)
    by (apply list_elem_of_filter; now split).
  assert (Hnd' : NoDup (filter (fun f => is_orphan cfg a f = true) files))
    by now apply NoDup_filter.
  apply list_elem_of_split in Hf. destruct Hf as [l1 [l2 E]]. rewrite E in *.
  exists (map orphan_issue l1), (map orphan_issue l2).
  split; [now rewrite map_app|].
  apply NoDup_app in Hnd'. destruct Hnd' as [_ [H12 H2]].
  apply NoDup_cons in H2. destruct H2 as [Hn2 _].
  split; intros Hm; apply list_elem_of_fmap in Hm; destruct Hm as [g [Eg Hg]];
    apply orphan_issue_inj in Eg; subst g.
  - apply (H12 file Hg). now left.
  - now apply Hn2.
Qed.

End Equity.

Lemma elements_walks_each_once : walks_each_once elements.
Proof. intros s. reflexivity. Qed.

(** The home page of a site none of whose pages links to it is reported
    as an orphan: the exemption of the specification does not hold. *)
Lemma home_page_without_links_is_orphan : ~ spec_home_page_exempt.
Proof.
  intros H.
  apply (H two_forms_cfg elements home_only elements_walks_each_once).
  - cbn [home_only add_processed issues Auditor_init]. apply not_elem_of_nil.
  - vm_compute. apply list_elem_of_singleton. reflexivity.
Qed.

Section OrphanSet.

Variable cfg : Config.

Lemma is_orphan_true_iff (a : Auditor) (file : string) :
  is_orphan cfg a file = true
  <-> should_ignore_file cfg file = false /\ inbound_count a file = 0%nat.
Proof.
  unfold is_orphan. rewrite andb_true_iff, negb_true_iff, Nat.eqb_eq. reflexivity.
Qed.

Lemma orphan_issues_NoDup (files : list string) :
  NoDup files -> NoDup (map orphan_issue files).
Proof.
  induction 1 as [|f files Hnot Hnd IH]; [constructor|].
  cbn [map]. apply NoDup_cons. split; [|exact IH].
  intros Hin. apply list_elem_of_fmap in Hin. destruct Hin as [g [Eg Hg]].
  apply orphan_issue_inj in Eg. subst g. now apply Hnot.
Qed.

Lemma orphan_issue_member (files : list string) (a : Auditor) (i : Issue) :
  i ∈ map orphan_issue (filter (fun f => is_orphan cfg a f = true) files)
  <-> exists file,
        i = orphan_issue file /\ file ∈ files
        /\ should_ignore_file cfg file = false /\ inbound_count a file = 0%nat.
Proof.
  split.
  - intros Hin. apply list_elem_of_fmap in Hin. destruct Hin as [f [-> Hf]].
    apply list_elem_of_filter in Hf. destruct Hf as [Ho Hf].
    apply is_orphan_true_iff in Ho. exists f. tauto.
  - intros (f & -> & Hf & Hig & Hc).
    apply (list_elem_of_fmap_2 orphan_issue). apply list_elem_of_filter.
    split; [now apply is_orphan_true_iff|exact Hf].
Qed.

End OrphanSet.

(** C3, amended.  [analyze_link_equity] gives the home page no exemption.
    The issues it appends are orphan warnings, each a [WARN] of penalty
    5, without repetition, and there is one for a page exactly when the
    page is in [processed_files], is not ignored and has no inbound
    link: [index.html] without inbound link gets one like any other
    page, a page with an inbound link gets none. *)
Theorem orphan_reported_for_every_unlinked_page
    (cfg : Config) (order : SetOrder) (a : Auditor) :
  walks_each_once order ->
  (exists new,
     issues (analyze_link_equity cfg order a) = issues a ++ new
     /\ new = map orphan_issue
                (filter (fun f => is_orphan cfg a f = true) (order (processed_files a)))
     /\ NoDup new
     /\ (forall i,
           i ∈ new
           <-> exists file,
                 i = orphan_issue file /\ file ∈ processed_files a
                 /\ should_ignore_file cfg file = false
                 /\ inbound_count a file = 0%nat)
     /\ (forall file,
           orphan_issue file ∈ new
           <-> file ∈ processed_files a
               /\ should_ignore_file cfg file = false
               /\ inbound_count a file = 0%nat))
  /\ (forall file,
        file ∈ processed_files a ->
        should_ignore_file cfg file = false ->
        inbound_count a file = 0%nat ->
        exists before after,
          issues (analyze_link_equity cfg order a)
          = issues a ++ before ++ orphan_issue file :: after
          /\ (orphan_issue file ∉ before) /\ (orphan_issue file ∉ after))
  /\ (forall file,
        level (orphan_issue file) = WARN /\ penalty (orphan_issue file) = 5%Z)
  /\ (forall base root table,
        should_ignore_file (Config_init base root table) "index.html" = false
        /\ analyze_link_equity (Config_init base root table) elements home_only
           = log_issue WARN "Orphan Page: index.html has 0 inbound links." 5 home_only
        /\ score (analyze_link_equity (Config_init base root table) elements home_only)
           = 95%Z).
Proof.
  intros Hw. unfold analyze_link_equity.
  assert (Hnd : NoDup (order (processed_files a)))
    by (rewrite (Hw (processed_files a)); apply NoDup_elements).
  assert (Hmem : forall f, f ∈ order (processed_files a) <-> f ∈ processed_files a)
    by (intros f; rewrite (Hw (processed_files a)); apply elem_of_elements).
  assert (Hi : forall i,
             i ∈ map orphan_issue
                   (filter (fun f => is_orphan cfg a f = true) (order (processed_files a)))
             <-> exists file,
                   i = orphan_issue file /\ file ∈ processed_files a
                   /\ should_ignore_file cfg file = false
                   /\ inbound_count a file = 0%nat).
  { intros i. rewrite orphan_issue_member. split; intros (f & E & Hf & R);
      exists f; (split; [exact E|]); (split; [now apply Hmem|exact R]). }
  split; [|split; [|split]].
  - eexists. split; [apply equity_loop_issues|]. split; [reflexivity|].
    split; [now apply orphan_issues_NoDup, NoDup_filter|]. split; [exact Hi|].
    intros file. rewrite Hi. split.
    + intros (f & E & R). apply orphan_issue_inj in E. now subst f.
    + intros R. now exists file.
  - intros file Hin Hig Hc. apply orphan_reported_once.
    + exact Hnd.
    + now apply Hmem.
    + now apply is_orphan_true_iff.
  - intros file. split; reflexivity.
  - intros base root table. repeat split.
Qed.

Lemma orphan_reported_for_every_unlinked_page_witness :
  exists before after,
    issues (analyze_link_equity two_forms_cfg elements home_only)
    = issues home_only ++ before ++ orphan_issue "index.html" :: after
    /\ (orphan_issue "index.html" ∉ before) /\ (orphan_issue "index.html" ∉ after).
Proof.
  destruct (orphan_reported_for_every_unlinked_page two_forms_cfg elements home_only
              elements_walks_each_once) as [_ [H _]].
  apply (H "index.html").
  - apply elem_of_union_l, elem_of_singleton. reflexivity.
  - reflexivity.
  - reflexivity.
Defined.

(** ** Folding the verdicts into the ledger *)

(** C6.  [fold_result] on the verdict of [verify_url], the exceptions of
    [requests] carrying their text: a final status below 400, from the
    [HEAD] or from the fallback [GET], logs nothing; a final status of 400
    or more logs exactly one [ERROR] of penalty 5; a transport failure of
    both attempts logs exactly one [ERROR] of penalty 5. *)
Theorem external_result_folds_into_ledger
    (net : Network) (url : string) (a : Auditor) :
  carries_text net ->
  let v := fst (verify_url net url) in
  (forall c,
     (net_head net url = Status c
      \/ exists e1, net_head net url = RequestException e1 /\ net_get net url = Status c) ->
     ((c < 400)%Z -> fold_result url v a = a)
     /\ ((400 <= c)%Z ->
         fold_result url v a = log_issue ERROR (external_dead_message url c) 5 a
         /\ issues (fold_result url v a)
            = issues a ++ [{| level := ERROR;
                              message := external_dead_message url c;
                              penalty := 5 |}]))
  /\ (forall e1 e2,
        net_head net url = RequestException e1 ->
        net_get net url = RequestException e2 ->
        fold_result url v a = log_issue ERROR (external_error_message url e2) 5 a
        /\ issues (fold_result url v a)
           = issues a ++ [{| level := ERROR;
                             message := external_error_message url e2;
                             penalty := 5 |}]).
Proof.
  intros Htext. cbv zeta. split.
  - intros c Hc.
    assert (E : fst (verify_url net url) = Returned (Some c) None).
    { unfold verify_url. destruct Hc as [-> | [e1 [-> ->]]]; reflexivity. }
    rewrite E. cbn [fold_result is_http_error]. split; intros Hlt.
    + destruct (negb (c =? 0)%Z && (400 <=? c)%Z) eqn:Eb; [|reflexivity].
      apply andb_true_iff in Eb. lia.
    + destruct (negb (c =? 0)%Z && (400 <=? c)%Z) eqn:Eb; [split; reflexivity|].
      apply andb_false_iff in Eb. destruct Eb as [Eb|Eb]; [apply negb_false_iff in Eb|]; lia.
  - intros e1 e2 Hh Hg.
    assert (Hne : e2 <> "") by (apply (Htext url e2); now right).
    assert (E : fst (verify_url net url) = Returned None (Some e2)).
    { unfold verify_url. now rewrite Hh, Hg. }
    rewrite E. cbn [fold_result is_http_error].
    apply truthy_nonempty in Hne. rewrite Hne. split; reflexivity.
Qed.

Lemma external_result_folds_into_ledger_witness :
  carries_text (unreachable "Connection refused")
  /\ issues (fold_result "https://down.example.org/"
               (fst (verify_url (unreachable "Connection refused")
                       "https://down.example.org/")) Auditor_init)
     = [{| level := ERROR;
           message := external_error_message "https://down.example.org/"
                        "Connection refused";
           penalty := 5 |}].
Proof.
  assert (Ht : carries_text (unreachable "Connection refused")).
  { intros url e [H|H]; injection H as <-; discriminate. }
  split; [exact Ht|].
  destruct (external_result_folds_into_ledger (unreachable "Connection refused")
              "https://down.example.org/" Auditor_init Ht) as [_ H].
  destruct (H "HEAD refused" "Connection refused" eq_refl eq_refl) as [_ ->].
  reflexivity.
Defined.

(** ** Soft routes *)

(** Without redirect manifest the table is empty and a soft route is
    recorded without any warning. *)
Lemma soft_route_unwarned_on_empty_table : ~ spec_soft_route_always_warned.
Proof.
  intros H.
  destruct (H two_forms_cfg two_forms_disk "index.html" offer_link Auditor_init
              eq_refl eq_refl) as [a' [i [E [Hi _]]]].
  rewrite check_link_by_category in E. cbv zeta in E.
  change (classify two_forms_cfg (Py.strip (a_href offer_link))) with SoftRoute in E.
  change (negb (bool_decide (redirects two_forms_cfg = ∅))) with false in E.
  cbn [andb] in E. injection E as <-. cbn [record_soft_route issues Auditor_init] in Hi.
  discriminate.
Qed.

(** C7, amended.  A soft-route reference that the ignore rules let
    through is recorded, and it is warned about, with one [WARN] of
    penalty 5, exactly when the redirect table is not empty and lacks the
    token; with an empty table no issue is logged. *)
Theorem soft_route_warned_when_table_nonempty
    (cfg : Config) (isfile : string -> bool) (cur : string)
    (anchor : Anchor) (a : Auditor) :
  let href := Py.strip (a_href anchor) in
  classify cfg href = SoftRoute ->
  exists a',
    check_link cfg isfile cur anchor a = Done a'
    /\ issues a'
       = issues a
         ++ (if bool_decide (redirects cfg = ∅) then []
             else match redirects cfg !! href with
                  | Some _ => []
                  | None => [{| level := WARN;
                                message := soft_route_message cur href;
                                penalty := 5 |}]
                  end)
    /\ internal_links_map a' = internal_links_map a
    /\ cur ∈ default ∅ (soft_route_sources a' !! href).
Proof.
  intros href Hc. rewrite check_link_by_category. cbv zeta. fold href. rewrite Hc.
  destruct (bool_decide (redirects cfg = ∅)); cbn [negb andb].
  - eexists. split; [reflexivity|]. cbn [record_soft_route issues internal_links_map
                                          soft_route_sources].
    rewrite app_nil_r, lookup_insert_eq. cbn [default]. repeat split. set_solver.
  - destruct (redirects cfg !! href) as [d|] eqn:El.
    + rewrite bool_decide_true by (now exists d). cbn [negb].
      eexists. split; [reflexivity|].
      cbn [record_soft_route issues internal_links_map soft_route_sources].
      rewrite app_nil_r, lookup_insert_eq. cbn [default]. repeat split. set_solver.
    + rewrite bool_decide_false by (intros [d Hd]; discriminate). cbn [negb].
      eexists. split; [reflexivity|].
      cbn [log_issue record_soft_route issues internal_links_map soft_route_sources].
      rewrite lookup_insert_eq. cbn [default]. repeat split. set_solver.
Qed.

Lemma soft_route_warned_when_table_nonempty_witness :
  exists a',
    check_link (Config_init "https://example.com/" "/srv/site" {["/go/shop" := "/shop"]})
               two_forms_disk "index.html" offer_link Auditor_init = Done a'
    /\ issues a'
       = [{| level := WARN;
             message := soft_route_message "index.html" "/go/offer";
             penalty := 5 |}].
Proof.
  destruct (soft_route_warned_when_table_nonempty
              (Config_init "https://example.com/" "/srv/site" {["/go/shop" := "/shop"]})
              two_forms_disk "index.html" offer_link Auditor_init)
    as [a' [E [Hi _]]].
  - reflexivity.
  - exists a'. split; [exact E|]. rewrite Hi. reflexivity.
Defined.

(** ** Classification of absolute URLs *)

Section Absolute.

Lemma should_ignore_url_http (base root : string) (table : gmap string string)
    (href : string) :
  is_http href = true ->
  should_ignore_url (Config_init base root table) href
  = Py.contains "cdn-cgi" href || Py.contains "google" href.
Proof.
  intros H. unfold should_ignore_url. cbn [Config_init ignore_urls_prefixes ignore_urls_domains].
  rewrite (http_truthy href H), (http_not_default_prefix href H),
    (http_contains_scheme_sep href H).
  cbn [negb existsb]. now rewrite orb_false_r.
Qed.

End Absolute.

(** A URL on the site origin with [google] in its path is ignored, not
    internal-absolute; a foreign URL with [cdn-cgi] in its path only is
    ignored although its host holds no denylisted fragment. *)
Lemma denylist_tested_before_origin_on_whole_url :
  ~ spec_origin_tested_first /\ ~ spec_denylist_on_host.
Proof.
  split.
  - intros H.
    specialize (H two_forms_cfg "https://example.com/google-ads-guide"
                  eq_refl eq_refl eq_refl).
    vm_compute in H. discriminate.
  - intros H.
    destruct (H two_forms_cfg "https://shop.example.org/cdn-cgi/l/email-protection"
                eq_refl eq_refl) as [Hhost _].
    destruct (Hhost eq_refl) as [d [Hd Hin]].
    cbn [two_forms_cfg Config_init ignore_urls_domains] in Hd.
    apply elem_of_cons in Hd. destruct Hd as [->|Hd]; [vm_compute in Hin; discriminate|].
    apply list_elem_of_singleton in Hd. subst d. vm_compute in Hin. discriminate.
Qed.

(** C8, amended.  An absolute http(s) URL meets the ignore rules first:
    it is ignored exactly when a denylisted fragment ([cdn-cgi],
    [google]) occurs anywhere in the URL, its path and query included.
    Only a URL that is not ignored is compared with the site origin: it
    is internal-absolute, and its origin-stripped suffix is resolved
    locally, when the origin is not empty and a prefix of it; it is
    external otherwise. *)
Theorem absolute_url_ignore_rules_first
    (base root : string) (table : gmap string string) (href : string) :
  is_http href = true ->
  let cfg := Config_init base root table in
  let denylisted := Py.contains "cdn-cgi" href || Py.contains "google" href in
  classify cfg href
  = (if denylisted then Ignored
     else if Py.truthy base && Py.startswith href base
          then InternalAbsolute (local_part_of cfg href)
          else External)
  /\ (forall isfile cur anchor a,
        Py.strip (a_href anchor) = href ->
        check_link cfg isfile cur anchor a
        = if denylisted then Done a
          else if Py.truthy base && Py.startswith href base
               then verify_local_link cfg isfile (local_part_of cfg href) cur true
                      (log_issue WARN (absolute_internal_message cur href) 2 a)
               else match missing_rels (a_rel anchor) with
                    | [] => Done (record_external href cur a)
                    | missing =>
                        Done (log_issue WARN (missing_rel_message cur href missing) 2
                                (record_external href cur a))
                    end).
Proof.
  intros Hh cfg denylisted.
  assert (Hc : classify cfg href
               = (if denylisted then Ignored
                  else if Py.truthy base && Py.startswith href base
                       then InternalAbsolute (local_part_of cfg href)
                       else External)).
  { unfold classify. subst cfg. rewrite (should_ignore_url_http base root table href Hh).
    fold denylisted. destruct denylisted; [reflexivity|].
    rewrite (http_not_soft_route href Hh). unfold is_http in Hh. rewrite Hh.
    reflexivity. }
  split; [exact Hc|].
  intros isfile cur anchor a Hs.
  rewrite check_link_by_category. cbv zeta. rewrite Hs, Hc.
  destruct denylisted; [reflexivity|].
  destruct (Py.truthy base && Py.startswith href base); reflexivity.
Qed.

Lemma absolute_url_ignore_rules_first_witness :
  is_http "https://example.com/google-ads-guide" = true
  /\ classify two_forms_cfg "https://example.com/google-ads-guide" = Ignored.
Proof.
  split; [reflexivity|].
  destruct (absolute_url_ignore_rules_first "https://example.com/" "/srv/site" ∅
              "https://example.com/google-ads-guide" eq_refl) as [H _].
  exact H.
Defined.

(** C9.  With an empty base URL, which [load_from_index] sets when
    neither the canonical link nor [og:url] gives one, no absolute
    http(s) URL is internal-absolute: each one the ignore rules let
    through is external, is added to [external_links] with its source
    page, and reaches no local resolution. *)
Theorem empty_origin_all_absolute_external
    (cfg : Config) (isfile : string -> bool) (cur : string)
    (anchor : Anchor) (a : Auditor) :
  let href := Py.strip (a_href anchor) in
  base_url cfg = "" ->
  is_http href = true ->
  should_ignore_url cfg href = false ->
  classify cfg href = External
  /\ (forall local_part, classify cfg href <> InternalAbsolute local_part)
  /\ (exists a',
        check_link cfg isfile cur anchor a = Done a'
        /\ href ∈ external_links a'
        /\ cur ∈ default ∅ (external_link_sources a' !! href)
        /\ internal_links_map a' = internal_links_map a
        /\ Forall (fun i => level i = WARN /\ penalty i = 2%Z)
                  (drop (length (issues a)) (issues a')))
  /\ load_base_url None None = ""
  /\ (forall c o, (c = None \/ c = Some "") -> (o = None \/ o = Some "") ->
        load_base_url c o = "").
Proof.
  intros href Hb Hh Hi.
  assert (Hc : classify cfg href = External).
  { unfold classify. rewrite Hi, (http_not_soft_route href Hh).
    unfold is_http in Hh. rewrite Hh, Hb. reflexivity. }
  split; [exact Hc|]. split; [intros lp; rewrite Hc; discriminate|]. split.
  - rewrite check_link_by_category. cbv zeta. fold href. rewrite Hc.
    destruct (missing_rels (a_rel anchor)) as [|m ms]; eexists; (split; [reflexivity|]);
      cbn [log_issue record_external external_links external_link_sources
           internal_links_map issues];
      rewrite lookup_insert_eq; cbn [default];
      (split; [set_solver|]); (split; [set_solver|]); (split; [reflexivity|]).
    + rewrite drop_all. constructor.
    + rewrite drop_app_length. now repeat constructor.
  - split; [reflexivity|].
    intros c o [-> | ->] [-> | ->]; reflexivity.
Qed.

Lemma empty_origin_all_absolute_external_witness :
  classify (Config_init "" "/srv/site" ∅) "https://example.com/post" = External.
Proof.
  apply (empty_origin_all_absolute_external (Config_init "" "/srv/site" ∅)
           two_forms_disk "index.html"
           {| a_href := "https://example.com/post"; a_rel := [] |} Auditor_init);
    reflexivity.
Defined.

(** * Further properties of the auditor *)

(** ** Resolution never raises *)

Section NoRaise.

Variable cfg : Config.
Variable isfile : string -> bool.

Lemma append_nonempty_l (a b : string) : a <> "" -> a +:+ b <> "".
Proof. destruct a; [congruence|]. rewrite append_cons. discriminate. Qed.

Lemma append_nonempty_r (a b : string) : b <> "" -> a +:+ b <> "".
Proof. destruct a; [trivial|]. rewrite append_cons. discriminate. Qed.

Lemma startswith_nonempty (s p : string) :
  p <> "" -> Py.startswith s p = true -> s <> "".
Proof.
  unfold Py.startswith. intros Hp H ->. destruct p; [congruence|discriminate].
Qed.

Lemma join2_nonempty (path b : string) :
  path <> "" \/ b <> "" -> posixpath.join2 path b <> "".
Proof.
  intros H. unfold posixpath.join2.
  destruct (Py.startswith b "/") eqn:Hb.
  - eapply startswith_nonempty; [|exact Hb]. discriminate.
  - destruct (String.eqb path "" || Py.endswith path "/").
    + destruct H; [now apply append_nonempty_l|now apply append_nonempty_r].
    + apply append_nonempty_r, append_nonempty_l. discriminate.
Qed.

Lemma normpath_nonempty (path : string) : posixpath.normpath path <> "".
Proof.
  unfold posixpath.normpath. destruct (String.eqb path ""); [discriminate|].
  cbv zeta. match goal with |- (if String.eqb ?r "" then _ else _) <> _ =>
    destruct (String.eqb_spec r "") end; [discriminate|assumption].
Qed.

Lemma relpath_some (cwd path start : string) :
  path <> "" -> exists r, posixpath.relpath cwd path start = Some r.
Proof.
  intros H. unfold posixpath.relpath. apply truthy_nonempty in H. rewrite H.
  cbn [negb]. destruct (posixpath.drop_common _ _) as [l1 l2].
  destruct (repeat ".." (length l1) ++ l2); eauto.
Qed.

Lemma target_path_nonempty (clean cur : string) :
  root_dir cfg <> "" -> target_path cfg clean cur <> "".
Proof.
  intros Hr. unfold target_path. destruct (Py.startswith clean "/").
  - unfold posixpath.join. cbn [fold_left]. apply join2_nonempty. now left.
  - apply normpath_nonempty.
Qed.

Lemma potential_targets_nonempty (href cur : string) :
  root_dir cfg <> "" ->
  Forall (fun p => p <> "") (potential_targets cfg href cur).
Proof.
  intros Hr. rewrite potential_targets_shape. cbv zeta.
  pose proof (target_path_nonempty (clean_href href) cur Hr) as Hp.
  apply Forall_app. split.
  - destruct (Py.endswith _ _); repeat constructor. exact Hp.
  - repeat constructor; [now apply append_nonempty_l| |exact Hp].
    unfold posixpath.join. cbn [fold_left]. apply join2_nonempty. now left.
Qed.

Lemma find_some_member (l : list string) (p : string) :
  find isfile l = Some p -> p ∈ l /\ isfile p = true.
Proof.
  intros H. apply find_some in H. destruct H as [Hin Hp].
  split; [now apply list_elem_of_In|exact Hp].
Qed.

Lemma find_existsb (l : list string) :
  existsb isfile l = match find isfile l with Some _ => true | None => false end.
Proof.
  induction l as [|x l IH]; [reflexivity|].
  cbn [existsb find]. destruct (isfile x); [reflexivity|exact IH].
Qed.

Lemma resolve_never_fails (href cur : string) :
  root_dir cfg <> "" -> resolve cfg isfile href cur <> Some None.
Proof.
  intros Hr. unfold resolve.
  destruct (find isfile (potential_targets cfg href cur)) as [p|] eqn:E; [|discriminate].
  apply find_some_member in E. destruct E as [Hin _].
  pose proof (potential_targets_nonempty href cur Hr) as Hall.
  rewrite Forall_forall in Hall.
  destruct (relpath_some (root_dir cfg) p (root_dir cfg) (Hall p Hin)) as [r ->].
  discriminate.
Qed.

Lemma verify_local_link_done (href cur : string) (flag : bool) (a : Auditor) :
  root_dir cfg <> "" ->
  exists a', verify_local_link cfg isfile href cur flag a = Done a'.
Proof.
  intros Hr. pose proof (resolve_never_fails href cur Hr) as H.
  unfold verify_local_link. destruct (resolve cfg isfile href cur) as [[t|]|]; eauto.
  congruence.
Qed.

Lemma check_link_done (cur : string) (anchor : Anchor) (a : Auditor) :
  root_dir cfg <> "" ->
  exists a', check_link cfg isfile cur anchor a = Done a'.
Proof.
  intros Hr. rewrite check_link_by_category. cbv zeta.
  destruct (classify cfg (Py.strip (a_href anchor))); eauto using verify_local_link_done.
  - destruct (_ && _); eauto.
  - destruct (missing_rels (a_rel anchor)); eauto.
Qed.

Lemma check_links_done (cur : string) (anchors : list Anchor) (a : Auditor) :
  root_dir cfg <> "" ->
  exists a', check_links cfg isfile cur anchors a = Done a'.
Proof.
  intros Hr. revert a. induction anchors as [|an rest IH]; intros a; [now exists a|].
  cbn [check_links]. destruct (check_link_done cur an a Hr) as [a1 ->]. apply IH.
Qed.

End NoRaise.

(** X1.  With a root directory that is not the empty string (it is
    [os.getcwd()]), every candidate path is non-empty, [relpath] never
    raises, and so [verify_local_link] and [check_links] always complete:
    a page that could be read is never logged as "Failed to read file" on
    account of its links. *)
Theorem link_checking_never_raises
    (cfg : Config) (isfile : string -> bool) (rel_path : string) (page : Page)
    (a : Auditor) :
  root_dir cfg <> "" ->
  (forall href, Forall (fun p => p <> "") (potential_targets cfg href rel_path))
  /\ (forall href flag a0,
        exists a', verify_local_link cfg isfile href rel_path flag a0 = Done a')
  /\ (exists a2,
        check_links cfg isfile rel_path (anchors page) (count_page a) = Done a2
        /\ audit_file cfg isfile (inr page) rel_path a = check_semantics rel_path page a2).
Proof.
  intros Hr. split; [|split].
  - intros href. now apply potential_targets_nonempty.
  - intros href flag a0. now apply verify_local_link_done.
  - destruct (check_links_done cfg isfile rel_path (anchors page) (count_page a) Hr)
      as [a2 E].
    exists a2. split; [exact E|]. unfold audit_file. now rewrite E.
Qed.

Lemma link_checking_never_raises_witness :
  exists a2,
    check_links two_forms_cfg two_forms_disk "index.html"
                [{| a_href := "/post"; a_rel := [] |}; {| a_href := "gone"; a_rel := [] |}]
                (count_page Auditor_init) = Done a2.
Proof.
  destruct (link_checking_never_raises two_forms_cfg two_forms_disk "index.html"
              {| anchors := [{| a_href := "/post"; a_rel := [] |};
                             {| a_href := "gone"; a_rel := [] |}];
                 h1s := 1; schemas := 1 |} Auditor_init)
    as [_ [_ [a2 [E _]]]].
  - discriminate.
  - exists a2. exact E.
Defined.

(** ** Found or dead, never both *)

(** X2.  [verify_local_link] does exactly one of two things.  When some
    candidate is a regular file it records the link under the relative
    path of a candidate that is a file and logs nothing; when none is, it
    logs the dead link and records nothing.  An existing target is never
    reported dead and a missing one never enters the link graph. *)
Theorem found_or_dead
    (cfg : Config) (isfile : string -> bool) (href cur : string) (flag : bool)
    (a : Auditor) :
  root_dir cfg <> "" ->
  if existsb isfile (potential_targets cfg href cur)
  then exists p target,
         p ∈ potential_targets cfg href cur
         /\ isfile p = true
         /\ posixpath.relpath (root_dir cfg) p (root_dir cfg) = Some target
         /\ verify_local_link cfg isfile href cur flag a = Done (record_link target cur a)
         /\ issues (record_link target cur a) = issues a
         /\ score (record_link target cur a) = score a
  else verify_local_link cfg isfile href cur flag a
       = Done (log_issue ERROR (dead_link_message cur href) 10 a)
       /\ internal_links_map (log_issue ERROR (dead_link_message cur href) 10 a)
          = internal_links_map a.
Proof.
  intros Hr. rewrite find_existsb. unfold verify_local_link, resolve.
  destruct (find isfile (potential_targets cfg href cur)) as [p|] eqn:E.
  - destruct (find_some_member isfile _ _ E) as [Hin Hp].
    pose proof (potential_targets_nonempty cfg href cur Hr) as Hall.
    rewrite Forall_forall in Hall.
    destruct (relpath_some (root_dir cfg) p (root_dir cfg) (Hall p Hin)) as [r Er].
    exists p, r. rewrite Er. repeat split; assumption.
  - split; reflexivity.
Qed.

Lemma found_or_dead_witness :
  exists p target,
    p ∈ potential_targets two_forms_cfg "/post/" "index.html"
    /\ two_forms_disk p = true
    /\ posixpath.relpath "/srv/site" p "/srv/site" = Some target
    /\ verify_local_link two_forms_cfg two_forms_disk "/post/" "index.html" false
         Auditor_init = Done (record_link target "index.html" Auditor_init)
    /\ issues (record_link target "index.html" Auditor_init) = issues Auditor_init
    /\ score (record_link target "index.html" Auditor_init) = score Auditor_init.
Proof.
  apply (found_or_dead two_forms_cfg two_forms_disk "/post/" "index.html" false
           Auditor_init).
  discriminate.
Defined.

(** ** What resolution does not depend on *)

Section Independence.

Variable cfg : Config.
Variable isfile : string -> bool.

Lemma startswith_slash_split0 (c : ascii) (s : string) :
  c <> "/"%char -> Py.startswith s "/" = true -> Py.startswith (Py.split0 c s) "/" = true.
Proof.
  intros Hc. destruct s as [|d s]; [discriminate|].
  unfold Py.startswith. rewrite prefix_cons, prefix_nil, andb_true_r. intros H.
  apply Ascii.eqb_eq in H. subst d. rewrite split0_cons.
  destruct (Ascii.eqb_spec "/"%char c) as [<-|_]; [congruence|].
  now rewrite prefix_cons, prefix_nil.
Qed.

Lemma clean_href_root_relative (href : string) :
  Py.startswith href "/" = true -> Py.startswith (clean_href href) "/" = true.
Proof.
  intros H. unfold clean_href.
  apply startswith_slash_split0; [discriminate|].
  apply startswith_slash_split0; [discriminate|exact H].
Qed.

Lemma local_part_root_relative (href : string) :
  Py.startswith (local_part_of cfg href) "/" = true.
Proof.
  unfold local_part_of. cbv zeta.
  destruct (Py.startswith (drop_chars _ href) "/") eqn:E; cbn [negb]; [exact E|].
  unfold Py.startswith. now rewrite append_cons, prefix_cons, prefix_nil.
Qed.

Lemma root_relative_targets (href cur1 cur2 : string) :
  Py.startswith href "/" = true ->
  potential_targets cfg href cur1 = potential_targets cfg href cur2.
Proof.
  intros H. unfold potential_targets. cbv zeta.
  now rewrite (clean_href_root_relative href H).
Qed.

Lemma split0_app_absent (c : ascii) (h r : string) :
  Py.contains (String c "") h = false ->
  Py.split0 c (h +:+ r) = h +:+ Py.split0 c r.
Proof.
  induction h as [|d h IH]; intros H; [reflexivity|].
  rewrite contains_char_cons in H. apply orb_false_iff in H. destruct H as [H1 H2].
  rewrite !append_cons, split0_cons, Ascii.eqb_sym, H1. now rewrite IH.
Qed.

Lemma append_empty_r (a : string) : a +:+ "" = a.
Proof.
  induction a as [|x a IH]; [reflexivity|]. rewrite append_cons. now rewrite IH.
Qed.

Lemma split0_at_sep (c : ascii) (r : string) : Py.split0 c (String c r) = "".
Proof. now rewrite split0_cons, Ascii.eqb_refl. Qed.

Lemma clean_href_with_query (h q : string) :
  Py.contains "?" h = false -> Py.contains "#" h = false ->
  clean_href (h +:+ "?" +:+ q) = h.
Proof.
  intros Hq Hf. unfold clean_href.
  rewrite (split0_app_absent "?" h _ Hq).
  change ("?" +:+ q) with (String "?" q).
  rewrite split0_at_sep, append_empty_r. now apply split0_id.
Qed.

Lemma clean_href_with_fragment (h f : string) :
  Py.contains "?" h = false -> Py.contains "#" h = false ->
  clean_href (h +:+ "#" +:+ f) = h.
Proof.
  intros Hq Hf. unfold clean_href.
  rewrite (split0_app_absent "?" h _ Hq).
  change ("#" +:+ f) with (String "#" f). rewrite split0_cons.
  change (Ascii.eqb "#" "?") with false. cbv iota.
  rewrite (split0_app_absent "#" h _ Hf), split0_at_sep. apply append_empty_r.
Qed.

Lemma targets_by_clean_href (h1 h2 cur : string) :
  clean_href h1 = clean_href h2 ->
  potential_targets cfg h1 cur = potential_targets cfg h2 cur.
Proof. intros H. unfold potential_targets. now rewrite H. Qed.

End Independence.

(** X3.  A root-relative reference resolves to the same target from every
    page, and so does every internal-absolute link, whose origin-stripped
    part always starts with a slash: only references that do not start
    with [/] depend on the directory of the page that holds them. *)
Theorem root_relative_resolution_ignores_page
    (cfg : Config) (isfile : string -> bool) (href cur1 cur2 : string) :
  Py.startswith href "/" = true ->
  potential_targets cfg href cur1 = potential_targets cfg href cur2
  /\ resolve cfg isfile href cur1 = resolve cfg isfile href cur2
  /\ (forall url,
        Py.startswith (local_part_of cfg url) "/" = true
        /\ resolve cfg isfile (local_part_of cfg url) cur1
           = resolve cfg isfile (local_part_of cfg url) cur2).
Proof.
  intros H.
  assert (G : forall h, Py.startswith h "/" = true ->
              resolve cfg isfile h cur1 = resolve cfg isfile h cur2).
  { intros h Hh. unfold resolve. now rewrite (root_relative_targets cfg h cur1 cur2 Hh). }
  split; [now apply root_relative_targets|]. split; [now apply G|].
  intros url. split; [apply local_part_root_relative|].
  apply G, local_part_root_relative.
Qed.

Lemma root_relative_resolution_ignores_page_witness :
  resolve two_forms_cfg two_forms_disk "/post" "index.html"
  = resolve two_forms_cfg two_forms_disk "/post" "blog/2024/entry.html".
Proof.
  apply (root_relative_resolution_ignores_page two_forms_cfg two_forms_disk "/post"
           "index.html" "blog/2024/entry.html").
  reflexivity.
Defined.

(** X4.  A query string and a fragment never change the target: a
    reference without [?] and [#] and the same reference followed by
    [?query], by [#fragment] or by both have the same candidates and the
    same resolution. *)
Theorem query_and_fragment_ignored
    (cfg : Config) (isfile : string -> bool) (h q f cur : string) :
  Py.contains "?" h = false ->
  Py.contains "#" h = false ->
  potential_targets cfg (h +:+ "?" +:+ q) cur = potential_targets cfg h cur
  /\ potential_targets cfg (h +:+ "#" +:+ f) cur = potential_targets cfg h cur
  /\ resolve cfg isfile (h +:+ "?" +:+ q) cur = resolve cfg isfile h cur
  /\ resolve cfg isfile (h +:+ "#" +:+ f) cur = resolve cfg isfile h cur.
Proof.
  intros Hq Hf.
  assert (Eh : clean_href h = h).
  { unfold clean_href. rewrite (split0_id "?" h Hq). now apply split0_id. }
  assert (E1 : potential_targets cfg (h +:+ "?" +:+ q) cur = potential_targets cfg h cur).
  { apply targets_by_clean_href. now rewrite clean_href_with_query, Eh. }
  assert (E2 : potential_targets cfg (h +:+ "#" +:+ f) cur = potential_targets cfg h cur).
  { apply targets_by_clean_href. now rewrite clean_href_with_fragment, Eh. }
  unfold resolve. rewrite E1, E2. repeat split.
Qed.

Lemma query_and_fragment_ignored_witness :
  resolve two_forms_cfg two_forms_disk ("/post" +:+ "?" +:+ "utm=mail#top") "index.html"
  = resolve two_forms_cfg two_forms_disk "/post" "index.html".
Proof.
  apply (query_and_fragment_ignored two_forms_cfg two_forms_disk "/post"
           "utm=mail#top" "" "index.html"); reflexivity.
Defined.

(** ** What the page loop keeps *)

Section Frames.

Variable cfg : Config.
Variable isfile : string -> bool.

Lemma frame_refl (a : Auditor) : frame a a.
Proof. split; [|split]; reflexivity. Qed.

Lemma frame_trans (a b c : Auditor) : frame a b -> frame b c -> frame a c.
Proof.
  intros (P1 & N1 & I1) (P2 & N2 & I2). repeat split; [congruence|congruence|].
  now transitivity (issues b).
Qed.

Lemma frame_log_issue (lvl : Level) (msg : string) (pen : Z) (a : Auditor) :
  frame a (log_issue lvl msg pen a).
Proof. repeat split. cbn [log_issue issues]. now apply prefix_app_r. Qed.

Lemma frame_same (a a' : Auditor) :
  processed_files a' = processed_files a -> pages_audited a' = pages_audited a ->
  issues a' = issues a -> frame a a'.
Proof. intros P N I. split; [exact P|]. split; [exact N|]. now rewrite I. Qed.

Lemma frame_verify_local_link (href cur : string) (flag : bool) (a : Auditor) :
  frame a (outcome_state (verify_local_link cfg isfile href cur flag a)).
Proof.
  unfold verify_local_link. destruct (resolve cfg isfile href cur) as [[t|]|];
    cbn [outcome_state]; [now apply frame_same|apply frame_refl|apply frame_log_issue].
Qed.

Lemma frame_check_link (cur : string) (anchor : Anchor) (a : Auditor) :
  frame a (outcome_state (check_link cfg isfile cur anchor a)).
Proof.
  rewrite check_link_by_category. cbv zeta.
  destruct (classify cfg (Py.strip (a_href anchor))).
  - apply frame_refl.
  - destruct (_ && _); cbn [outcome_state]; [|now apply frame_same].
    eapply frame_trans; [|apply frame_log_issue]. now apply frame_same.
  - eapply frame_trans; [apply frame_log_issue|apply frame_verify_local_link].
  - destruct (missing_rels (a_rel anchor)); cbn [outcome_state]; [now apply frame_same|].
    eapply frame_trans; [|apply frame_log_issue]. now apply frame_same.
  - eapply frame_trans; [|apply frame_verify_local_link].
    destruct (Py.endswith _ ".html"), (negb _);
      repeat (eapply frame_trans; [|apply frame_log_issue]); apply frame_refl.
Qed.

Lemma frame_check_links (cur : string) (anchors : list Anchor) (a : Auditor) :
  frame a (outcome_state (check_links cfg isfile cur anchors a)).
Proof.
  revert a. induction anchors as [|an rest IH]; intros a; [apply frame_refl|].
  cbn [check_links]. pose proof (frame_check_link cur an a) as H.
  destruct (check_link cfg isfile cur an a) as [a1|e a1]; cbn [and_then outcome_state] in *.
  - eapply frame_trans; [exact H|apply IH].
  - exact H.
Qed.

Lemma frame_check_semantics (file_path : string) (page : Page) (a : Auditor) :
  frame a (check_semantics file_path page a).
Proof.
  unfold check_semantics.
  destruct (schemas page =? 0)%nat; destruct (h1s page) as [|[|n]];
    repeat (eapply frame_trans; [|apply frame_log_issue]); apply frame_refl.
Qed.

(** [audit_file] counts the page and otherwise keeps the frame. *)
Lemma audit_file_frame (content : string + Page) (rel_path : string) (a : Auditor) :
  processed_files (audit_file cfg isfile content rel_path a) = processed_files a
  /\ pages_audited (audit_file cfg isfile content rel_path a) = S (pages_audited a)
  /\ issues a `prefix_of` issues (audit_file cfg isfile content rel_path a).
Proof.
  assert (G : forall a', frame (count_page a) a' ->
              processed_files a' = processed_files a
              /\ pages_audited a' = S (pages_audited a)
              /\ issues a `prefix_of` issues a').
  { intros a' (P & N & I). repeat split; assumption. }
  apply G. unfold audit_file. destruct content as [e|page].
  - apply frame_log_issue.
  - pose proof (frame_check_links rel_path (anchors page) (count_page a)) as H.
    destruct (check_links cfg isfile rel_path (anchors page) (count_page a)) as [a2|[e] a2];
      cbn [outcome_state] in H.
    + eapply frame_trans; [exact H|apply frame_check_semantics].
    + eapply frame_trans; [exact H|apply frame_log_issue].
Qed.

Lemma traverse_issues_prefix (walk : list WalkEntry) (a : Auditor) :
  issues a `prefix_of` issues (outcome_state (traverse cfg isfile walk a)).
Proof.
  revert a. induction walk as [|w rest IH]; intros a; [reflexivity|].
  cbn [traverse]. destruct (negb _); [apply IH|].
  destruct (should_ignore_file cfg (w_file w)); [apply IH|].
  destruct (posixpath.relpath _ _ _) as [rel|]; [|reflexivity].
  etransitivity; [|apply IH].
  apply (audit_file_frame (w_content w) rel (add_processed rel a)).
Qed.

Lemma equity_loop_issues_prefix (files : list string) (a : Auditor) :
  issues a `prefix_of` issues (equity_loop cfg files a).
Proof. rewrite equity_loop_issues. now apply prefix_app_r. Qed.

Lemma fold_result_issues_prefix (url : string) (v : Verdict) (a : Auditor) :
  issues a `prefix_of` issues (fold_result url v a).
Proof.
  unfold fold_result. destruct v as [code error|e].
  - destruct (is_http_error code); [apply frame_log_issue|].
    destruct error as [e|]; [|reflexivity].
    destruct (Py.truthy e); [apply frame_log_issue|reflexivity].
  - apply frame_log_issue.
Qed.

Lemma drain_issues_prefix (net : Network) (urls : list string) (a : Auditor) :
  issues a `prefix_of` issues (fst (drain net urls a)).
Proof.
  revert a. induction urls as [|u rest IH]; intros a; [reflexivity|].
  cbn [drain]. destruct (verify_url net u) as [v sent].
  specialize (IH (fold_result u v a)).
  destruct (drain net rest (fold_result u v a)) as [a' sent']. cbn [fst] in *.
  etransitivity; [apply fold_result_issues_prefix|exact IH].
Qed.

Lemma total_penalty_prefix (l l' : list Issue) :
  l `prefix_of` l' -> Forall (fun i => (0 <= penalty i)%Z) l' ->
  (total_penalty l <= total_penalty l')%Z.
Proof.
  intros [k ->] H. rewrite total_penalty_app. apply Forall_app in H.
  destruct H as [_ Hk]. pose proof (total_penalty_nonneg k Hk). lia.
Qed.

Lemma score_le_of_prefix (a a' : Auditor) :
  ledger_ok a -> ledger_ok a' -> issues a `prefix_of` issues a' ->
  (score a' <= score a)%Z.
Proof.
  intros [_ Hs] [Hall' Hs'] Hp.
  pose proof (total_penalty_prefix _ _ Hp Hall'). lia.
Qed.

End Frames.

(** X5.  The issue list is append-only and the score never rises: each
    phase of a run ([traverse], [analyze_link_equity],
    [check_external_links]), started in a state whose ledger is
    consistent, ends in a state whose issues extend the earlier ones and
    whose score is no higher, also when [traverse] stops on an exception. *)
Theorem issues_append_only_score_falls
    (cfg : Config) (isfile : string -> bool) (net : Network)
    (walk : list WalkEntry) (file_order completion : SetOrder) (a : Auditor) :
  ledger_ok a ->
  let a1 := outcome_state (traverse cfg isfile walk a) in
  let a2 := analyze_link_equity cfg file_order a1 in
  let a3 := fst (check_external_links net completion a2) in
  (issues a `prefix_of` issues a1 /\ (score a1 <= score a)%Z)
  /\ (issues a1 `prefix_of` issues a2 /\ (score a2 <= score a1)%Z)
  /\ (issues a2 `prefix_of` issues a3 /\ (score a3 <= score a2)%Z)
  /\ (0 <= score a3 <= score a)%Z.
Proof.
  intros Hok a1 a2 a3.
  assert (H1 : ledger_ok a1) by now apply traverse_ledger_ok.
  assert (H2 : ledger_ok a2) by now apply equity_loop_ledger_ok.
  assert (H3 : ledger_ok a3) by now apply check_external_links_ledger_ok.
  assert (P1 : issues a `prefix_of` issues a1) by apply traverse_issues_prefix.
  assert (P2 : issues a1 `prefix_of` issues a2) by apply equity_loop_issues_prefix.
  assert (P3 : issues a2 `prefix_of` issues a3).
  { subst a3. unfold check_external_links.
    destruct (bool_decide _); [reflexivity|apply drain_issues_prefix]. }
  pose proof (score_le_of_prefix a a1 Hok H1 P1).
  pose proof (score_le_of_prefix a1 a2 H1 H2 P2).
  pose proof (score_le_of_prefix a2 a3 H2 H3 P3).
  destruct H3 as [_ Hs3]. repeat split; try assumption; lia.
Qed.

Lemma issues_append_only_score_falls_witness :
  (score (analyze_link_equity two_forms_cfg elements
            (outcome_state (traverse two_forms_cfg two_forms_disk [] home_only)))
   <= score (outcome_state (traverse two_forms_cfg two_forms_disk [] home_only)))%Z.
Proof.
  destruct (issues_append_only_score_falls two_forms_cfg two_forms_disk head_404 []
              elements elements home_only) as [_ [[_ H] _]].
  - split; [constructor|reflexivity].
  - exact H.
Defined.

(** ** Invariants of the link graph and of the external set *)

Section Invariants.

Variable cfg : Config.
Variable isfile : string -> bool.

Lemma only_logs_refl (a : Auditor) : only_logs a a.
Proof. repeat split. Qed.

Lemma only_logs_trans (a b c : Auditor) : only_logs a b -> only_logs b c -> only_logs a c.
Proof.
  intros (A1 & A2 & A3 & A4 & A5 & A6) (B1 & B2 & B3 & B4 & B5 & B6).
  repeat split; congruence.
Qed.

Lemma only_logs_log_issue (lvl : Level) (msg : string) (pen : Z) (a : Auditor) :
  only_logs a (log_issue lvl msg pen a).
Proof. repeat split. Qed.

Lemma only_logs_equity_loop (files : list string) (a : Auditor) :
  only_logs a (equity_loop cfg files a).
Proof.
  revert a. induction files as [|f rest IH]; intros a; [apply only_logs_refl|].
  change (equity_loop cfg (f :: rest) a) with (equity_loop cfg rest (equity_step cfg a f)).
  eapply only_logs_trans; [|apply IH]. unfold equity_step.
  destruct (should_ignore_file cfg f); [apply only_logs_refl|].
  destruct (inbound_count a f =? 0)%nat; [apply only_logs_log_issue|apply only_logs_refl].
Qed.

Lemma only_logs_fold_result (url : string) (v : Verdict) (a : Auditor) :
  only_logs a (fold_result url v a).
Proof.
  unfold fold_result. destruct v as [code error|e]; [|apply only_logs_log_issue].
  destruct (is_http_error code); [apply only_logs_log_issue|].
  destruct error as [e|]; [|apply only_logs_refl].
  destruct (Py.truthy e); [apply only_logs_log_issue|apply only_logs_refl].
Qed.

Lemma only_logs_drain (net : Network) (urls : list string) (a : Auditor) :
  only_logs a (fst (drain net urls a)).
Proof.
  revert a. induction urls as [|u rest IH]; intros a; [apply only_logs_refl|].
  cbn [drain]. destruct (verify_url net u) as [v sent].
  specialize (IH (fold_result u v a)).
  destruct (drain net rest (fold_result u v a)) as [a' sent']. cbn [fst] in *.
  eapply only_logs_trans; [apply only_logs_fold_result|exact IH].
Qed.

Lemma only_logs_check_external_links (net : Network) (completion : SetOrder)
    (a : Auditor) :
  only_logs a (fst (check_external_links net completion a)).
Proof.
  unfold check_external_links.
  destruct (bool_decide _); [apply only_logs_refl|apply only_logs_drain].
Qed.

(** *** The link graph *)

Lemma graph_ok_kept (a a' : Auditor) :
  internal_links_map a' = internal_links_map a ->
  processed_files a ⊆ processed_files a' ->
  graph_ok a -> graph_ok a'.
Proof.
  intros Hm Hp Ha target sources H. rewrite Hm in H.
  destruct (Ha target sources H) as [Hne Hs]. split; [exact Hne|].
  intros s Hin. apply Hp. now apply Hs.
Qed.

Lemma graph_ok_only_logs (a a' : Auditor) : only_logs a a' -> graph_ok a -> graph_ok a'.
Proof.
  intros (Hm & _ & _ & _ & _ & Hp). apply graph_ok_kept; [exact Hm|]. now rewrite Hp.
Qed.

Lemma graph_ok_record_link (target cur : string) (a : Auditor) :
  cur ∈ processed_files a -> graph_ok a -> graph_ok (record_link target cur a).
Proof.
  intros Hcur Ha t sources H. cbn [record_link internal_links_map processed_files] in *.
  destruct (decide (target = t)) as [->|Hne].
  - rewrite lookup_insert_eq in H. injection H as <-. split.
    + intros E. apply app_eq_nil in E. destruct E as [_ E]. discriminate.
    + intros s Hin. apply elem_of_app in Hin. destruct Hin as [Hin|Hin].
      * destruct (internal_links_map a !! t) as [l|] eqn:El; cbn [default] in Hin.
        -- now apply (Ha t l El).
        -- now apply elem_of_nil in Hin.
      * apply list_elem_of_singleton in Hin. now subst s.
  - rewrite lookup_insert_ne in H by exact Hne. exact (Ha t sources H).
Qed.

Lemma graph_ok_verify_local_link (href cur : string) (flag : bool) (a : Auditor) :
  cur ∈ processed_files a -> graph_ok a ->
  graph_ok (outcome_state (verify_local_link cfg isfile href cur flag a)).
Proof.
  intros Hcur Ha. unfold verify_local_link.
  destruct (resolve cfg isfile href cur) as [[t|]|]; cbn [outcome_state].
  - now apply graph_ok_record_link.
  - exact Ha.
  - now apply (graph_ok_kept a).
Qed.

Lemma graph_ok_check_link (cur : string) (anchor : Anchor) (a : Auditor) :
  cur ∈ processed_files a -> graph_ok a ->
  graph_ok (outcome_state (check_link cfg isfile cur anchor a)).
Proof.
  intros Hcur Ha. rewrite check_link_by_category. cbv zeta.
  destruct (classify cfg (Py.strip (a_href anchor))).
  - exact Ha.
  - destruct (_ && _); cbn [outcome_state]; now apply (graph_ok_kept a).
  - apply graph_ok_verify_local_link; [exact Hcur|now apply (graph_ok_kept a)].
  - destruct (missing_rels (a_rel anchor)); cbn [outcome_state];
      now apply (graph_ok_kept a).
  - apply graph_ok_verify_local_link.
    + now destruct (Py.endswith _ ".html"), (negb _).
    + destruct (Py.endswith _ ".html"), (negb _); now apply (graph_ok_kept a).
Qed.

Lemma graph_ok_check_links (cur : string) (anchors : list Anchor) (a : Auditor) :
  cur ∈ processed_files a -> graph_ok a ->
  graph_ok (outcome_state (check_links cfg isfile cur anchors a)).
Proof.
  revert a. induction anchors as [|an rest IH]; intros a Hcur Ha; [exact Ha|].
  cbn [check_links]. pose proof (graph_ok_check_link cur an a Hcur Ha) as H.
  pose proof (frame_check_link cfg isfile cur an a) as (Hp & _ & _).
  destruct (check_link cfg isfile cur an a) as [a1|e a1]; cbn [and_then outcome_state] in *.
  - apply IH; [now rewrite Hp|exact H].
  - exact H.
Qed.

Lemma graph_ok_audit_file (content : string + Page) (rel_path : string) (a : Auditor) :
  rel_path ∈ processed_files a -> graph_ok a ->
  graph_ok (audit_file cfg isfile content rel_path a).
Proof.
  intros Hin Ha.
  assert (H1 : graph_ok (count_page a)) by now apply (graph_ok_kept a).
  unfold audit_file. destruct content as [e|page].
  - now apply (graph_ok_kept (count_page a)).
  - pose proof (graph_ok_check_links rel_path (anchors page) (count_page a) Hin H1) as H.
    destruct (check_links cfg isfile rel_path (anchors page) (count_page a)) as [a2|[e] a2];
      cbn [outcome_state] in H.
    + pose proof (frame_check_semantics rel_path page a2) as (Hp & _ & _).
      apply (graph_ok_kept a2); [|now rewrite Hp|exact H].
      unfold check_semantics.
      now destruct (schemas page =? 0)%nat; destruct (h1s page) as [|[|n]].
    + now apply (graph_ok_kept a2).
Qed.

Lemma graph_ok_traverse (walk : list WalkEntry) (a : Auditor) :
  graph_ok a -> graph_ok (outcome_state (traverse cfg isfile walk a)).
Proof.
  revert a. induction walk as [|w rest IH]; intros a Ha; [exact Ha|].
  cbn [traverse]. destruct (negb _); [now apply IH|].
  destruct (should_ignore_file cfg (w_file w)); [now apply IH|].
  destruct (posixpath.relpath _ _ _) as [rel|]; [|exact Ha].
  apply IH, graph_ok_audit_file.
  - cbn [add_processed processed_files]. set_solver.
  - apply (graph_ok_kept a); [reflexivity| |exact Ha].
    cbn [add_processed processed_files]. set_solver.
Qed.

Lemma graph_ok_init : graph_ok Auditor_init.
Proof. intros t l H. cbn [Auditor_init internal_links_map] in H. now rewrite lookup_empty in H. Qed.

End Invariants.

(** X6.  The link graph holds only what was resolved: in every state a
    run reaches from the initial one, each key of [internal_links_map]
    has a non-empty source list and each source is a page of
    [processed_files]; in particular a key with no source (an orphan
    entered by mistake) cannot occur, and the inbound count of a key is
    at least 1. *)
Theorem link_graph_sources_are_processed_pages
    (cfg : Config) (isfile : string -> bool) (net : Network)
    (walk : list WalkEntry) (file_order completion : SetOrder) :
  let final := outcome_state (fst (run cfg isfile net walk file_order completion)) in
  graph_ok final
  /\ (forall target sources,
        internal_links_map final !! target = Some sources ->
        (1 <= inbound_count final target)%nat /\ is_orphan cfg final target = false).
Proof.
  cbv zeta.
  assert (G : graph_ok (outcome_state (fst (run cfg isfile net walk file_order completion)))).
  { unfold run.
    pose proof (graph_ok_traverse cfg isfile walk Auditor_init graph_ok_init) as H.
    destruct (traverse cfg isfile walk Auditor_init) as [a1|e a1]; cbn [outcome_state] in H.
    - pose proof (only_logs_check_external_links net completion
                    (analyze_link_equity cfg file_order a1)) as H3.
      destruct (check_external_links net completion _) as [a3 sent].
      cbn [fst outcome_state] in *.
      eapply graph_ok_only_logs; [exact H3|].
      eapply graph_ok_only_logs; [apply only_logs_equity_loop|exact H].
    - exact H. }
  split; [exact G|]. intros target sources H.
  destruct (G target sources H) as [Hne _].
  assert (Hc : (1 <= inbound_count
                       (outcome_state (fst (run cfg isfile net walk file_order completion)))
                       target)%nat).
  { unfold inbound_count. rewrite H. cbn [default]. destruct sources; [congruence|cbn; lia]. }
  split; [exact Hc|]. unfold is_orphan.
  destruct (inbound_count _ target); [lia|]. now rewrite andb_false_r.
Qed.

(** *** The external set *)

Section ExternalSet.

Variable cfg : Config.
Variable isfile : string -> bool.

Lemma classify_external_inv (href : string) :
  classify cfg href = External ->
  is_http href = true
  /\ should_ignore_url cfg href = false
  /\ Py.truthy (base_url cfg) && Py.startswith href (base_url cfg) = false.
Proof.
  unfold classify, is_http.
  destruct (should_ignore_url cfg href); [discriminate|].
  destruct (Py.startswith href "/go/"); [discriminate|].
  destruct (Py.startswith href "http://" || Py.startswith href "https://"); [|discriminate].
  destruct (Py.truthy (base_url cfg) && Py.startswith href (base_url cfg));
    [discriminate|]. now intros _.
Qed.

Lemma external_ok_kept (a a' : Auditor) :
  external_links a' = external_links a ->
  external_link_sources a' = external_link_sources a ->
  external_ok cfg a -> external_ok cfg a'.
Proof. intros E1 E2 H url. rewrite E1, E2. apply H. Qed.

Lemma external_ok_only_logs (a a' : Auditor) :
  only_logs a a' -> external_ok cfg a -> external_ok cfg a'.
Proof. intros (_ & E1 & _ & E2 & _). now apply external_ok_kept. Qed.

Lemma external_ok_record_external (href cur : string) (a : Auditor) :
  classify cfg href = External -> external_ok cfg a ->
  external_ok cfg (record_external href cur a).
Proof.
  intros Hc Ha url. cbn [record_external external_links external_link_sources].
  destruct (decide (href = url)) as [->|Hne].
  - rewrite lookup_insert_eq. split.
    + split; [intros _; eauto|intros _; apply elem_of_union_l, elem_of_singleton_2; reflexivity].
    + intros _. now apply classify_external_inv.
  - rewrite lookup_insert_ne by exact Hne. destruct (Ha url) as [Hd Hp].
    assert (Hu : url ∈ {[href]} ∪ external_links a <-> url ∈ external_links a).
    { rewrite elem_of_union, elem_of_singleton. split; [intros [E|E]|intros E];
        [congruence|exact E|now right]. }
    split.
    + now rewrite Hu.
    + intros Hin. apply Hp. now apply Hu.
Qed.

Lemma external_ok_verify_local_link (href cur : string) (flag : bool) (a : Auditor) :
  external_ok cfg a ->
  external_ok cfg (outcome_state (verify_local_link cfg isfile href cur flag a)).
Proof.
  intros Ha. unfold verify_local_link.
  destruct (resolve cfg isfile href cur) as [[t|]|]; cbn [outcome_state];
    [now apply (external_ok_kept a)|exact Ha|now apply (external_ok_kept a)].
Qed.

Lemma external_ok_check_link (cur : string) (anchor : Anchor) (a : Auditor) :
  external_ok cfg a ->
  external_ok cfg (outcome_state (check_link cfg isfile cur anchor a)).
Proof.
  intros Ha. rewrite check_link_by_category. cbv zeta.
  destruct (classify cfg (Py.strip (a_href anchor))) eqn:Hc.
  - exact Ha.
  - destruct (_ && _); cbn [outcome_state]; now apply (external_ok_kept a).
  - apply external_ok_verify_local_link. now apply (external_ok_kept a).
  - pose proof (external_ok_record_external _ cur a Hc Ha) as H1.
    destruct (missing_rels (a_rel anchor)); cbn [outcome_state]; [exact H1|].
    now apply (external_ok_kept (record_external (Py.strip (a_href anchor)) cur a)).
  - apply external_ok_verify_local_link.
    destruct (Py.endswith _ ".html"), (negb _); now apply (external_ok_kept a).
Qed.

Lemma external_ok_check_links (cur : string) (anchors : list Anchor) (a : Auditor) :
  external_ok cfg a ->
  external_ok cfg (outcome_state (check_links cfg isfile cur anchors a)).
Proof.
  revert a. induction anchors as [|an rest IH]; intros a Ha; [exact Ha|].
  cbn [check_links]. pose proof (external_ok_check_link cur an a Ha) as H.
  destruct (check_link cfg isfile cur an a) as [a1|e a1]; cbn [and_then outcome_state] in *.
  - now apply IH.
  - exact H.
Qed.

Lemma external_ok_audit_file (content : string + Page) (rel_path : string) (a : Auditor) :
  external_ok cfg a -> external_ok cfg (audit_file cfg isfile content rel_path a).
Proof.
  intros Ha.
  assert (H1 : external_ok cfg (count_page a)) by now apply (external_ok_kept a).
  unfold audit_file. destruct content as [e|page].
  - now apply (external_ok_kept (count_page a)).
  - pose proof (external_ok_check_links rel_path (anchors page) (count_page a) H1) as H.
    destruct (check_links cfg isfile rel_path (anchors page) (count_page a)) as [a2|[e] a2];
      cbn [outcome_state] in H.
    + apply (external_ok_kept a2); [| |exact H]; unfold check_semantics;
        now destruct (schemas page =? 0)%nat; destruct (h1s page) as [|[|n]].
    + now apply (external_ok_kept a2).
Qed.

Lemma external_ok_traverse (walk : list WalkEntry) (a : Auditor) :
  external_ok cfg a -> external_ok cfg (outcome_state (traverse cfg isfile walk a)).
Proof.
  revert a. induction walk as [|w rest IH]; intros a Ha; [exact Ha|].
  cbn [traverse]. destruct (negb _); [now apply IH|].
  destruct (should_ignore_file cfg (w_file w)); [now apply IH|].
  destruct (posixpath.relpath _ _ _) as [rel|]; [|exact Ha].
  apply IH, external_ok_audit_file. now apply (external_ok_kept a).
Qed.

Lemma external_ok_init : external_ok cfg Auditor_init.
Proof.
  intros url. cbn [Auditor_init external_links external_link_sources].
  rewrite lookup_empty. split; [|set_solver].
  split; [set_solver|intros [x Hx]; discriminate].
Qed.

Lemma verify_url_requests_member (net : Network) (url : string) (r : Request) :
  r ∈ snd (verify_url net url) -> snd r = url.
Proof.
  destruct (verify_url_sent net url) as [-> | ->]; intros H.
  - apply list_elem_of_singleton in H. now subst r.
  - apply elem_of_cons in H. destruct H as [->|H]; [reflexivity|].
    apply list_elem_of_singleton in H. now subst r.
Qed.

Lemma drain_requests_member (net : Network) (urls : list string) (a : Auditor)
    (r : Request) :
  r ∈ snd (drain net urls a) -> snd r ∈ urls.
Proof.
  revert a. induction urls as [|u rest IH]; intros a; [cbn; now intros H%elem_of_nil|].
  cbn [drain]. pose proof (verify_url_requests_member net u r) as Hv.
  destruct (verify_url net u) as [v sent]. specialize (IH (fold_result u v a)).
  destruct (drain net rest (fold_result u v a)) as [a' sent']. cbn [snd] in *.
  intros H. apply elem_of_app in H. destruct H as [H|H].
  - rewrite (Hv H). now left.
  - right. now apply IH.
Qed.

End ExternalSet.

(** X7.  The auditor contacts only what it classified as external: the
    URLs to verify are exactly the keys of [external_link_sources], and
    every request of a run goes to an absolute http(s) URL that the
    ignore rules let through and that does not start with a non-empty
    site origin. *)
Theorem requests_only_to_external_links
    (cfg : Config) (isfile : string -> bool) (net : Network)
    (walk : list WalkEntry) (file_order completion : SetOrder) :
  walks_each_once completion ->
  external_ok cfg (outcome_state (fst (run cfg isfile net walk file_order completion)))
  /\ (forall r,
        r ∈ snd (run cfg isfile net walk file_order completion) ->
        is_http (snd r) = true
        /\ should_ignore_url cfg (snd r) = false
        /\ Py.truthy (base_url cfg) && Py.startswith (snd r) (base_url cfg) = false).
Proof.
  intros Hw. unfold run.
  pose proof (external_ok_traverse cfg isfile walk Auditor_init (external_ok_init cfg)) as H.
  destruct (traverse cfg isfile walk Auditor_init) as [a1|e a1]; cbn [outcome_state] in H.
  - set (a2 := analyze_link_equity cfg file_order a1).
    assert (H2 : external_ok cfg a2)
      by (eapply external_ok_only_logs; [apply only_logs_equity_loop|exact H]).
    pose proof (only_logs_check_external_links net completion a2) as H3.
    unfold check_external_links in *.
    destruct (bool_decide (external_links a2 = ∅)).
    + cbn [fst snd outcome_state]. split; [exact H2|]. now intros r Hr%elem_of_nil.
    + pose proof (drain_requests_member net (completion (external_links a2)) a2) as Hm.
      destruct (drain net (completion (external_links a2)) a2) as [a3 sent].
      cbn [fst snd outcome_state] in *. split.
      * eapply external_ok_only_logs; [exact H3|exact H2].
      * intros r Hr. apply Hm in Hr. rewrite (Hw (external_links a2)) in Hr.
        apply elem_of_elements in Hr. now apply (H2 (snd r)).
  - cbn [fst snd outcome_state]. split; [exact H|]. now intros r Hr%elem_of_nil.
Qed.

Lemma requests_only_to_external_links_witness :
  external_ok two_forms_cfg
    (outcome_state (fst (run two_forms_cfg two_forms_disk head_404 [] elements elements))).
Proof.
  apply (requests_only_to_external_links two_forms_cfg two_forms_disk head_404 []
           elements elements).
  intros s. reflexivity.
Defined.

(** ** One page at a time *)

(** X8.  [audit_file] counts every page exactly once, whether it could
    be read, whether its checks raised or not, and never touches
    [processed_files].  An unreadable page costs nothing: it adds one
    [ERROR] issue of penalty 0, leaves a score that is not negative as it
    was, and changes neither the link graph nor the external set. *)
Theorem audit_file_counts_once_unreadable_is_free
    (cfg : Config) (isfile : string -> bool) (content : string + Page)
    (rel_path e : string) (a : Auditor) :
  (0 <= score a)%Z ->
  pages_audited (audit_file cfg isfile content rel_path a) = S (pages_audited a)
  /\ processed_files (audit_file cfg isfile content rel_path a) = processed_files a
  /\ issues a `prefix_of` issues (audit_file cfg isfile content rel_path a)
  /\ (let a' := audit_file cfg isfile (inl e) rel_path a in
      issues a'
      = issues a ++ [{| level := ERROR;
                        message := read_failure_message rel_path e;
                        penalty := 0 |}]
      /\ score a' = score a
      /\ internal_links_map a' = internal_links_map a
      /\ external_links a' = external_links a).
Proof.
  intros Hs. destruct (audit_file_frame cfg isfile content rel_path a) as (P & N & I).
  split; [exact N|]. split; [exact P|]. split; [exact I|].
  cbv zeta. cbn [audit_file log_issue count_page issues score internal_links_map
                 external_links].
  repeat split. lia.
Qed.

Lemma audit_file_counts_once_unreadable_is_free_witness :
  pages_audited (audit_file two_forms_cfg two_forms_disk (inl "Permission denied")
                   "index.html" home_only) = 1%nat
  /\ score (audit_file two_forms_cfg two_forms_disk (inl "Permission denied")
              "index.html" home_only) = 100%Z.
Proof.
  destruct (audit_file_counts_once_unreadable_is_free two_forms_cfg two_forms_disk
              (inl "Permission denied") "index.html" "Permission denied" home_only)
    as [N [_ [_ [_ [S _]]]]].
  - cbn. lia.
  - split; [exact N|exact S].
Defined.

Section Semantics.

Lemma log_issue_longer (lvl : Level) (msg : string) (pen : Z) (a : Auditor) :
  length (issues (log_issue lvl msg pen a)) = S (length (issues a)).
Proof. cbn [log_issue issues]. rewrite length_app. cbn. lia. Qed.

Lemma check_semantics_count (file_path : string) (page : Page) (a : Auditor) :
  length (issues (check_semantics file_path page a))
  = (length (issues a)
     + (if (h1s page =? 1)%nat then 0 else 1)
     + (if (schemas page =? 0)%nat then 1 else 0))%nat.
Proof.
  unfold check_semantics.
  destruct (schemas page =? 0)%nat; destruct (h1s page) as [|[|n]];
    cbn [Nat.eqb]; rewrite ?log_issue_longer; lia.
Qed.

End Semantics.

(** X9.  [check_semantics] appends, in this order, one [ERROR] of
    penalty 5 when the number of [h1] tags is not 1 ("Missing H1 tag."
    for none, "Multiple H1 tags found (n)." for [n] of them) and one
    [WARN] of penalty 2 when there is no JSON-LD block, and nothing else:
    it leaves the state untouched exactly for a page with one [h1] and at
    least one JSON-LD block, and it never changes the link graph. *)
Theorem check_semantics_clean_page
    (file_path : string) (page : Page) (a : Auditor) :
  issues (check_semantics file_path page a)
  = issues a
    ++ match h1s page with
       | 0%nat => [{| level := ERROR;
                      message := "In " +:+ file_path +:+ ": Missing H1 tag.";
                      penalty := 5 |}]
       | 1%nat => []
       | n => [{| level := ERROR;
                  message := "In " +:+ file_path +:+ ": Multiple H1 tags found ("
                             +:+ nat_to_string n +:+ ").";
                  penalty := 5 |}]
       end
    ++ (if (schemas page =? 0)%nat
        then [{| level := WARN;
                 message := "In " +:+ file_path +:+ ": No Schema.org JSON-LD found.";
                 penalty := 2 |}]
        else [])
  /\ (check_semantics file_path page a = a
      <-> h1s page = 1%nat /\ schemas page <> 0%nat)
  /\ internal_links_map (check_semantics file_path page a) = internal_links_map a
  /\ external_links (check_semantics file_path page a) = external_links a.
Proof.
  split; [|split; [|split]].
  - unfold check_semantics.
    destruct (schemas page =? 0)%nat; destruct (h1s page) as [|[|n]];
      cbn [log_issue issues]; rewrite <- ?app_assoc, ?app_nil_r; reflexivity.
  - split.
    + intros E. pose proof (check_semantics_count file_path page a) as H.
      rewrite E in H.
      destruct (Nat.eqb_spec (h1s page) 1), (Nat.eqb_spec (schemas page) 0);
        split; solve [assumption | lia].
    + intros [H1 H2]. unfold check_semantics. rewrite H1.
      destruct (Nat.eqb_spec (schemas page) 0); [congruence|reflexivity].
  - unfold check_semantics.
    now destruct (schemas page =? 0)%nat; destruct (h1s page) as [|[|n]].
  - unfold check_semantics.
    now destruct (schemas page =? 0)%nat; destruct (h1s page) as [|[|n]].
Qed.

(** ** Ignored files *)

Section IgnoredFiles.

Lemma contains_prefix (p s : string) : Py.startswith s p = true -> Py.contains p s = true.
Proof. unfold Py.startswith. intros H. destruct s; cbn [Py.contains]; now rewrite H. Qed.

Lemma contains_skip (p x s : string) :
  Py.contains p s = true -> Py.contains p (x +:+ s) = true.
Proof.
  intros H. induction x as [|c x IH]; [exact H|].
  rewrite append_cons. cbn [Py.contains]. rewrite IH. apply orb_true_r.
Qed.

Lemma prefix_append (p s t : string) :
  String.prefix p s = true -> String.prefix p (s +:+ t) = true.
Proof.
  revert s. induction p as [|c p IH]; intros s H; [apply prefix_nil|].
  destruct s as [|d s]; [discriminate|].
  rewrite append_cons. rewrite prefix_cons in *.
  apply andb_true_iff in H. destruct H as [-> H]. now rewrite IH.
Qed.

Lemma contains_append (p s t : string) :
  Py.contains p s = true -> Py.contains p (s +:+ t) = true.
Proof.
  induction s as [|c s IH]; intros H.
  - cbn [Py.contains] in H. rewrite orb_false_r in H.
    destruct p; [|discriminate]. destruct t; reflexivity.
  - cbn [Py.contains] in H. apply orb_true_iff in H. rewrite append_cons.
    cbn [Py.contains]. destruct H as [H|H].
    + change (String c (s +:+ t)) with (String c s +:+ t).
      now rewrite (prefix_append _ _ t H).
    + rewrite (IH H). apply orb_true_r.
Qed.

Lemma endswith_append (a p : string) : Py.endswith (a +:+ p) p = true.
Proof.
  induction a as [|c a IH].
  - rewrite append_nil. destruct p; cbn [Py.endswith]; now rewrite String.eqb_refl.
  - rewrite append_cons. cbn [Py.endswith]. rewrite IH. apply orb_true_r.
Qed.


Lemma skip_hex_to_extension (h r : string) :
  all_hex h = true -> skip_hex (h +:+ ".html" +:+ r) = ".html" +:+ r.
Proof.
  induction h as [|c h IH]; intros H; [reflexivity|].
  cbn [all_hex] in H. apply andb_true_iff in H. destruct H as [Hc Hh].
  rewrite append_cons. cbn [skip_hex]. rewrite Hc. now apply IH.
Qed.

Lemma google_prefix (x : string) : Py.startswith ("google" +:+ x) "google" = true.
Proof. unfold Py.startswith. now rewrite !append_cons, !prefix_cons, prefix_nil. Qed.

Lemma match_needs_google (f : string) :
  match_google_verification f = true -> Py.contains "google" f = true.
Proof.
  unfold match_google_verification. intros H. apply andb_true_iff in H.
  destruct H as [H _]. now apply contains_prefix.
Qed.

End IgnoredFiles.

(** X10.  Which files are left out of the audit.  With the default
    configuration a file name is ignored exactly when it contains
    [404.html], or ends in [.html] and starts with [google], one or more
    characters of [0-9a-f] and [.html].  Every ownership file
    [google<hex>.html] is ignored, under any configuration, while a name
    such as [google-account-creation-guide.html] is kept. *)
Theorem verification_files_ignored_posts_kept
    (base root : string) (table : gmap string string) (h rest : string) :
  h <> "" ->
  all_hex h = true ->
  let cfg := Config_init base root table in
  (forall cfg', should_ignore_file cfg' ("google" +:+ h +:+ ".html") = true)
  /\ (forall f,
        should_ignore_file cfg f
        = Py.contains "404.html" f
          || (Py.endswith f ".html" && match_google_verification f))
  /\ (Py.contains "404.html" ("google-" +:+ rest) = false ->
      should_ignore_file cfg ("google-" +:+ rest) = false).
Proof.
  intros Hne Hh cfg. split; [|split].
  - intros cfg'. unfold should_ignore_file.
    assert (Hm : match_google_verification ("google" +:+ h +:+ ".html") = true).
    { unfold match_google_verification. rewrite google_prefix. cbn [andb].
      change (drop_chars 6 ("google" +:+ h +:+ ".html")) with (h +:+ ".html").
      destruct h as [|c h']; [congruence|]. rewrite append_cons.
      cbn [all_hex] in Hh. apply andb_true_iff in Hh. destruct Hh as [Hc Hh'].
      rewrite Hc. cbn [andb].
      change (String c (h' +:+ ".html")) with (String c h' +:+ ".html" +:+ "").
      rewrite skip_hex_to_extension; [reflexivity|].
      cbn [all_hex]. now rewrite Hc, Hh'. }
    rewrite Hm, (contains_prefix _ _ (google_prefix _)).
    replace ("google" +:+ h +:+ ".html") with (("google" +:+ h) +:+ ".html")
      by apply append_assoc.
    now rewrite endswith_append.
  - intros f. unfold should_ignore_file.
    cbn [cfg Config_init ignore_files existsb]. rewrite orb_false_r.
    destruct (match_google_verification f) eqn:Hm.
    + rewrite (match_needs_google f Hm). cbn [andb]. rewrite andb_true_r.
      destruct (Py.endswith f ".html"); [now rewrite orb_true_r|now rewrite orb_false_r].
    + rewrite !andb_false_r. now rewrite orb_false_r.
  - intros H404. unfold should_ignore_file.
    assert (Hm : match_google_verification ("google-" +:+ rest) = false).
    { unfold match_google_verification.
      change (drop_chars 6 ("google-" +:+ rest)) with (String "-" rest).
      change (is_hex_lower "-") with false. now rewrite andb_false_r. }
    rewrite Hm, andb_false_r. cbn [cfg Config_init ignore_files existsb].
    now rewrite H404.
Qed.

Lemma verification_files_ignored_posts_kept_witness :
  should_ignore_file two_forms_cfg "google1a2b3c4d5e6f7081.html" = true
  /\ should_ignore_file two_forms_cfg "google-account-creation-guide.html" = false.
Proof.
  destruct (verification_files_ignored_posts_kept "https://example.com/" "/srv/site" ∅
              "1a2b3c4d5e6f7081" "account-creation-guide.html")
    as [H1 [_ H3]]; [discriminate|reflexivity|].
  split; [apply (H1 two_forms_cfg)|apply H3; reflexivity].
Defined.

(** ** The walk *)

Section Walk.

Variable cfg : Config.
Variable isfile : string -> bool.





End Walk.


(** ** Skipped references *)

Section Skipped.

Lemma lstrip_ws_all_space (s : string) : all_space s = true -> Py.lstrip_ws s = "".
Proof.
  induction s as [|c s IH]; [reflexivity|].
  cbn [all_space Py.lstrip_ws]. intros H. apply andb_true_iff in H.
  destruct H as [-> H]. now apply IH.
Qed.

Lemma strip_all_space (s : string) : all_space s = true -> Py.strip s = "".
Proof. intros H. unfold Py.strip. now rewrite lstrip_ws_all_space. Qed.

Lemma root_relative_not_prefixed (href : string) :
  Py.startswith href "/" = true ->
  Py.truthy href = true
  /\ existsb (fun prefix => Py.startswith href prefix)
             ["javascript:"; "mailto:"; "#"; "tel:"] = false
  /\ Py.startswith href "http://" || Py.startswith href "https://" = false.
Proof.
  unfold Py.startswith. intros H. apply prefix_inv in H. destruct H as [r ->].
  repeat split.
Qed.

End Skipped.

(** X12.  The domain denylist applies to absolute URLs only.  With the
    default configuration a root-relative reference without ["://"] is
    never ignored, whatever fragments such as [google] it contains: it is
    a soft route when it starts with [/go/] and an internal link checked
    on disk otherwise.  An [href] that is empty or white space only is
    skipped and leaves the state as it was. *)
Theorem root_relative_never_ignored
    (base root : string) (table : gmap string string) (href : string) :
  Py.startswith href "/" = true ->
  Py.contains "://" href = false ->
  let cfg := Config_init base root table in
  should_ignore_url cfg href = false
  /\ classify cfg href = (if Py.startswith href "/go/" then SoftRoute else Internal)
  /\ (forall isfile cur anchor a,
        all_space (a_href anchor) = true ->
        check_link cfg isfile cur anchor a = Done a).
Proof.
  intros Hs Hc cfg. destruct (root_relative_not_prefixed href Hs) as (Ht & Hp & Hh).
  assert (Hi : should_ignore_url cfg href = false).
  { unfold should_ignore_url. cbn [cfg Config_init ignore_urls_prefixes].
    now rewrite Ht, Hp, Hc. }
  split; [exact Hi|]. split.
  - unfold classify. rewrite Hi, Hh. now destruct (Py.startswith href "/go/").
  - intros isfile cur anchor a Hw. unfold check_link.
    now rewrite (strip_all_space _ Hw).
Qed.

Lemma root_relative_never_ignored_witness :
  classify two_forms_cfg "/google-ads-guide" = Internal.
Proof.
  destruct (root_relative_never_ignored "https://example.com/" "/srv/site" ∅
              "/google-ads-guide" eq_refl eq_refl) as [_ [H _]].
  exact H.
Defined.

(** ** External links and their [rel] tokens *)

Section RelTokens.

Lemma missing_rels_nil (rel : list string) :
  missing_rels rel = []
  <-> "nofollow" ∈ rel /\ "noopener" ∈ rel /\ "noreferrer" ∈ rel.
Proof.
  assert (E : forall req, existsb (String.eqb req) rel = true <-> req ∈ rel).
  { intros req. rewrite existsb_exists. split.
    - intros [x [Hin Hx]]. apply String.eqb_eq in Hx. subst x.
      now apply list_elem_of_In.
    - intros Hin. exists req. split; [now apply list_elem_of_In|apply String.eqb_refl]. }
  unfold missing_rels. rewrite !filter_cons, filter_nil.
  destruct (existsb (String.eqb "nofollow") rel) eqn:E1;
    destruct (existsb (String.eqb "noopener") rel) eqn:E2;
    destruct (existsb (String.eqb "noreferrer") rel) eqn:E3;
    cbn [negb];
    rewrite ?decide_True by reflexivity; rewrite ?decide_False by discriminate;
    (split; [intros H; try discriminate; repeat split; now apply E
            |intros (H1 & H2 & H3); apply E in H1, H2, H3; congruence]).
Qed.

Lemma missing_rel_message_names_link (cur href : string) (missing : list string) :
  Py.contains href (missing_rel_message cur href missing) = true
  /\ Py.contains "missing rel" (missing_rel_message cur href missing) = true.
Proof.
  unfold missing_rel_message. split.
  - do 3 apply contains_skip. apply contains_prefix.
    unfold Py.startswith. apply prefix_append. clear.
    induction href as [|c h IH]; [reflexivity|]. rewrite prefix_cons, IH.
    now rewrite Ascii.eqb_refl.
  - do 4 apply contains_skip.
    change ("' missing rel attributes: " +:+ Py.join ", " missing)
      with ("' " +:+ ("missing rel" +:+ (" attributes: " +:+ Py.join ", " missing))).
    apply contains_skip, contains_prefix. unfold Py.startswith.
    now rewrite !append_cons, !prefix_cons, prefix_nil.
Qed.

End RelTokens.

(** X13.  An external link is warned about exactly when its [rel] lacks
    one of [nofollow], [noopener], [noreferrer]; order, repetition and
    further tokens do not matter.  It then gets one [WARN] of penalty 2 on
    this page, and the report shows the link as unsafe; with the three
    tokens the page logs nothing for it.  Either way the link enters
    [external_links]. *)
Theorem external_link_rel_check
    (cfg : Config) (isfile : string -> bool) (cur : string) (anchor : Anchor)
    (a : Auditor) :
  let href := Py.strip (a_href anchor) in
  classify cfg href = External ->
  exists a',
    check_link cfg isfile cur anchor a = Done a'
    /\ href ∈ external_links a'
    /\ (("nofollow" ∈ a_rel anchor /\ "noopener" ∈ a_rel anchor
         /\ "noreferrer" ∈ a_rel anchor)
        -> issues a' = issues a)
    /\ (~ ("nofollow" ∈ a_rel anchor /\ "noopener" ∈ a_rel anchor
           /\ "noreferrer" ∈ a_rel anchor)
        -> issues a'
           = issues a ++ [{| level := WARN;
                             message := missing_rel_message cur href
                                          (missing_rels (a_rel anchor));
                             penalty := 2 |}]
           /\ is_safe a' href = false).
Proof.
  intros href Hc. rewrite check_link_by_category. cbv zeta. fold href. rewrite Hc.
  destruct (missing_rels (a_rel anchor)) as [|m ms] eqn:Em.
  - eexists. split; [reflexivity|]. split; [cbn; set_solver|]. split.
    + reflexivity.
    + intros Hn. exfalso. apply Hn. now apply missing_rels_nil.
  - eexists. split; [reflexivity|]. split; [cbn; set_solver|]. split.
    + intros Hall. apply missing_rels_nil in Hall. congruence.
    + intros _. split; [reflexivity|].
      unfold is_safe. cbn [log_issue record_external issues].
      rewrite existsb_app. cbn [existsb message].
      destruct (missing_rel_message_names_link cur href (m :: ms)) as [-> ->].
      cbn [andb orb]. now rewrite orb_true_r.
Qed.

Lemma external_link_rel_check_witness :
  exists a',
    check_link two_forms_cfg two_forms_disk "index.html"
      {| a_href := "https://partner.example.org/"; a_rel := ["noopener"; "nofollow"] |}
      Auditor_init = Done a'
    /\ "https://partner.example.org/" ∈ external_links a'.
Proof.
  destruct (external_link_rel_check two_forms_cfg two_forms_disk "index.html"
              {| a_href := "https://partner.example.org/";
                 a_rel := ["noopener"; "nofollow"] |} Auditor_init)
    as [a' [E [Hin _]]].
  - reflexivity.
  - exists a'. split; [exact E|exact Hin].
Defined.

(** ** The report *)

Section Report.

Lemma any_error_with_log_issue (text msg : string) (lvl : Level) (pen : Z) (a : Auditor) :
  any_error_with text (log_issue lvl msg pen a)
  = any_error_with text a || (is_error lvl && Py.contains text msg).
Proof.
  unfold any_error_with. cbn [log_issue issues]. rewrite existsb_app.
  cbn [existsb level message]. now rewrite orb_false_r.
Qed.

Lemma ledger_score_bounds (a : Auditor) : ledger_ok a -> (0 <= score a <= 100)%Z.
Proof. intros [Hall Hs]. pose proof (total_penalty_nonneg _ Hall). lia. Qed.

Lemma report_advice_after_penalty (lvl : Level) (msg : string) (pen : Z) (a : Auditor) :
  ledger_ok a -> (0 < pen)%Z ->
  report_advice (log_issue lvl msg pen a)
  = Some (any_error_with "Dead Link" (log_issue lvl msg pen a),
          any_error_with "Missing H1" (log_issue lvl msg pen a)).
Proof.
  intros Hok Hpen. pose proof (ledger_score_bounds a Hok) as Hb.
  unfold report_advice. cbn [log_issue score].
  destruct (Z.ltb_spec (Z.max 0 (score a - pen)) 100); [reflexivity|lia].
Qed.

End Report.

(** X14.  The report calls the site healthy exactly when no penalty was
    charged: with a consistent ledger the line "Great Job! Site is
    healthy." is printed if and only if the penalties of all issues sum
    to 0.  Issues of penalty 0 do not count: a healthy site stays healthy
    when a page cannot be read. *)
Theorem report_healthy_iff_no_penalty (a : Auditor) :
  ledger_ok a ->
  (report_advice a = None <-> total_penalty (issues a) = 0%Z)
  /\ (forall cfg isfile e rel_path,
        report_advice a = None ->
        report_advice (audit_file cfg isfile (inl e) rel_path a) = None).
Proof.
  intros Hok. pose proof Hok as [Hall Hs].
  pose proof (total_penalty_nonneg _ Hall) as Hnn.
  assert (E : report_advice a = None <-> (100 <= score a)%Z).
  { unfold report_advice. destruct (Z.ltb_spec (score a) 100); split;
      solve [discriminate | reflexivity | lia]. }
  split.
  - rewrite E. lia.
  - intros cfg isfile e rel_path H. apply E in H.
    unfold report_advice. cbn [audit_file log_issue count_page score].
    destruct (Z.ltb_spec (Z.max 0 (score a - 0)) 100); [lia|reflexivity].
Qed.

Lemma report_healthy_iff_no_penalty_witness :
  report_advice Auditor_init = None <-> total_penalty (issues Auditor_init) = 0%Z.
Proof.
  apply (report_healthy_iff_no_penalty Auditor_init).
  split; [constructor|reflexivity].
Defined.

(** X15.  The advice "Fix broken internal links immediately." is tied to
    the text [Dead Link] in an [ERROR] message, and the messages of dead
    internal links and of external links answering 400 or more both
    carry it: after either, the report prints that advice. *)
Theorem dead_link_advice_covers_external
    (a : Auditor) (cfg : Config) (isfile : string -> bool)
    (href cur url : string) (flag : bool) (code : Z) :
  ledger_ok a ->
  (forallb (fun c => negb (isfile c)) (potential_targets cfg href cur) = true ->
   exists h1,
     report_advice (outcome_state (verify_local_link cfg isfile href cur flag a))
     = Some (true, h1))
  /\ ((400 <= code)%Z ->
      exists h1,
        report_advice (fold_result url (Returned (Some code) None) a) = Some (true, h1)).
Proof.
  intros Hok. split.
  - intros Hdead. rewrite (verify_local_link_dead cfg isfile href cur flag a)
      by now apply resolve_none_of_all_absent.
    cbn [outcome_state]. rewrite report_advice_after_penalty by (assumption || lia).
    eexists. f_equal. f_equal. rewrite any_error_with_log_issue.
    unfold dead_link_message. cbn [is_error andb].
    rewrite (contains_skip "Dead Link" "In ").
    + apply orb_true_r.
    + apply contains_skip.
      change (": Dead Link '" +:+ href +:+ "'")
        with (": " +:+ ("Dead Link" +:+ (" '" +:+ href +:+ "'"))).
      apply contains_skip, contains_prefix. unfold Py.startswith.
      now rewrite !append_cons, !prefix_cons, prefix_nil.
  - intros Hc. cbn [fold_result is_http_error].
    destruct (negb (code =? 0)%Z && (400 <=? code)%Z) eqn:E.
    + rewrite report_advice_after_penalty by (assumption || lia).
      eexists. f_equal. f_equal. rewrite any_error_with_log_issue.
      unfold external_dead_message. cbn [is_error andb].
      change ("External Dead Link '" +:+ url +:+ "' (Status: " +:+ Z_to_string code +:+ ")")
        with ("External " +:+ ("Dead Link" +:+ (" '" +:+ url +:+ "' (Status: "
                                                 +:+ Z_to_string code +:+ ")"))).
      rewrite contains_skip; [apply orb_true_r|].
      apply contains_prefix. unfold Py.startswith.
      now rewrite !append_cons, !prefix_cons, prefix_nil.
    + apply andb_false_iff in E. destruct E as [E|E]; [apply negb_false_iff in E|]; lia.
Qed.

Lemma dead_link_advice_covers_external_witness :
  exists h1,
    report_advice (fold_result "https://partner.example.org/"
                     (Returned (Some 404%Z) None) Auditor_init) = Some (true, h1).
Proof.
  apply (dead_link_advice_covers_external Auditor_init two_forms_cfg two_forms_disk
           "/missing" "index.html" "https://partner.example.org/" false 404).
  - split; [constructor|reflexivity].
  - lia.
Defined.

(** ** The redirect manifest *)

Section Manifest.

Lemma lstrip_ws_skip (ws s : string) :
  all_space ws = true -> Py.lstrip_ws (ws +:+ s) = Py.lstrip_ws s.
Proof.
  induction ws as [|c ws IH]; intros H; [reflexivity|].
  cbn [all_space] in H. apply andb_true_iff in H. destruct H as [Hc Hw].
  rewrite append_cons. cbn [Py.lstrip_ws]. rewrite Hc. now apply IH.
Qed.

Lemma no_space_head (w : string) :
  no_space w = true -> w <> "" ->
  exists c r, w = String c r /\ Py.isspace c = false /\ no_space r = true.
Proof.
  destruct w as [|c r]; intros H Hne; [congruence|].
  cbn [no_space] in H. apply andb_true_iff in H. destruct H as [Hc Hr].
  apply negb_true_iff in Hc. now exists c, r.
Qed.

Lemma rstrip_ws_no_space (w : string) : no_space w = true -> Py.rstrip_ws w = w.
Proof.
  induction w as [|c w IH]; intros H; [reflexivity|].
  cbn [no_space] in H. apply andb_true_iff in H. destruct H as [Hc Hw].
  apply negb_true_iff in Hc. cbn [Py.rstrip_ws]. rewrite (IH Hw), Hc.
  now destruct w.
Qed.

Lemma rstrip_ws_all_space (ws : string) : all_space ws = true -> Py.rstrip_ws ws = "".
Proof.
  induction ws as [|c ws IH]; intros H; [reflexivity|].
  cbn [all_space] in H. apply andb_true_iff in H. destruct H as [Hc Hw].
  cbn [Py.rstrip_ws]. now rewrite (IH Hw), Hc.
Qed.

Lemma rstrip_ws_app_space (y ws : string) :
  all_space ws = true -> Py.rstrip_ws (y +:+ ws) = Py.rstrip_ws y.
Proof.
  intros H. induction y as [|c y IH].
  - rewrite append_nil. now apply rstrip_ws_all_space.
  - rewrite append_cons. cbn [Py.rstrip_ws]. now rewrite IH.
Qed.

Lemma rstrip_ws_keep (x w : string) :
  no_space w = true -> w <> "" -> Py.rstrip_ws (x +:+ w) = x +:+ w.
Proof.
  intros Hw Hne. induction x as [|c x IH].
  - rewrite append_nil. now apply rstrip_ws_no_space.
  - rewrite append_cons. cbn [Py.rstrip_ws]. rewrite IH.
    destruct (x +:+ w) eqn:E; [|reflexivity].
    exfalso. now apply (append_nonempty_r x w Hne).
Qed.

Lemma split_ws_go_space (ws s : string) :
  all_space ws = true -> split_ws_go None (ws +:+ s) = split_ws_go None s.
Proof.
  induction ws as [|c ws IH]; intros H; [reflexivity|].
  cbn [all_space] in H. apply andb_true_iff in H. destruct H as [Hc Hw].
  rewrite append_cons. cbn [split_ws_go]. rewrite Hc. now apply IH.
Qed.

Lemma split_ws_go_word (w s : string) (cur : option string) :
  no_space w = true -> w <> "" ->
  split_ws_go cur (w +:+ s) = split_ws_go (Some (default "" cur +:+ w)) s.
Proof.
  revert cur. induction w as [|c w IH]; intros cur H Hne; [congruence|].
  cbn [no_space] in H. apply andb_true_iff in H. destruct H as [Hc Hw].
  apply negb_true_iff in Hc. rewrite append_cons. cbn [split_ws_go]. rewrite Hc.
  assert (E : match cur with
              | Some w0 => w0 +:+ String c ""
              | None => String c ""
              end = default "" cur +:+ String c "") by now destruct cur.
  rewrite E. destruct w as [|d w'].
  - now rewrite append_nil.
  - rewrite (IH (Some (default "" cur +:+ String c "")) Hw) by discriminate.
    cbn [default]. unfold id. now rewrite append_assoc.
Qed.

Lemma split_ws_two_words (tok sep dest : string) :
  no_space tok = true -> tok <> "" ->
  all_space sep = true -> sep <> "" ->
  no_space dest = true -> dest <> "" ->
  split_ws (tok +:+ sep +:+ dest) = [tok; dest].
Proof.
  intros Ht Htn Hs Hsn Hd Hdn. unfold split_ws.
  rewrite (split_ws_go_word tok _ None Ht Htn). cbn [default]. rewrite append_nil.
  destruct sep as [|c sep]; [congruence|].
  cbn [all_space] in Hs. apply andb_true_iff in Hs. destruct Hs as [Hc Hs].
  rewrite append_cons. cbn [split_ws_go]. rewrite Hc.
  rewrite (split_ws_go_space sep dest Hs).
  rewrite <- (append_empty_r dest) at 1.
  rewrite (split_ws_go_word dest "" None Hd Hdn). cbn [default split_ws_go].
  now rewrite append_nil.
Qed.

Lemma strip_padded (ws1 body w ws2 : string) (c : ascii) :
  all_space ws1 = true -> all_space ws2 = true ->
  Py.isspace c = false -> no_space w = true -> w <> "" ->
  Py.strip (ws1 +:+ String c body +:+ w +:+ ws2) = String c body +:+ w.
Proof.
  intros H1 H2 Hc Hw Hne. unfold Py.strip.
  rewrite (lstrip_ws_skip ws1 _ H1). rewrite append_cons.
  cbn [Py.lstrip_ws]. rewrite Hc.
  change (String c (body +:+ w +:+ ws2)) with (String c body +:+ w +:+ ws2).
  rewrite <- append_assoc, (rstrip_ws_app_space _ ws2 H2).
  now apply rstrip_ws_keep.
Qed.

Lemma add_redirect_keeps (table : gmap string string) (line k : string) :
  is_Some (table !! k) -> is_Some (add_redirect table line !! k).
Proof.
  intros H. unfold add_redirect.
  destruct (parse_redirect_line line) as [[token destination]|]; [|exact H].
  destruct (decide (token = k)) as [->|Hne].
  - rewrite lookup_insert_eq. eauto.
  - now rewrite lookup_insert_ne.
Qed.

Lemma load_lines_keep (lines : list string) (table : gmap string string) (k : string) :
  is_Some (table !! k) -> is_Some (fold_left add_redirect lines table !! k).
Proof.
  revert table. induction lines as [|l rest IH]; intros table H; [exact H|].
  cbn [fold_left]. now apply IH, add_redirect_keeps.
Qed.

Lemma load_lines_defines (lines : list string) (table : gmap string string)
    (line k v : string) :
  line ∈ lines -> parse_redirect_line line = Some (k, v) ->
  is_Some (fold_left add_redirect lines table !! k).
Proof.
  revert table. induction lines as [|l rest IH]; intros table Hin Hp.
  - now apply elem_of_nil in Hin.
  - cbn [fold_left]. apply elem_of_cons in Hin. destruct Hin as [<-|Hin].
    + apply load_lines_keep. unfold add_redirect. rewrite Hp.
      rewrite lookup_insert_eq. eauto.
    + now apply IH.
Qed.

End Manifest.

(** X16.  Reading a line of [_redirects].  A line made of a token, white
    space and a destination, with any white space around (the line end
    included), defines the token, unless the token starts with [#]; a
    blank line and a comment line, indented or not, define nothing. *)
Theorem manifest_line_parsed
    (ws1 tok sep dest ws2 comment : string) (table : gmap string string) :
  all_space ws1 = true -> all_space ws2 = true ->
  all_space sep = true -> sep <> "" ->
  no_space tok = true -> tok <> "" -> Py.startswith tok "#" = false ->
  no_space dest = true -> dest <> "" ->
  parse_redirect_line (ws1 +:+ tok +:+ sep +:+ dest +:+ ws2) = Some (tok, dest)
  /\ add_redirect table (ws1 +:+ tok +:+ sep +:+ dest +:+ ws2) !! tok = Some dest
  /\ add_redirect table ws1 = table
  /\ add_redirect table (ws1 +:+ "#" +:+ comment) = table.
Proof.
  intros H1 H2 Hs Hsn Ht Htn Hh Hd Hdn.
  assert (Hp : parse_redirect_line (ws1 +:+ tok +:+ sep +:+ dest +:+ ws2)
               = Some (tok, dest)).
  { destruct (no_space_head tok Ht Htn) as (c & r & -> & Hc & Hr).
    unfold parse_redirect_line. cbv zeta.
    assert (E : Py.strip (ws1 +:+ String c r +:+ sep +:+ dest +:+ ws2)
                = String c r +:+ sep +:+ dest).
    { replace (ws1 +:+ String c r +:+ sep +:+ dest +:+ ws2)
        with (ws1 +:+ String c (r +:+ sep) +:+ dest +:+ ws2)
        by (now rewrite <- !append_cons, !append_assoc).
      rewrite (strip_padded ws1 (r +:+ sep) dest ws2 c H1 H2 Hc Hd Hdn).
      now rewrite <- append_cons, append_assoc. }
    rewrite E.
    assert (Et : Py.truthy (String c r +:+ sep +:+ dest) = true) by now rewrite append_cons.
    assert (Eh : Py.startswith (String c r +:+ sep +:+ dest) "#" = false).
    { unfold Py.startswith in *. rewrite append_cons. rewrite prefix_cons in *.
      now rewrite prefix_nil, andb_true_r in *. }
    rewrite Et, Eh. cbn [negb orb].
    now rewrite (split_ws_two_words (String c r) sep dest Ht Htn Hs Hsn Hd Hdn). }
  split; [exact Hp|]. split.
  - unfold add_redirect. rewrite Hp. apply lookup_insert_eq.
  - split.
    + unfold add_redirect, parse_redirect_line. cbv zeta.
      now rewrite (strip_all_space ws1 H1).
    + unfold add_redirect, parse_redirect_line. cbv zeta.
      assert (E : Py.startswith (Py.strip (ws1 +:+ "#" +:+ comment)) "#" = true).
      { unfold Py.strip. rewrite (lstrip_ws_skip ws1 _ H1).
        change ("#" +:+ comment) with (String "#" comment).
        cbn [Py.lstrip_ws]. change (Py.isspace "#") with false. cbv iota.
        cbn [Py.rstrip_ws]. change (Py.isspace "#") with false.
        unfold Py.startswith. destruct (Py.rstrip_ws comment);
          now rewrite prefix_cons, prefix_nil. }
      rewrite E. now rewrite orb_true_r.
Qed.

Lemma manifest_line_parsed_witness :
  parse_redirect_line ("  " +:+ "/go/shop" +:+ "  " +:+ "https://shop.example.org/"
                       +:+ String (ascii_of_nat 10) "")
  = Some ("/go/shop", "https://shop.example.org/").
Proof.
  apply (manifest_line_parsed "  " "/go/shop" "  " "https://shop.example.org/"
           (String (ascii_of_nat 10) "") "" ∅);
    solve [reflexivity | discriminate].
Defined.

(** X17.  Entries of the manifest are only added or overwritten, never
    removed, the last line for a token wins, and a soft route defined by
    any line of the manifest is never warned about by [check_links]. *)
Theorem manifest_tokens_never_warned
    (lines : list string) (line href destination base root : string)
    (isfile : string -> bool) (cur : string) (anchor : Anchor) (a : Auditor) :
  line ∈ lines ->
  parse_redirect_line line = Some (href, destination) ->
  Py.strip (a_href anchor) = href ->
  let table := load_redirects (Some lines) ∅ in
  let cfg := Config_init base root table in
  classify cfg href = SoftRoute ->
  is_Some (table !! href)
  /\ (forall earlier t,
        load_redirects (Some (earlier ++ [line])) t !! href = Some destination)
  /\ (forall more k t,
        is_Some (t !! k) -> is_Some (load_redirects (Some more) t !! k))
  /\ (exists a',
        check_link cfg isfile cur anchor a = Done a' /\ issues a' = issues a).
Proof.
  intros Hin Hp Hs table cfg Hc.
  assert (Hd : is_Some (table !! href)) by (eapply load_lines_defines; eassumption).
  split; [exact Hd|]. split; [|split].
  - intros earlier t. cbn [load_redirects]. rewrite fold_left_app. cbn [fold_left].
    unfold add_redirect at 1. rewrite Hp. apply lookup_insert_eq.
  - intros more k t. apply load_lines_keep.
  - rewrite check_link_by_category. cbv zeta. rewrite Hs, Hc.
    cbn [cfg Config_init redirects].
    rewrite (bool_decide_true (is_Some (table !! href))) by exact Hd.
    cbn [negb]. rewrite andb_false_r. eexists. split; reflexivity.
Qed.

Lemma manifest_tokens_never_warned_witness :
  exists a',
    check_link (Config_init "https://example.com/" "/srv/site"
                  (load_redirects (Some ["# offers"; "/go/offer /offers/today"]) ∅))
               two_forms_disk "index.html" offer_link Auditor_init = Done a'
    /\ issues a' = issues Auditor_init.
Proof.
  destruct (manifest_tokens_never_warned ["# offers"; "/go/offer /offers/today"]
              "/go/offer /offers/today" "/go/offer" "/offers/today"
              "https://example.com/" "/srv/site" two_forms_disk "index.html"
              offer_link Auditor_init) as [_ [_ [_ H]]].
  - apply elem_of_cons. right. apply list_elem_of_singleton. reflexivity.
  - reflexivity.
  - reflexivity.
  - reflexivity.
  - exact H.
Defined.

(** ** Pruned directories *)

(** X18.  [should_ignore_path] looks for the ignored fragments anywhere in
    the joined path.  So every directory below an ignored path is pruned
    too, in particular every directory of a site whose root path itself
    holds a fragment such as [MasterTool], and a directory whose own name
    holds a fragment is pruned wherever it lies. *)
Theorem ignored_path_hides_subtree
    (ignore_paths : list string) (root d : string) :
  should_ignore_path ignore_paths root = true ->
  Py.startswith d "/" = false ->
  pruned ignore_paths root d = true
  /\ (forall d', Py.startswith d' "/" = false ->
        pruned ignore_paths (posixpath.join root [d]) d' = true)
  /\ (forall root' name,
        should_ignore_path ignore_paths name = true ->
        pruned ignore_paths root' name = true).
Proof.
  assert (Below : forall r x,
            should_ignore_path ignore_paths r = true ->
            Py.startswith x "/" = false ->
            should_ignore_path ignore_paths (posixpath.join r [x]) = true).
  { intros r x Hr Hx. unfold should_ignore_path in *.
    apply existsb_exists in Hr. destruct Hr as [ignore [Hin Hc]].
    apply existsb_exists. exists ignore. split; [exact Hin|].
    unfold posixpath.join. cbn [fold_left]. unfold posixpath.join2. rewrite Hx.
    destruct (String.eqb r "" || Py.endswith r "/"); now apply contains_append. }
  intros Hr Hd. split; [now apply Below|]. split.
  - intros d' Hd'. unfold pruned. apply Below; [now apply Below|exact Hd'].
  - intros root' name Hn. unfold pruned, should_ignore_path in *.
    apply existsb_exists in Hn. destruct Hn as [ignore [Hin Hc]].
    apply existsb_exists. exists ignore. split; [exact Hin|].
    unfold posixpath.join. cbn [fold_left]. unfold posixpath.join2.
    destruct (Py.startswith name "/"); [exact Hc|].
    destruct (String.eqb root' "" || Py.endswith root' "/").
    + now apply contains_skip.
    + now apply contains_skip, contains_skip.
Qed.

Lemma ignored_path_hides_subtree_witness :
  pruned default_ignore_paths tool_root "blog" = true.
Proof.
  destruct (ignored_path_hides_subtree default_ignore_paths tool_root "blog")
    as [H _]; [reflexivity|reflexivity|exact H].
Defined.

(** ** Independence of the iteration order *)

Section Orders.

Variable cfg : Config.

Lemma after_penalties_step (n : nat) (s : Z) :
  after_penalties (S n) s = after_penalties n (Z.max 0 (s - 5)).
Proof. unfold after_penalties. now rewrite Nat.iter_succ_r. Qed.

Lemma equity_loop_score (files : list string) (a : Auditor) :
  score (equity_loop cfg files a)
  = after_penalties (length (filter (fun f => is_orphan cfg a f = true) files)) (score a).
Proof.
  assert (G : forall a0, internal_links_map a0 = internal_links_map a ->
              score (equity_loop cfg files a0)
              = after_penalties
                  (length (filter (fun f => is_orphan cfg a f = true) files)) (score a0)).
  { induction files as [|f rest IH]; intros a0 Hm; [reflexivity|].
    change (equity_loop cfg (f :: rest) a0)
      with (equity_loop cfg rest (equity_step cfg a0 f)).
    destruct (equity_step_issues cfg a0 f) as [_ Hl].
    rewrite IH by now rewrite Hl. rewrite filter_cons.
    assert (Eo : is_orphan cfg a0 f = is_orphan cfg a f)
      by now apply is_orphan_same_links.
    assert (Es : equity_step cfg a0 f
                 = if is_orphan cfg a0 f
                   then log_issue WARN (orphan_message f) 5 a0 else a0).
    { unfold equity_step, is_orphan.
      destruct (should_ignore_file cfg f); cbn [negb andb]; [reflexivity|].
      now destruct (inbound_count a0 f =? 0)%nat. }
    rewrite Es, Eo. destruct (is_orphan cfg a f).
    - rewrite decide_True by reflexivity. cbn [length].
      now rewrite after_penalties_step.
    - now rewrite decide_False by discriminate. }
  now apply G.
Qed.

Lemma fold_result_appends (url : string) (v : Verdict) (a : Auditor) :
  issues (fold_result url v a) = issues a ++ verdict_issues url v
  /\ score (fold_result url v a)
     = after_penalties (length (verdict_issues url v)) (score a)
  /\ (length (verdict_issues url v) <= 1)%nat
  /\ Forall (fun i => level i = ERROR /\ penalty i = 5%Z) (verdict_issues url v).
Proof.
  unfold verdict_issues, fold_result. destruct v as [code error|e].
  - destruct (is_http_error code).
    + repeat split; [cbn; lia|now repeat constructor].
    + destruct error as [e|].
      * destruct (Py.truthy e).
        -- repeat split; [cbn; lia|now repeat constructor].
        -- repeat split; [cbn; now rewrite app_nil_r|cbn; lia|constructor].
      * repeat split; [cbn; now rewrite app_nil_r|cbn; lia|constructor].
  - repeat split; [cbn; lia|now repeat constructor].
Qed.

Lemma after_penalties_add (n m : nat) (s : Z) :
  after_penalties (n + m) s = after_penalties m (after_penalties n s).
Proof.
  revert s. induction n as [|n IH]; intros s; [reflexivity|].
  change (S n + m)%nat with (S (n + m)). rewrite !after_penalties_step. apply IH.
Qed.

Lemma drain_appends (net : Network) (urls : list string) (a : Auditor) :
  issues (fst (drain net urls a))
  = issues a ++ flat_map (fun u => verdict_issues u (fst (verify_url net u))) urls
  /\ score (fst (drain net urls a))
     = after_penalties
         (length (flat_map (fun u => verdict_issues u (fst (verify_url net u))) urls))
         (score a).
Proof.
  revert a. induction urls as [|u rest IH]; intros a.
  - cbn. now rewrite app_nil_r.
  - cbn [drain flat_map]. destruct (verify_url net u) as [v sent] eqn:E.
    specialize (IH (fold_result u v a)).
    destruct (drain net rest (fold_result u v a)) as [a' sent']. cbn [fst] in *.
    destruct IH as [Hi Hs]. destruct (fold_result_appends u v a) as (Fi & Fs & _).
    split.
    + now rewrite Hi, Fi, <- app_assoc.
    + now rewrite Hs, Fs, length_app, after_penalties_add.
Qed.

Lemma drain_sent_length (net : Network) (urls : list string) (a : Auditor) :
  (length urls <= length (snd (drain net urls a)) <= 2 * length urls)%nat.
Proof.
  revert a. induction urls as [|u rest IH]; intros a; [cbn; lia|].
  cbn [drain]. pose proof (verify_url_sent net u) as Hv.
  destruct (verify_url net u) as [v sent]. specialize (IH (fold_result u v a)).
  destruct (drain net rest (fold_result u v a)) as [a' sent']. cbn [snd] in *.
  rewrite length_app. cbn [length]. destruct Hv as [-> | ->]; cbn [length]; lia.
Qed.

Lemma flat_map_length_le (net : Network) (urls : list string) :
  (length (flat_map (fun u => verdict_issues u (fst (verify_url net u))) urls)
   <= length urls)%nat.
Proof.
  induction urls as [|u rest IH]; [cbn; lia|].
  cbn [flat_map]. rewrite length_app.
  destruct (fold_result_appends u (fst (verify_url net u)) Auditor_init) as (_ & _ & H & _).
  cbn [length]. lia.
Qed.

End Orders.

(** X19.  The outcome of [analyze_link_equity] does not depend on the
    order in which Python walks the set [processed_files]: two orders
    give the same issues up to their order and the same score, which is
    the score before after one penalty of 5 per orphan, each clamped
    at 0. *)
Theorem equity_analysis_order_independent
    (cfg : Config) (order1 order2 : SetOrder) (a : Auditor) :
  walks_each_once order1 ->
  walks_each_once order2 ->
  issues (analyze_link_equity cfg order1 a) ≡ₚ issues (analyze_link_equity cfg order2 a)
  /\ score (analyze_link_equity cfg order1 a) = score (analyze_link_equity cfg order2 a)
  /\ score (analyze_link_equity cfg order1 a)
     = after_penalties
         (length (filter (fun f => is_orphan cfg a f = true)
                         (elements (processed_files a)))) (score a).
Proof.
  intros H1 H2. unfold analyze_link_equity.
  assert (P : forall order, walks_each_once order ->
              filter (fun f => is_orphan cfg a f = true) (order (processed_files a))
              ≡ₚ filter (fun f => is_orphan cfg a f = true) (elements (processed_files a))).
  { intros order Hw. now rewrite (Hw (processed_files a)). }
  rewrite !equity_loop_issues, !equity_loop_score.
  rewrite (Permutation_length (P order1 H1)), (Permutation_length (P order2 H2)).
  split; [|split; reflexivity].
  apply Permutation_app_head, Permutation_map.
  now rewrite (P order1 H1), (P order2 H2).
Qed.

Lemma equity_analysis_order_independent_witness :
  score (analyze_link_equity two_forms_cfg elements home_only)
  = score (analyze_link_equity two_forms_cfg (fun s => rev (elements s)) home_only).
Proof.
  destruct (equity_analysis_order_independent two_forms_cfg elements
              (fun s => rev (elements s)) home_only) as [_ [H _]].
  - intros s. reflexivity.
  - intros s. apply Permutation_sym, Permutation_rev.
  - exact H.
Defined.

(** X20.  External verification in numbers and in any order.  For [n]
    URLs, between [n] and [2n] requests are sent and at most [n] issues
    are logged, each an [ERROR] of penalty 5; two completion orders of
    the same URLs give the same issues up to their order and the same
    score. *)
Theorem external_verification_bounds_and_order
    (net : Network) (urls1 urls2 : list string) (a : Auditor) :
  urls1 ≡ₚ urls2 ->
  (length urls1 <= length (snd (drain net urls1 a)) <= 2 * length urls1)%nat
  /\ (exists new,
        issues (fst (drain net urls1 a)) = issues a ++ new
        /\ (length new <= length urls1)%nat
        /\ Forall (fun i => level i = ERROR /\ penalty i = 5%Z) new)
  /\ issues (fst (drain net urls1 a)) ≡ₚ issues (fst (drain net urls2 a))
  /\ score (fst (drain net urls1 a)) = score (fst (drain net urls2 a)).
Proof.
  intros Hp. split; [apply drain_sent_length|].
  destruct (drain_appends net urls1 a) as [I1 S1].
  destruct (drain_appends net urls2 a) as [I2 S2].
  assert (Pf : flat_map (fun u => verdict_issues u (fst (verify_url net u))) urls1
               ≡ₚ flat_map (fun u => verdict_issues u (fst (verify_url net u))) urls2)
    by now apply Permutation_flat_map.
  split; [|split].
  - eexists. split; [exact I1|]. split; [apply flat_map_length_le|].
    clear. induction urls1 as [|u rest IH]; [constructor|].
    cbn [flat_map]. apply Forall_app. split; [|exact IH].
    now destruct (fold_result_appends u (fst (verify_url net u)) Auditor_init)
      as (_ & _ & _ & H).
  - rewrite I1, I2. now apply Permutation_app_head.
  - rewrite S1, S2. now rewrite (Permutation_length Pf).
Qed.

Lemma external_verification_bounds_and_order_witness :
  score (fst (drain head_404 ["https://a.example.org/"; "https://b.example.org/"]
                Auditor_init)) = 90%Z.
Proof.
  destruct (external_verification_bounds_and_order head_404
              ["https://a.example.org/"; "https://b.example.org/"]
              ["https://b.example.org/"; "https://a.example.org/"] Auditor_init)
    as [_ [_ [_ H]]].
  - apply perm_swap.
  - rewrite H. reflexivity.
Defined.
